(* FlightPulse: notification workflows, EventBridge routing, the read API and
   the DynamoDB stream handler.

   The workflow definitions, the routing rules and the two Node.js handlers
   are embedded from the TypeScript sources:
     infrastructure/lib/flightpulse-stack.ts
     lambdas/nodejs/api-handlers/src/index.ts
     lambdas/nodejs/stream-handler/src/index.ts
   The Step Functions service that executes a state machine is not part of
   the repository; its behaviour is modelled from section 4.1 of the
   specification (module Engine). *)

Set Warnings "-register-all".
From stdpp Require Import gmap strings list fin_maps.
From Stdlib Require Import ZArith Ascii.
Open Scope Z_scope.

(* ===================================================================== *)
(* JSON documents, paths and the single table                            *)
(* ===================================================================== *)

(* A JSON value. Objects are finite maps from field names to values: the
   execution context of a workflow, a DynamoDB item as the document client
   returns it, an event detail. *)
Inductive JSON :=
| JNull
| JBool (b : bool)
| JNum (n : Z)
| JStr (s : string)
| JArr (l : list JSON)
| JObj (f : gmap string JSON).

(* A JsonPath of the form $.a.b.c, as the list of field names. *)
Abbreviation Path := (list string).

(* The primary key (PK, SK) of the single table. *)
Abbreviation Key := (string * string)%type.

(* An item: attribute name to value. *)
Abbreviation Item := (gmap string JSON).

(* The table. *)
Abbreviation Table := (gmap Key (gmap string JSON)).

Fixpoint get_path (p : Path) (j : JSON) : option JSON :=
  match p with
  | [] => Some j
  | k :: p' =>
      match j with
      | JObj f => match f !! k with Some v => get_path p' v | None => None end
      | _ => None
      end
  end.

Definition fields_of (j : JSON) : gmap string JSON :=
  match j with JObj f => f | _ => ∅ end.

(** Modelled from the spec: how the engine writes a step's result into the
    context (section 4.1: at the step's configured output path, never
    overwriting unrelated keys). At the root the fields of an object result
    are added to the fields of the context; below the root the value is
    stored under the last field name, the other fields are kept. *)
Fixpoint put_path (p : Path) (v : JSON) (j : JSON) : JSON :=
  match p with
  | [] =>
      match j, v with
      | JObj c, JObj r => JObj (r ∪ c)
      | _, _ => v
      end
  | [k] => JObj (<[k := v]> (fields_of j))
  | k :: p' =>
      JObj (<[k := put_path p' v (default (JObj ∅) (fields_of j !! k))]> (fields_of j))
  end.

(* ===================================================================== *)
(* Strings                                                               *)
(* ===================================================================== *)

Fixpoint string_drop (n : nat) (s : string) : string :=
  match n with
  | O => s
  | S n' => match s with EmptyString => EmptyString | String _ s' => string_drop n' s' end
  end.

(* String.prototype.replace with a string pattern: the first occurrence
   only. *)
Fixpoint replace_first (pat rep s : string) : string :=
  if String.prefix pat s then rep +:+ string_drop (String.length pat) s
  else match s with
       | EmptyString => EmptyString
       | String c s' => String c (replace_first pat rep s')
       end.

(* String.prototype.startsWith. *)
Definition startsWith (s pre : string) : bool := String.prefix pre s.

(* ===================================================================== *)
(* State machine definitions (the CDK constructs used by the stack)      *)
(* ===================================================================== *)

(* sfn.JsonPath and sfn.TaskInput values. *)
Inductive Tmpl :=
| lit (j : JSON)                     (* a literal *)
| stringAt (p : Path)                (* sfn.JsonPath.stringAt('$.p') *)
| objectAt (p : Path)                (* sfn.JsonPath.objectAt('$.p') *)
| executionInput (p : Path)          (* '$$.Execution.Input.p' *)
| entirePayload                      (* sfn.JsonPath.entirePayload *)
| format (fmt : string) (arg : Tmpl) (* sfn.JsonPath.format(fmt, arg) *).

(* sfnTasks.DynamoAttributeValue. *)
Inductive DynamoAttributeValue :=
| fromString (t : Tmpl)
| numberFromString (t : Tmpl).

(* The service integrations the workflows use. A key condition
   'PK = :pk AND begins_with(SK, :sk)' is kept as its two values, a SET
   update expression as the list of its assignments with the attribute-name
   and attribute-value placeholders resolved. *)
Inductive Action :=
| DynamoQuery (pk sk : DynamoAttributeValue)
| DynamoGetItem (pk sk : DynamoAttributeValue)
| DynamoUpdateItem (pk sk : DynamoAttributeValue)
    (updateExpression : list (string * DynamoAttributeValue))
| LambdaInvoke (payload : list (string * Tmpl))
| EventBridgePutEvents (detail : list (string * Tmpl)) (detailType source : string)
| SnsPublish (message : list (string * Tmpl)).

(* sfn.Condition. *)
Inductive Condition :=
| numberGreaterThan (p : Path) (n : Z)
| booleanEquals (p : Path) (b : bool).

(* A state; a chain a.next(b).next(c) is the list [a; b; c]. The catch of a
   state is the handler given to addCatch with its resultPath. *)
Inductive State :=
| Task (name : string) (action : Action) (resultPath : option Path)
    (catch : option (State * Path))
| Choice (name : string) (when : Condition) (thenDo otherwise : list State)
| Parallel (name : string) (branches : list (list State))
    (catch : option (State * Path))
| Map (name : string) (itemsPath : Path) (maxConcurrency : option nat)
    (parameters : option (list (string * Tmpl))) (iterator : list State)
    (catch : option (State * Path))
| Pass (name : string)
| Succeed (name : string).

(* ===================================================================== *)
(* The workflow engine                                                   *)
(* ===================================================================== *)

(* The Step Functions service interprets the definitions above. It is not
   code of the repository: its behaviour is taken from the specification
   (section 4.1, Workflow Engine; section 6 for the store), and the
   definitions that model it say so. *)

Module Engine.

(** Modelled from the spec: the failure taxonomy surfaced to the Failure
    Reporter (section 4.1), which the service raises and the stack does not
    declare. *)
Inductive ErrorKind :=
| StoreUnavailable | RecordNotFound | ExternalCallFailed | ValidationFailed.

Record Error := mkError { kind : ErrorKind; cause : string }.

Definition kind_name (k : ErrorKind) : string :=
  match k with
  | StoreUnavailable => "StoreUnavailable"
  | RecordNotFound => "RecordNotFound"
  | ExternalCallFailed => "ExternalCallFailed"
  | ValidationFailed => "ValidationFailed"
  end.

(* What a catch hands to its handler: { Error, Cause }. *)
Definition error_json (e : Error) : JSON :=
  JObj (<["Error" := JStr (kind_name (kind e))]> (<["Cause" := JStr (cause e)]> ∅)).

(* Calls that leave the engine, each recorded with the table as it was when
   the call was issued. *)
Inductive Effect :=
| Updated (k : Key) (sets : list (string * JSON))
| Generated (payload : JSON)
| Published (source detailType : string) (detail : JSON)
| Reported (message : JSON).

Record Entry := mkEntry { snapshot : Table; effect : Effect }.

Inductive Outcome :=
| Continue (ctx : JSON)   (* the state is done, the chain goes on *)
| Finished                (* a terminal state, or a catch handler, ended the chain *)
| Failed (e : Error).     (* uncaught failure *)

Record Result := mkResult { outcome : Outcome; table : Table; trace : list Entry }.

(* --- the store ------------------------------------------------------- *)

(** Modelled from the spec: Query(pk, sk_prefix) of the State Store
    (section 6), the DynamoDB query the stack calls but does not implement:
    the items of one partition whose sort key starts with the prefix. *)
Definition in_partition (pk sk : string) (kv : Key * gmap string JSON) : Prop :=
  kv.1.1 = pk ∧ String.prefix sk kv.1.2 = true.

#[global] Instance in_partition_dec pk sk kv : Decision (in_partition pk sk kv).
Proof. unfold in_partition. apply _. Defined.

Definition query (pk sk : string) (σ : Table) : list (gmap string JSON) :=
  (map_to_list (filter (in_partition pk sk) σ)).*2.

Definition key_item (k : Key) : gmap string JSON :=
  <["PK" := JStr k.1]> (<["SK" := JStr k.2]> ∅).

Definition apply_sets (sets : list (string * JSON)) (it : gmap string JSON)
  : gmap string JSON :=
  list_to_map sets ∪ it.

(** Modelled from the spec: the atomic multi-attribute update of a single
    item (section 6), DynamoDB's UpdateItem, which the stack calls but does
    not implement. With a SET expression and no condition the assignments
    are applied to the item in one write; an absent item is created from its
    key. *)
Definition update_item (k : Key) (sets : list (string * JSON)) (σ : Table) : Table :=
  <[k := apply_sets sets (default (key_item k) (σ !! k))]> σ.

(* --- templates ------------------------------------------------------- *)

Section Templates.
(* The execution input ($$.Execution.Input) and the input of the state ($). *)
Variables (x0 ctx : JSON).

(** Modelled from the spec: how the engine resolves a path against the
    context (section 4.1: later steps read the trigger payload and all
    prior step outputs); the resolution is done by the service. A path
    that leads nowhere does not resolve. *)
Fixpoint eval_tmpl (t : Tmpl) : option JSON :=
  match t with
  | lit j => Some j
  | stringAt p => get_path p ctx
  | objectAt p => get_path p ctx
  | executionInput p => get_path p x0
  | entirePayload => Some ctx
  | format fmt arg =>
      match eval_tmpl arg with
      | Some (JStr s) => Some (JStr (replace_first "{}" s fmt))
      | _ => None
      end
  end.

(* A string attribute must resolve to a string; a number travels as a
   number or as its text. *)
Definition eval_attr (a : DynamoAttributeValue) : option JSON :=
  match a with
  | fromString t =>
      match eval_tmpl t with Some (JStr s) => Some (JStr s) | _ => None end
  | numberFromString t =>
      match eval_tmpl t with
      | Some (JNum n) => Some (JNum n)
      | Some (JStr s) => Some (JStr s)
      | _ => None
      end
  end.

Definition eval_key (pk sk : DynamoAttributeValue) : option Key :=
  match eval_attr pk, eval_attr sk with
  | Some (JStr p), Some (JStr s) => Some (p, s)
  | _, _ => None
  end.

Fixpoint eval_sets (l : list (string * DynamoAttributeValue))
  : option (list (string * JSON)) :=
  match l with
  | [] => Some []
  | (a, v) :: l' =>
      match eval_attr v, eval_sets l' with
      | Some j, Some r => Some ((a, j) :: r)
      | _, _ => None
      end
  end.

(* sfn.TaskInput.fromObject: every field must resolve. *)
Fixpoint eval_obj (l : list (string * Tmpl)) : option (gmap string JSON) :=
  match l with
  | [] => Some ∅
  | (a, t) :: l' =>
      match eval_tmpl t, eval_obj l' with
      | Some j, Some r => Some (<[a := j]> r)
      | _, _ => None
      end
  end.

(** Modelled from the spec: a Choice evaluates its predicate over the
    context and takes the default branch when it does not hold
    (section 4.1). *)
Definition eval_cond (c : Condition) : bool :=
  match c with
  | numberGreaterThan p n =>
      match get_path p ctx with Some (JNum m) => bool_decide (n < m) | _ => false end
  | booleanEquals p b =>
      match get_path p ctx with Some (JBool b') => Bool.eqb b' b | _ => false end
  end.
End Templates.

Definition unresolved (name : string) : Error :=
  mkError ValidationFailed name.

Definition put_result (rp : option Path) (v : JSON) (ctx : JSON) : JSON :=
  put_path (default [] rp) v ctx.

(* --- execution ------------------------------------------------------- *)

Section Exec.
(* Injected failures: which task fails on which input, and how (store
   unavailable, external call failed, ...). *)
Variable fault : string → JSON → option Error.
(* The message generator, an opaque call. *)
Variable generate : JSON → JSON.
(* The trigger payload the execution is bound to. *)
Variable x0 : JSON.

Definition ok (ctx : JSON) (σ : Table) (t : list Entry) : Result :=
  mkResult (Continue ctx) σ t.
Definition fail (e : Error) (σ : Table) : Result :=
  mkResult (Failed e) σ [].

(** Modelled from the spec: a Task (section 4.1), run by the service: one
    unit of work (a store query, a store update, an external call) on the
    current context, whose output is written into the context at the
    result path. A lookup of a record that does not exist raises
    RecordNotFound. *)
Definition exec_action (name : string) (a : Action) (rp : option Path)
    (σ : Table) (ctx : JSON) : Result :=
  match a with
  | DynamoQuery pk sk =>
      match eval_key x0 ctx pk sk with
      | Some (p, s) =>
          let items := query p s σ in
          ok (put_result rp
                (JObj (<["Items" := JArr (JObj <$> items)]>
                       (<["Count" := JNum (Z.of_nat (length items))]> ∅))) ctx)
             σ []
      | None => fail (unresolved name) σ
      end
  | DynamoGetItem pk sk =>
      match eval_key x0 ctx pk sk with
      | Some k =>
          match σ !! k with
          | Some it => ok (put_result rp (JObj (<["Item" := JObj it]> ∅)) ctx) σ []
          | None => fail (mkError RecordNotFound name) σ
          end
      | None => fail (unresolved name) σ
      end
  | DynamoUpdateItem pk sk upd =>
      match eval_key x0 ctx pk sk, eval_sets x0 ctx upd with
      | Some k, Some sets =>
          ok (put_result rp (JObj ∅) ctx) (update_item k sets σ)
             [mkEntry σ (Updated k sets)]
      | _, _ => fail (unresolved name) σ
      end
  | LambdaInvoke payload =>
      match eval_obj x0 ctx payload with
      | Some pl =>
          ok (put_result rp (JObj (<["Payload" := generate (JObj pl)]> ∅)) ctx) σ
             [mkEntry σ (Generated (JObj pl))]
      | None => fail (unresolved name) σ
      end
  | EventBridgePutEvents detail detailType source =>
      match eval_obj x0 ctx detail with
      | Some d =>
          ok (put_result rp (JObj ∅) ctx) σ
             [mkEntry σ (Published source detailType (JObj d))]
      | None => fail (unresolved name) σ
      end
  | SnsPublish message =>
      match eval_obj x0 ctx message with
      | Some m =>
          ok (put_result rp (JObj ∅) ctx) σ [mkEntry σ (Reported (JObj m))]
      | None => fail (unresolved name) σ
      end
  end.

(** Modelled from the spec: a Task may fail for reasons outside the
    workflow (StoreUnavailable, ExternalCallFailed; section 4.1); the
    oracle [fault] decides. *)
Definition exec_task (name : string) (a : Action) (rp : option Path)
    (σ : Table) (ctx : JSON) : Result :=
  match fault name ctx with
  | Some e => fail e σ
  | None => exec_action name a rp σ ctx
  end.

(** Modelled from the spec: the catch policy of the engine (section 4.1):
    on failure of the state, control moves to the handler, which gets the
    state's input with the error written at the catch's result path; the
    states that followed the failed one are not run. A state without a
    catch passes its failure on. *)
Definition handle (c : option ((Table → JSON → Result) * Path)) (ctx : JSON)
    (r : Result) : Result :=
  match outcome r, c with
  | Failed e, Some (h, p) =>
      let r' := h (table r) (put_path p (error_json e) ctx) in
      mkResult (match outcome r' with Failed e' => Failed e' | _ => Finished end)
               (table r') (trace r ++ trace r')
  | _, _ => r
  end.

(** Modelled from the spec: the engine runs the states of a chain in
    order, each on the context the previous one left (section 4.1). *)
Fixpoint run_chain (l : list (Table → JSON → Result)) (σ : Table) (ctx : JSON)
  : Result :=
  match l with
  | [] => ok ctx σ []
  | f :: l' =>
      let r := f σ ctx in
      match outcome r with
      | Continue ctx' =>
          let r' := run_chain l' (table r) ctx' in
          mkResult (outcome r') (table r') (trace r ++ trace r')
      | _ => r
      end
  end.

(* Parallel and Map: every branch (item) is executed; the step succeeds
   only if each of them does, and reports the first failure otherwise. The
   branches (items) are run one after the other, one of the schedules the
   engine allows. *)
Definition first_failure (o1 o2 : option Error) : option Error :=
  match o1 with Some e => Some e | None => o2 end.

Definition failure_of (o : Outcome) : option Error :=
  match o with Failed e => Some e | _ => None end.

(** Modelled from the spec: Parallel and Map of the engine (section 4.1):
    all branches execute, item order does not affect the outcome, and the
    step succeeds only if every branch (item) does. *)
Fixpoint run_all (l : list (Table → Result)) (σ : Table)
  : option Error * Table * list Entry :=
  match l with
  | [] => (None, σ, [])
  | f :: l' =>
      let r := f σ in
      let '(o, σ', t) := run_all l' (table r) in
      (first_failure (failure_of (outcome r)) o, σ', trace r ++ t)
  end.

Definition join (ctx : JSON) (r : option Error * Table * list Entry) : Result :=
  match r with
  | (Some e, σ, t) => mkResult (Failed e) σ t
  | (None, σ, t) => mkResult (Continue ctx) σ t
  end.

(** Modelled from the spec: the sub-workflow of a Map runs once per item
    (section 4.3: for each booking item, with the triggering event's
    detail carried through): its input is the item, or the parameters
    resolved against the item. *)
Definition item_input (parameters : option (list (string * Tmpl))) (item : JSON)
  : option JSON :=
  match parameters with
  | None => Some item
  | Some ps => JObj <$> eval_obj x0 item ps
  end.

Definition run_item (name : string) (parameters : option (list (string * Tmpl)))
    (iter : Table → JSON → Result) (item : JSON) (σ : Table) : Result :=
  match item_input parameters item with
  | Some i => iter σ i
  | None => fail (unresolved name) σ
  end.

(** Modelled from the spec: the executor of the Workflow Engine
    (section 4.1, execute(ctx) -> StepResult), the part of the Step
    Functions service that interprets a state. Map and Parallel hand the
    context on unchanged. *)
Fixpoint exec (s : State) (σ : Table) (ctx : JSON) {struct s} : Result :=
  match s with
  | Task name a rp c =>
      handle (match c with Some (h, p) => Some (exec h, p) | None => None end)
             ctx (exec_task name a rp σ ctx)
  | Choice _ cond t e =>
      if eval_cond ctx cond then run_chain (map exec t) σ ctx
      else run_chain (map exec e) σ ctx
  | Parallel _ bs c =>
      handle (match c with Some (h, p) => Some (exec h, p) | None => None end)
             ctx
             (join ctx
                (run_all (map (λ b σ', run_chain (map exec b) σ' ctx) bs) σ))
  | Map name ip _ ps iter c =>
      handle (match c with Some (h, p) => Some (exec h, p) | None => None end)
             ctx
             (match get_path ip ctx with
              | Some (JArr items) =>
                  join ctx
                    (run_all (map (run_item name ps (run_chain (map exec iter))) items) σ)
              | _ => fail (unresolved name) σ
              end)
  | Pass _ => ok ctx σ []
  | Succeed _ => mkResult Finished σ []
  end.

Definition exec_chain (l : list State) : Table → JSON → Result :=
  run_chain (map exec l).
End Exec.

(** Modelled from the spec: an Execution, one run of a definition bound to
    one trigger payload (glossary). *)
Definition run (fault : string → JSON → option Error) (generate : JSON → JSON)
    (definition : list State) (σ : Table) (input : JSON) : Result :=
  exec_chain fault generate input definition σ input.

End Engine.

(* ===================================================================== *)
(* infrastructure/lib/flightpulse-stack.ts: the three state machines     *)
(* ===================================================================== *)

(* The stack has one table, one event bus, one error topic and one message
   generator function; the constructs that name them (table, eventBus,
   errorTopic, llmMessenger) are therefore left out of the definitions. *)

(* createProcessBookingsMap *)
Module ProcessBookings.
Definition getPassenger : State :=
  Task "GetPassengerDetails"
    (DynamoGetItem
       (fromString (format "PASSENGER#{}" (stringAt ["passenger_id"])))
       (fromString (lit (JStr "METADATA"))))
    None None.

Definition generateMessage (messageType : string) : State :=
  Task "GeneratePersonalizedMessage"
    (LambdaInvoke
       [("passenger", objectAt ["Item"]);
        ("flight_event", executionInput ["detail"]);
        ("message_type", lit (JStr messageType))])
    (Some ["MessageResult"]) None.

Definition sendEmail : State :=
  Choice "CheckEmailPreference"
    (booleanEquals ["Item"; "notification_preferences"; "email"] true)
    [Task "PublishEmailEvent"
       (EventBridgePutEvents
          [("to", stringAt ["Item"; "email"]);
           ("subject", stringAt ["MessageResult"; "Payload"; "email_subject"]);
           ("body", stringAt ["MessageResult"; "Payload"; "email_body"])]
          "notification.email" "flightpulse.workflow")
       None None]
    [Pass "SkipEmail"].

Definition sendSms : State :=
  Choice "CheckSmsPreference"
    (booleanEquals ["Item"; "notification_preferences"; "sms"] true)
    [Task "PublishSmsEvent"
       (EventBridgePutEvents
          [("to", stringAt ["Item"; "phone"]);
           ("message", stringAt ["MessageResult"; "Payload"; "sms_body"])]
          "notification.sms" "flightpulse.workflow")
       None None]
    [Pass "SkipSms"].

Definition sendNotifications : State :=
  Parallel "SendNotifications" [[sendEmail]; [sendSms]] None.

Definition processBooking (messageType : string) : list State :=
  [getPassenger; generateMessage messageType; sendNotifications].

Definition createProcessBookingsMap (messageType : string) : State :=
  Map "ProcessBookingsInParallel" ["Items"] (Some 10%nat)
    (Some [("passenger_id", stringAt ["passenger_id"]);
           ("booking_id", stringAt ["booking_id"]);
           ("detail", executionInput ["detail"])])
    (processBooking messageType) None.
End ProcessBookings.

(* createDelayWorkflow *)
Module DelayWorkflow.
Definition notifyFailure : State :=
  Task "NotifyDelayFailure"
    (SnsPublish
       [("workflow", lit (JStr "DelayNotification"));
        ("error", stringAt ["Error"]);
        ("cause", stringAt ["Cause"]);
        ("input", entirePayload)])
    None None.

Definition getBookings : State :=
  Task "GetAffectedBookings"
    (DynamoQuery
       (fromString (format "FLIGHT#{}" (stringAt ["detail"; "flight_id"])))
       (fromString (lit (JStr "BOOKING#"))))
    None (Some (notifyFailure, ["error"])).

Definition processBookings : State :=
  ProcessBookings.createProcessBookingsMap "DELAY_NOTIFICATION".

Definition checkBookings : State :=
  Choice "CheckBookingsExist" (numberGreaterThan ["Count"] 0)
    [processBookings] [Pass "NoBookingsFound"].

Definition updateFlight : State :=
  Task "UpdateFlightStatus"
    (DynamoUpdateItem
       (fromString (format "FLIGHT#{}" (stringAt ["detail"; "flight_id"])))
       (fromString (lit (JStr "METADATA")))
       [("status", fromString (lit (JStr "DELAYED")));
        ("delay_minutes", numberFromString (stringAt ["detail"; "delay_minutes"]));
        ("delay_reason", fromString (stringAt ["detail"; "reason"]));
        ("GSI1PK", fromString (lit (JStr "DELAYED")))])
    None (Some (notifyFailure, ["error"])).

Definition parallelExecution : State :=
  Parallel "ProcessAndUpdate" [[checkBookings]; [updateFlight]]
    (Some (notifyFailure, ["error"])).

Definition definition : list State :=
  [getBookings; parallelExecution; Succeed "WorkflowComplete"].
End DelayWorkflow.

(* createCancellationWorkflow *)
Module CancellationWorkflow.
Definition getBookings : State :=
  Task "GetAffectedBookings"
    (DynamoQuery
       (fromString (format "FLIGHT#{}" (stringAt ["detail"; "flight_id"])))
       (fromString (lit (JStr "BOOKING#"))))
    None None.

Definition updateBookingStatus : State :=
  Task "UpdateBookingStatus"
    (DynamoUpdateItem
       (fromString (format "BOOKING#{}" (stringAt ["booking_id"])))
       (fromString (lit (JStr "METADATA")))
       [("booking_status", fromString (lit (JStr "NEEDS_REBOOKING")));
        ("GSI2PK", fromString (lit (JStr "NEEDS_REBOOKING")))])
    None None.

Definition markForRebooking : State :=
  Map "MarkBookingsForRebooking" ["Items"] (Some 10%nat) None
    [updateBookingStatus] None.

Definition updateFlight : State :=
  Task "UpdateFlightStatus"
    (DynamoUpdateItem
       (fromString (format "FLIGHT#{}" (stringAt ["detail"; "flight_id"])))
       (fromString (lit (JStr "METADATA")))
       [("status", fromString (lit (JStr "CANCELLED")));
        ("GSI1PK", fromString (lit (JStr "CANCELLED")))])
    None None.

Definition definition : list State :=
  [getBookings;
   markForRebooking;
   ProcessBookings.createProcessBookingsMap "CANCELLATION_NOTIFICATION";
   updateFlight;
   Succeed "WorkflowComplete"].
End CancellationWorkflow.

(* createGateChangeWorkflow *)
Module GateChangeWorkflow.
Definition updateGate : State :=
  Task "UpdateFlightGate"
    (DynamoUpdateItem
       (fromString (format "FLIGHT#{}" (stringAt ["detail"; "flight_id"])))
       (fromString (lit (JStr "METADATA")))
       [("gate", fromString (stringAt ["detail"; "new_gate"]))])
    None None.

Definition getBookings : State :=
  Task "GetAffectedBookings"
    (DynamoQuery
       (fromString (format "FLIGHT#{}" (stringAt ["detail"; "flight_id"])))
       (fromString (lit (JStr "BOOKING#"))))
    None None.

Definition definition : list State :=
  [updateGate;
   getBookings;
   ProcessBookings.createProcessBookingsMap "GATE_CHANGE_NOTIFICATION";
   Succeed "WorkflowComplete"].
End GateChangeWorkflow.

(* ===================================================================== *)
(* infrastructure/lib/flightpulse-stack.ts: EventBridge rules            *)
(* ===================================================================== *)

Module Rules.
(* The three state machines created by the stack. *)
Inductive StateMachine := delayWorkflow | cancellationWorkflow | gateChangeWorkflow.

Definition definition_of (m : StateMachine) : list State :=
  match m with
  | delayWorkflow => DelayWorkflow.definition
  | cancellationWorkflow => CancellationWorkflow.definition
  | gateChangeWorkflow => GateChangeWorkflow.definition
  end.

Inductive Target :=
| SfnStateMachine (m : StateMachine)
| CloudWatchLogGroup (logGroupName : string).

(* An event pattern: a field that is absent matches every value. *)
Record EventPattern := mkPattern {
  source : option (list string);
  detailType : option (list string) }.

Record Rule := mkRule {
  id : string;
  eventPattern : EventPattern;
  targets : list Target }.

Record Event := mkEvent {
  ev_source : string;
  ev_detailType : string;
  ev_detail : JSON }.

Definition workflowPattern (dt : string) : EventPattern :=
  mkPattern (Some ["flightpulse.kafka-consumer"]) (Some [dt]).

Definition rules : list Rule :=
  [ mkRule "DelayMinorRule" (workflowPattern "flight.delay.minor")
      [SfnStateMachine delayWorkflow];
    mkRule "DelayMajorRule" (workflowPattern "flight.delay.major")
      [SfnStateMachine delayWorkflow];
    mkRule "DelaySevereRule" (workflowPattern "flight.delay.severe")
      [SfnStateMachine delayWorkflow];
    mkRule "CancellationRule" (workflowPattern "flight.cancelled")
      [SfnStateMachine cancellationWorkflow];
    mkRule "GateChangeRule" (workflowPattern "flight.gate_change")
      [SfnStateMachine gateChangeWorkflow];
    mkRule "NotificationEmailRule" (mkPattern None (Some ["notification.email"]))
      [CloudWatchLogGroup "/flightpulse/notifications/email"];
    mkRule "NotificationSmsRule" (mkPattern None (Some ["notification.sms"]))
      [CloudWatchLogGroup "/flightpulse/notifications/sms"] ].

Definition field_matches (allowed : option (list string)) (v : string) : bool :=
  match allowed with
  | None => true
  | Some l => bool_decide (v ∈ l)
  end.

Definition matches (r : Rule) (e : Event) : bool :=
  field_matches (source (eventPattern r)) (ev_source e)
  && field_matches (detailType (eventPattern r)) (ev_detailType e).

Definition machine_of (t : Target) : list StateMachine :=
  match t with
  | SfnStateMachine m => [m]
  | CloudWatchLogGroup _ => []
  end.

(* The state machines an event starts: the targets of every rule it
   matches. *)
Definition started (e : Event) : list StateMachine :=
  flat_map (λ r, flat_map machine_of (targets r)) (filter (λ r, matches r e = true) rules).

(* An event as the ingestion front door publishes it. *)
Definition trigger (dt : string) (detail : JSON) : Event :=
  mkEvent "flightpulse.kafka-consumer" dt detail.
End Rules.

(* ===================================================================== *)
(* Map concurrency                                                       *)
(* ===================================================================== *)

Module Scheduler.
(** Modelled from the spec: the scheduling of the items of a Map state by
    the engine (section 4.1, "Map bounds concurrency to a fixed limit;
    items beyond the limit queue until a slot frees"). The stack only sets
    the limit (maxConcurrency); the scheduler that enforces it belongs to
    the Step Functions service. *)
Record Pool := mkPool {
  queued : list JSON;     (* items that wait for a slot *)
  running : list JSON;    (* items mid-flight *)
  completed : list JSON }.

(* maxConcurrency absent or 0: no bound. *)
Definition has_slot (limit : option nat) (p : Pool) : Prop :=
  match limit with
  | Some (S n) => (length (running p) < S n)%nat
  | _ => True
  end.

Inductive step (limit : option nat) : Pool → Pool → Prop :=
| start item q r d :
    has_slot limit (mkPool (item :: q) r d) →
    step limit (mkPool (item :: q) r d) (mkPool q (r ++ [item]) d)
| finish item q r1 r2 d :
    step limit (mkPool q (r1 ++ item :: r2) d) (mkPool q (r1 ++ r2) (d ++ [item])).

Definition initial (items : list JSON) : Pool := mkPool items [] [].

Inductive reachable (limit : option nat) (items : list JSON) : Pool → Prop :=
| reach_initial : reachable limit items (initial items)
| reach_step p p' : reachable limit items p → step limit p p' → reachable limit items p'.

(* The Map states of a definition, with the states nested in them. *)
Fixpoint maps_of (s : State) : list State :=
  match s with
  | Task _ _ _ c => match c with Some (h, _) => maps_of h | None => [] end
  | Choice _ _ t e => flat_map maps_of t ++ flat_map maps_of e
  | Parallel _ bs c =>
      flat_map (flat_map maps_of) bs
      ++ match c with Some (h, _) => maps_of h | None => [] end
  | Map _ _ _ _ iter c =>
      s :: flat_map maps_of iter
      ++ match c with Some (h, _) => maps_of h | None => [] end
  | Pass _ | Succeed _ => []
  end.

Definition limit_of (s : State) : option nat :=
  match s with Map _ _ mc _ _ _ => mc | _ => None end.

Definition name_of (s : State) : string :=
  match s with
  | Task n _ _ _ | Choice n _ _ _ | Parallel n _ _ | Map n _ _ _ _ _ | Pass n | Succeed n => n
  end.
End Scheduler.

(* ===================================================================== *)
(* JavaScript values                                                     *)
(* ===================================================================== *)

(* A thrown value, as far as the handlers read it: its message property,
   undefined (None) for a value that has none. null and undefined, on which
   reading a property throws, are not values of this type. *)
Record Thrown := mkThrown { message_of : option JSON }.

(* new Error(message) *)
Definition new_Error (message : string) : Thrown := mkThrown (Some (JStr message)).

(* The outcome of an awaited call: it resolves, or it throws. *)
Inductive Sent (A : Type) :=
| resolved (a : A)
| rejected (error : Thrown).
Arguments resolved {A} a.
Arguments rejected {A} error.

(* Truthiness, as [x || y] and [if (x)] test it. *)
Definition truthy (j : JSON) : bool :=
  match j with
  | JNull => false
  | JBool b => b
  | JNum n => negb (n =? 0)
  | JStr s => negb (String.eqb s "")
  | JArr _ | JObj _ => true
  end.

(* x || y on a property that may be undefined. *)
Definition or_else (x : option JSON) (y : JSON) : JSON :=
  match x with
  | Some j => if truthy j then j else y
  | None => y
  end.

(* An object literal; JSON.stringify leaves out the fields that are
   undefined. *)
Definition obj (l : list (string * option JSON)) : JSON :=
  JObj (list_to_map (omap (λ kv, match kv.2 with Some j => Some (kv.1, j) | None => None end) l)).

(* The longest prefix without a slash, and what follows it. *)
Fixpoint take_segment (s : string) : string * string :=
  match s with
  | EmptyString => (EmptyString, EmptyString)
  | String c s' =>
      if Ascii.eqb c "/"%char then (EmptyString, s)
      else let '(a, b) := take_segment s' in (String c a, b)
  end.

(* path.match(/^<pre>[^\/]+<suf>$/) *)
Definition match_segment (pre suf path : string) : bool :=
  String.prefix pre path
  && (let '(seg, rest) := take_segment (string_drop (String.length pre) path) in
      negb (String.eqb seg "") && String.eqb rest suf).

(* ===================================================================== *)
(* lambdas/nodejs/api-handlers/src/index.ts                              *)
(* ===================================================================== *)

Module ApiHandlers.
Record APIGatewayProxyEvent := mkEvent {
  path : string;
  httpMethod : string;
  pathParameters : option (gmap string string);
  queryStringParameters : option (gmap string string) }.

(* [body] is the value whose JSON.stringify text the handler returns. *)
Record APIGatewayProxyResult := mkResult {
  statusCode : Z;
  headers : gmap string string;
  body : JSON }.

Record QueryOutput := mkQueryOutput {
  Items : option (list (gmap string JSON));
  Count : option Z }.

(* docClient.send for the three commands the handler issues. *)
Record DocumentClient := mkClient {
  GetCommand : Key → Sent (option (gmap string JSON));
  QueryCommand : string → string → Sent QueryOutput;      (* PK = :pk AND begins_with(SK, :sk) *)
  QueryIndexCommand : string → Sent QueryOutput }.        (* GSI1, GSI1PK = :status *)

Definition respond (code : Z) (b : JSON) : APIGatewayProxyResult :=
  mkResult code (<["Content-Type" := "application/json"]> ∅) b.

Definition bind {A B} (x : Sent A) (k : A → Sent B) : Sent B :=
  match x with
  | resolved a => k a
  | rejected error => rejected error
  end.

Definition count_or_zero (c : option Z) : JSON :=
  or_else (JNum <$> c) (JNum 0).

Section Handler.
Variable now : string.               (* new Date().toISOString() *)
Variable docClient : DocumentClient.

(* `${pathParameters.<name>}`: an absent parameter prints as undefined. *)
Definition param (event : APIGatewayProxyEvent) (name : string) : string :=
  default "undefined" (default ∅ (pathParameters event) !! name).

(* The body of the try block. *)
Definition route (event : APIGatewayProxyEvent) : Sent APIGatewayProxyResult :=
  let path := path event in
  let is_get := String.eqb (httpMethod event) "GET" in
  if String.eqb path "/health" && is_get then
    resolved (respond 200
      (obj [("status", Some (JStr "healthy"));
            ("timestamp", Some (JStr now));
            ("service", Some (JStr "flightpulse-api"))]))
  else if match_segment "/flights/" "" path && is_get then
    bind (GetCommand docClient ("FLIGHT#" +:+ param event "flightId", "METADATA"))
      (λ Item,
         match Item with
         | None => resolved (respond 404 (obj [("error", Some (JStr "Flight not found"))]))
         | Some item =>
             resolved (respond 200
               (obj [("flight_id", item !! "flight_id");
                     ("origin", item !! "origin");
                     ("destination", item !! "destination");
                     ("scheduled_departure", item !! "scheduled_departure");
                     ("scheduled_arrival", item !! "scheduled_arrival");
                     ("status", item !! "status");
                     ("gate", item !! "gate");
                     ("delay_minutes", Some (or_else (item !! "delay_minutes") (JNum 0)));
                     ("delay_reason", item !! "delay_reason")]))
         end)
  else if String.eqb path "/flights" && is_get then
    match queryStringParameters event ≫= (λ q, q !! "status") with
    | Some status =>
        if negb (String.eqb status "") then
          bind (QueryIndexCommand docClient status)
            (λ result,
               resolved (respond 200
                 (obj [("flights", Some (JArr (JObj <$> default [] (Items result))));
                       ("count", Some (count_or_zero (Count result)))])))
        else resolved (respond 400 (obj [("error", Some (JStr "status query parameter required"))]))
    | None => resolved (respond 400 (obj [("error", Some (JStr "status query parameter required"))]))
    end
  else if match_segment "/flights/" "/bookings" path && is_get then
    bind (QueryCommand docClient ("FLIGHT#" +:+ param event "flightId") "BOOKING#")
      (λ result,
         resolved (respond 200
           (obj [("bookings",
                  Some (JArr ((λ item, obj [("booking_id", item !! "booking_id");
                                            ("passenger_id", item !! "passenger_id")])
                              <$> default [] (Items result))));
                 ("count", Some (count_or_zero (Count result)))])))
  else if match_segment "/passengers/" "" path && is_get then
    bind (GetCommand docClient ("PASSENGER#" +:+ param event "passengerId", "METADATA"))
      (λ Item,
         match Item with
         | None => resolved (respond 404 (obj [("error", Some (JStr "Passenger not found"))]))
         | Some item =>
             (* const { email, phone, ...safeData } = result.Item *)
             let safeData := delete "email" (delete "phone" item) in
             resolved (respond 200 (JObj safeData))
         end)
  else if match_segment "/passengers/" "/bookings" path && is_get then
    bind (QueryCommand docClient ("PASSENGER#" +:+ param event "passengerId") "BOOKING#")
      (λ result,
         resolved (respond 200
           (obj [("bookings",
                  Some (JArr ((λ item, obj [("booking_id", item !! "booking_id");
                                            ("flight_id", item !! "flight_id")])
                              <$> default [] (Items result))));
                 ("count", Some (count_or_zero (Count result)))])))
  else if match_segment "/bookings/" "" path && is_get then
    bind (GetCommand docClient ("BOOKING#" +:+ param event "bookingId", "METADATA"))
      (λ Item,
         match Item with
         | None => resolved (respond 404 (obj [("error", Some (JStr "Booking not found"))]))
         | Some item => resolved (respond 200 (JObj item))
         end)
  else resolved (respond 404 (obj [("error", Some (JStr "Not found"))])).

(* try { ... } catch (error) { 500, { error: error.message } } *)
Definition handler (event : APIGatewayProxyEvent) : APIGatewayProxyResult :=
  match route event with
  | resolved r => r
  | rejected error => respond 500 (obj [("error", message_of error)])
  end.
End Handler.

(* GSI1PK = :status *)
Definition indexed_under (status : string) (kv : Key * gmap string JSON) : Prop :=
  match kv.2 !! "GSI1PK" with
  | Some (JStr s) => s = status
  | _ => False
  end.

#[global] Instance indexed_under_dec status kv : Decision (indexed_under status kv).
Proof. unfold indexed_under. destruct (kv.2 !! "GSI1PK") as [[]|]; apply _. Defined.

(* The document client over a table that answers every call. *)
Definition client_of (σ : Table) : DocumentClient :=
  mkClient
    (λ k, resolved (σ !! k))
    (λ pk sk,
       let items := Engine.query pk sk σ in
       resolved (mkQueryOutput (Some items) (Some (Z.of_nat (length items)))))
    (λ status,
       let items := (filter (indexed_under status) (map_to_list σ)).*2 in
       resolved (mkQueryOutput (Some items) (Some (Z.of_nat (length items))))).
End ApiHandlers.

(* ===================================================================== *)
(* lambdas/nodejs/stream-handler/src/index.ts                            *)
(* ===================================================================== *)

Module StreamHandler.
(* A DynamoDB attribute value as a stream record carries it. *)
Inductive AttributeValue :=
| AttrS (s : string)
| AttrN (n : string)
| AttrBOOL (b : bool)
| AttrNULL.

(* value.S *)
Definition S (v : AttributeValue) : option string :=
  match v with AttrS s => Some s | _ => None end.

Record StreamRecord := mkStreamRecord {
  NewImage : option (gmap string AttributeValue);
  OldImage : option (gmap string AttributeValue) }.

Record DynamoDBRecord := mkRecord {
  eventName : option string;
  dynamodb : option StreamRecord }.

Record PutEventsRequestEntry := mkEntry {
  EventBusName : string;
  Source : string;
  DetailType : string;
  Detail : JSON }.   (* the value given to JSON.stringify *)

Inductive Log :=
| put (e : PutEventsRequestEntry)        (* eventBridge.send resolved *)
| error (r : DynamoDBRecord) (thrown : Thrown).   (* logger.error in the catch *)

Section Handler.
Variable EVENT_BUS_NAME : string.
Variable now : nat → string.     (* new Date().toISOString() at the n-th record *)
(* eventBridge.send: None when it resolves, the thrown value when it throws. *)
Variable send : PutEventsRequestEntry → option Thrown.

(* image.<name>?.S *)
Definition attr (image : gmap string AttributeValue) (name : string) : option string :=
  image !! name ≫= S.

(* The entry the handler sends for a record, if it sends one. *)
Definition entry_for (n : nat) (record : DynamoDBRecord) : option PutEventsRequestEntry :=
  if bool_decide (eventName record = Some "MODIFY" ∨ eventName record = Some "INSERT") then
    let newImage := dynamodb record ≫= NewImage in
    let oldImage := dynamodb record ≫= OldImage in
    match newImage with
    | None => None
    | Some newImage =>
        let pk := default "" (attr newImage "PK") in
        let sk := default "" (attr newImage "SK") in
        if startsWith pk "BOOKING#" && String.eqb sk "METADATA" then
          let newStatus := attr newImage "booking_status" in
          let oldStatus := oldImage ≫= (λ i, attr i "booking_status") in
          match newStatus with
          | Some s =>
              if negb (String.eqb s "") && negb (bool_decide (newStatus = oldStatus)) then
                Some (mkEntry EVENT_BUS_NAME "flightpulse.stream-handler"
                        "booking.status_changed"
                        (obj [("booking_id", Some (JStr (replace_first "BOOKING#" "" pk)));
                              ("old_status", JStr <$> oldStatus);
                              ("new_status", Some (JStr s));
                              ("timestamp", Some (JStr (now n)))]))
              else None
          | None => None
          end
        else None
    end
  else None.

(* The body of the try block for one record. *)
Definition process (n : nat) (record : DynamoDBRecord) : Sent (list Log) :=
  match entry_for n record with
  | Some e =>
      match send e with
      | None => resolved [put e]
      | Some thrown => rejected thrown
      end
  | None => resolved []
  end.

(* for (const record of event.Records) { try { ... } catch { log } } *)
Fixpoint handle_from (n : nat) (records : list DynamoDBRecord) : list Log :=
  match records with
  | [] => []
  | record :: rest =>
      match process n record with
      | resolved l => l ++ handle_from (Datatypes.S n) rest
      | rejected thrown => error record thrown :: handle_from (Datatypes.S n) rest
      end
  end.

Definition handler (records : list DynamoDBRecord) : list Log :=
  handle_from 0 records.
End Handler.
End StreamHandler.

(* ===================================================================== *)
(* Properties                                                            *)
(* ===================================================================== *)

(* --- the state store ------------------------------------------------- *)

Definition is_flight (k : Key) : Prop :=
  String.prefix "FLIGHT#" k.1 = true ∧ k.2 = "METADATA".
Definition is_booking (k : Key) : Prop :=
  String.prefix "BOOKING#" k.1 = true ∧ k.2 = "METADATA".

(* The status field and the key of its secondary index agree. *)
Definition flight_synced (it : gmap string JSON) : Prop :=
  it !! "status" = it !! "GSI1PK".
Definition booking_synced (it : gmap string JSON) : Prop :=
  it !! "booking_status" = it !! "GSI2PK".

Definition synced (σ : Table) : Prop :=
  ∀ k it, σ !! k = Some it →
    (is_flight k → flight_synced it) ∧ (is_booking k → booking_synced it).

(* A SET expression assigns two attributes together: both or none, and the
   same value. *)
Definition assigned_together (a b : string)
    (upd : list (string * DynamoAttributeValue)) : Prop :=
  (list_to_map upd : gmap string DynamoAttributeValue) !! a
  = (list_to_map upd : gmap string DynamoAttributeValue) !! b.

Definition keeps_indexes (a : Action) : Prop :=
  match a with
  | DynamoUpdateItem _ _ upd =>
      assigned_together "status" "GSI1PK" upd
      ∧ assigned_together "booking_status" "GSI2PK" upd
  | _ => True
  end.

(* Every service call of a state, the calls of nested states and of catch
   handlers included. *)
Fixpoint actions_of (s : State) : list Action :=
  match s with
  | Task _ a _ c => a :: match c with Some (h, _) => actions_of h | None => [] end
  | Choice _ _ t e => flat_map actions_of t ++ flat_map actions_of e
  | Parallel _ bs c =>
      flat_map (flat_map actions_of) bs
      ++ match c with Some (h, _) => actions_of h | None => [] end
  | Map _ _ _ _ iter c =>
      flat_map actions_of iter
      ++ match c with Some (h, _) => actions_of h | None => [] end
  | Pass _ | Succeed _ => []
  end.

Definition is_update (a : Action) : bool :=
  match a with DynamoUpdateItem _ _ _ => true | _ => false end.

(* The three definitions of the catalog. *)
Definition catalog : list (list State) :=
  [DelayWorkflow.definition; CancellationWorkflow.definition; GateChangeWorkflow.definition].

(* --- effects ---------------------------------------------------------- *)

Definition is_report (eff : Engine.Effect) : bool :=
  match eff with Engine.Reported _ => true | _ => false end.
Definition is_update_effect (eff : Engine.Effect) : bool :=
  match eff with Engine.Updated _ _ => true | _ => false end.
(* A call to the message generator or a published notification. *)
Definition is_notification (eff : Engine.Effect) : bool :=
  match eff with
  | Engine.Generated _ | Engine.Published _ _ _ => true
  | _ => false
  end.

(* The calls a service integration can issue. *)
Definition may_issue (a : Action) (eff : Engine.Effect) : Prop :=
  match a, eff with
  | DynamoUpdateItem _ _ _, Engine.Updated _ _ => True
  | LambdaInvoke _, Engine.Generated _ => True
  | EventBridgePutEvents _ _ _, Engine.Published _ _ _ => True
  | SnsPublish _, Engine.Reported _ => True
  | _, _ => False
  end.

(* One UpdateItem call writes a status and its index key together. *)
Definition writes_together (eff : Engine.Effect) : Prop :=
  match eff with
  | Engine.Updated _ sets =>
      (list_to_map sets : gmap string JSON) !! "status"
      = (list_to_map sets : gmap string JSON) !! "GSI1PK"
      ∧ (list_to_map sets : gmap string JSON) !! "booking_status"
        = (list_to_map sets : gmap string JSON) !! "GSI2PK"
  | _ => True
  end.

(* The Failure Reports of an execution. *)
Definition reports (r : Engine.Result) : list Engine.Entry :=
  filter (λ e, is_report (Engine.effect e) = true) (Engine.trace r).

(* The Map states of the catalog. *)
Definition catalog_maps : list State :=
  flat_map (flat_map Scheduler.maps_of) catalog.

Definition has_failed (r : Engine.Result) : bool :=
  match Engine.outcome r with Engine.Failed _ => true | _ => false end.

(* --- the stream handler, as the specification words it ---------------- *)

(* "an INSERT or MODIFY of an item whose PK begins with 'BOOKING#' and whose
   SK is 'METADATA', and its new booking_status is present and differs from
   the old image's booking_status" *)
Definition status_change_as_specified (record : StreamHandler.DynamoDBRecord) : Prop :=
  (StreamHandler.eventName record = Some "INSERT"
   ∨ StreamHandler.eventName record = Some "MODIFY")
  ∧ ∃ image pk s,
      StreamHandler.dynamodb record ≫= StreamHandler.NewImage = Some image
      ∧ StreamHandler.attr image "PK" = Some pk
      ∧ String.prefix "BOOKING#" pk = true
      ∧ StreamHandler.attr image "SK" = Some "METADATA"
      ∧ StreamHandler.attr image "booking_status" = Some s
      ∧ Some s ≠ (StreamHandler.dynamodb record ≫= StreamHandler.OldImage)
                   ≫= (λ i, StreamHandler.attr i "booking_status").

(* The same, with the new booking_status not the empty string. *)
Definition status_change_nonempty (record : StreamHandler.DynamoDBRecord) : Prop :=
  (StreamHandler.eventName record = Some "INSERT"
   ∨ StreamHandler.eventName record = Some "MODIFY")
  ∧ ∃ image pk s,
      StreamHandler.dynamodb record ≫= StreamHandler.NewImage = Some image
      ∧ StreamHandler.attr image "PK" = Some pk
      ∧ String.prefix "BOOKING#" pk = true
      ∧ StreamHandler.attr image "SK" = Some "METADATA"
      ∧ StreamHandler.attr image "booking_status" = Some s
      ∧ s ≠ ""
      ∧ Some s ≠ (StreamHandler.dynamodb record ≫= StreamHandler.OldImage)
                   ≫= (λ i, StreamHandler.attr i "booking_status").

(* What the handler logs for the n-th record of a batch. *)
Definition logged (bus : string) (now : nat → string)
    (send : StreamHandler.PutEventsRequestEntry → option Thrown)
    (n : nat) (record : StreamHandler.DynamoDBRecord) : list StreamHandler.Log :=
  match StreamHandler.entry_for bus now n record with
  | Some e =>
      match send e with
      | None => [StreamHandler.put e]
      | Some thrown => [StreamHandler.error record thrown]
      end
  | None => []
  end.

(* --- sample data ------------------------------------------------------ *)

Module Sample.
Definition preferences (email sms : bool) : JSON :=
  JObj (<["email" := JBool email]> (<["sms" := JBool sms]> ∅)).

Definition passenger (id : string) (email sms : bool) : gmap string JSON :=
  <["passenger_id" := JStr id]>
    (<["first_name" := JStr "Ada"]>
       (<["email" := JStr (id +:+ "@example.org")]>
          (<["phone" := JStr "+15550100"]>
             (<["notification_preferences" := preferences email sms]> ∅)))).

(* The association record kept under the flight for one booking. *)
Definition booking_of_flight (b p : string) : gmap string JSON :=
  <["booking_id" := JStr b]> (<["passenger_id" := JStr p]> ∅).

Definition flight (status : string) : gmap string JSON :=
  <["status" := JStr status]> (<["GSI1PK" := JStr status]> (<["gate" := JStr "A1"]> ∅)).

(* Flight F1 with two bookings; the passenger of B2 is missing. *)
Definition table : Table :=
  <[("FLIGHT#F1", "METADATA") := flight "SCHEDULED"]>
    (<[("FLIGHT#F1", "BOOKING#B1") := booking_of_flight "B1" "P1"]>
       (<[("FLIGHT#F1", "BOOKING#B2") := booking_of_flight "B2" "P2"]>
          (<[("PASSENGER#P1", "METADATA") := passenger "P1" true true]> ∅))).

(* Both passengers present. *)
Definition full_table : Table :=
  <[("PASSENGER#P2", "METADATA") := passenger "P2" true false]> table.

Definition event (detail : gmap string JSON) : JSON :=
  JObj (<["source" := JStr "flightpulse.kafka-consumer"]> (<["detail" := JObj detail]> ∅)).

Definition delayed : JSON :=
  event (<["flight_id" := JStr "F1"]>
           (<["delay_minutes" := JNum 25]> (<["reason" := JStr "WEATHER"]> ∅))).
Definition cancelled : JSON :=
  event (<["flight_id" := JStr "F1"]> ∅).
Definition gate_changed : JSON :=
  event (<["flight_id" := JStr "F1"]> (<["new_gate" := JStr "B7"]> ∅)).

Definition no_fault : string → JSON → option Engine.Error := λ _ _, None.
(* The store does not answer the booking query. *)
Definition query_down : string → JSON → option Engine.Error :=
  λ name _, if String.eqb name "GetAffectedBookings"
            then Some (Engine.mkError Engine.StoreUnavailable "timeout") else None.

Definition generate : JSON → JSON :=
  λ _, JObj (<["email_subject" := JStr "subject"]>
               (<["email_body" := JStr "body"]> (<["sms_body" := JStr "sms"]> ∅))).

Definition request (path : string) (params : gmap string string)
  : ApiHandlers.APIGatewayProxyEvent :=
  ApiHandlers.mkEvent path "GET" (Some params) None.

(* A booking whose status was overwritten with the empty string. *)
Definition emptied : StreamHandler.DynamoDBRecord :=
  StreamHandler.mkRecord (Some "MODIFY")
    (Some (StreamHandler.mkStreamRecord
       (Some (<["PK" := StreamHandler.AttrS "BOOKING#B1"]>
                (<["SK" := StreamHandler.AttrS "METADATA"]>
                   (<["booking_status" := StreamHandler.AttrS ""]> ∅))))
       (Some (<["booking_status" := StreamHandler.AttrS "CONFIRMED"]> ∅)))).

Definition rebooked : StreamHandler.DynamoDBRecord :=
  StreamHandler.mkRecord (Some "MODIFY")
    (Some (StreamHandler.mkStreamRecord
       (Some (<["PK" := StreamHandler.AttrS "BOOKING#B1"]>
                (<["SK" := StreamHandler.AttrS "METADATA"]>
                   (<["booking_status" := StreamHandler.AttrS "NEEDS_REBOOKING"]> ∅))))
       (Some (<["booking_status" := StreamHandler.AttrS "CONFIRMED"]> ∅)))).
End Sample.

(* --- the workflows ---------------------------------------------------- *)

(* The flight record of the trigger shows this gate. *)
Definition gate_is (fid gate : string) (σ : Table) : Prop :=
  ∃ flight, σ !! ("FLIGHT#" +:+ fid, "METADATA") = Some flight
            ∧ flight !! "gate" = Some (JStr gate).

(* The one write of the Delay workflow, read off the trigger payload. *)
Definition delay_write (input : JSON) : option (Key * list (string * JSON)) :=
  match get_path ["detail"; "flight_id"] input,
        Engine.eval_attr input input (numberFromString (stringAt ["detail"; "delay_minutes"])),
        get_path ["detail"; "reason"] input with
  | Some (JStr fid), Some minutes, Some (JStr reason) =>
      Some (("FLIGHT#" +:+ fid, "METADATA"),
            [("status", JStr "DELAYED"); ("delay_minutes", minutes);
             ("delay_reason", JStr reason); ("GSI1PK", JStr "DELAYED")])
  | _, _, _ => None
  end.

(* The lookup records of the bookings of the triggering flight. *)
Definition affected (σ : Table) (input : JSON) : list (gmap string JSON) :=
  match get_path ["detail"; "flight_id"] input with
  | Some (JStr fid) => Engine.query ("FLIGHT#" +:+ fid) "BOOKING#" σ
  | _ => []
  end.

Definition rebooking : list (string * JSON) :=
  [("booking_status", JStr "NEEDS_REBOOKING"); ("GSI2PK", JStr "NEEDS_REBOOKING")].

(* The Booking is stored with status NEEDS_REBOOKING, index key included. *)
Definition rebooked (bid : string) (σ : Table) : Prop :=
  ∃ booking, σ !! ("BOOKING#" +:+ bid, "METADATA") = Some booking
             ∧ booking !! "booking_status" = Some (JStr "NEEDS_REBOOKING")
             ∧ booking !! "GSI2PK" = Some (JStr "NEEDS_REBOOKING").

Definition all_rebooked (bookings : list (gmap string JSON)) (σ : Table) : Prop :=
  Forall (λ b, ∀ bid, b !! "booking_id" = Some (JStr bid) → rebooked bid σ) bookings.

(* Step 2 of the Cancellation workflow writes a booking, step 4 the flight. *)
Definition rebooking_write (eff : Engine.Effect) : Prop :=
  ∃ bid, eff = Engine.Updated ("BOOKING#" +:+ bid, "METADATA") rebooking.
Definition cancel_write (eff : Engine.Effect) : Prop :=
  ∃ fid, eff = Engine.Updated ("FLIGHT#" +:+ fid, "METADATA")
                 [("status", JStr "CANCELLED"); ("GSI1PK", JStr "CANCELLED")].

(* MarkBookingsForRebooking on one item. *)
Definition mark_item (fault : string → JSON → option Engine.Error)
    (generate : JSON → JSON) (x0 : JSON) : JSON → Table → Engine.Result :=
  Engine.run_item x0 "MarkBookingsForRebooking" None
    (Engine.exec_chain fault generate x0 [CancellationWorkflow.updateBookingStatus]).

(* --- what an execution respects --------------------------------------- *)

(* [R σ σ']: how far the table may move from σ; [E]: the calls that may be
   issued. A result is good for σ when its table and the table seen by each
   of its calls are within R of σ and each call is in E. *)
Definition good (R : Table → Table → Prop) (E : Engine.Effect → Prop)
    (σ : Table) (r : Engine.Result) : Prop :=
  R σ (Engine.table r)
  ∧ Forall (λ e, R σ (Engine.snapshot e) ∧ E (Engine.effect e)) (Engine.trace r).

Definition respects (R : Table → Table → Prop) (E : Engine.Effect → Prop)
    (f : Table → JSON → Engine.Result) : Prop :=
  ∀ σ ctx, good R E σ (f σ ctx).

Definition effect_name (e : Engine.Entry) : string :=
  match Engine.effect e with
  | Engine.Updated _ _ => "update"
  | Engine.Generated _ => "generate"
  | Engine.Published _ dt _ => dt
  | Engine.Reported _ => "report"
  end.

Definition stored (σ : Table) (k : Key) (field : string) : option JSON :=
  σ !! k ≫= (λ item, item !! field).

(* ===================================================================== *)
(* The read API: the fall-through answer and the fields of a flight      *)
(* ===================================================================== *)

(* The answer of the handler when no route matches. *)
Definition not_found : ApiHandlers.APIGatewayProxyResult :=
  ApiHandlers.respond 404 (obj [("error", Some (JStr "Not found"))]).

(* The fields of the flight item that GET /flights/{flightId} copies. *)
Definition flight_fields : list string :=
  ["flight_id"; "origin"; "destination"; "scheduled_departure"; "scheduled_arrival";
   "status"; "gate"; "delay_reason"].

(* A document client whose every call throws. *)
Definition client_down (message : string) : ApiHandlers.DocumentClient :=
  ApiHandlers.mkClient (λ _, rejected (new_Error message))
    (λ _ _, rejected (new_Error message)) (λ _, rejected (new_Error message)).

(* ===================================================================== *)
(* infrastructure/lib/flightpulse-stack.ts: the resources of the REST API *)
(* ===================================================================== *)

Module RestApi.
(* A path part given to addResource: a fixed name, or a path parameter
   '{name}'. *)
Inductive PathPart :=
| fixed (name : string)
| parameter (name : string).

(* resource.addMethod(httpMethod, apiIntegration), with the path parts of
   the resource from the root. *)
Record Method := mkMethod {
  resource : list PathPart;
  httpMethod : string }.

Definition methods : list Method :=
  [ mkMethod [fixed "health"] "GET";
    mkMethod [fixed "flights"] "GET";
    mkMethod [fixed "flights"; parameter "flightId"] "GET";
    mkMethod [fixed "flights"; parameter "flightId"; fixed "bookings"] "GET";
    mkMethod [fixed "passengers"; parameter "passengerId"] "GET";
    mkMethod [fixed "passengers"; parameter "passengerId"; fixed "bookings"] "GET";
    mkMethod [fixed "bookings"; parameter "bookingId"] "GET" ].

(* The path of a request to a resource whose parameter has the value v. *)
Fixpoint path_of (parts : list PathPart) (v : string) : string :=
  match parts with
  | [] => ""
  | fixed name :: rest => "/" +:+ name +:+ path_of rest v
  | parameter _ :: rest => "/" +:+ v +:+ path_of rest v
  end.
End RestApi.

(* A value a path parameter can take: one path segment, not empty and
   without a slash. *)
Definition is_segment (v : string) : Prop :=
  v ≠ "" ∧ take_segment v = (v, "").

(* ===================================================================== *)
(* unnamed/part_006: the stream handler without the per-record try/catch *)
(* ===================================================================== *)

Module StreamHandlerBefore.
(* What an invocation did: the entries whose send resolved, and what the
   send that ended it threw, if one did. *)
Record Invocation := mkInvocation {
  sent : list StreamHandler.PutEventsRequestEntry;
  thrown : option Thrown }.

Section Handler.
Variable EVENT_BUS_NAME : string.
Variable now : nat → string.
Variable send : StreamHandler.PutEventsRequestEntry → option Thrown.

(* for (const record of event.Records) { ... await eventBridge.send(...) }:
   the conditions and the entry are those of the later version; nothing
   catches a send that throws. *)
Fixpoint handle_from (n : nat) (records : list StreamHandler.DynamoDBRecord) : Invocation :=
  match records with
  | [] => mkInvocation [] None
  | record :: rest =>
      match StreamHandler.entry_for EVENT_BUS_NAME now n record with
      | Some e =>
          match send e with
          | None =>
              let r := handle_from (Datatypes.S n) rest in
              mkInvocation (e :: sent r) (thrown r)
          | Some error => mkInvocation [] (Some error)
          end
      | None => handle_from (Datatypes.S n) rest
      end
  end.

Definition handler (records : list StreamHandler.DynamoDBRecord) : Invocation :=
  handle_from 0 records.
End Handler.
End StreamHandlerBefore.

(* The fields of the detail of a booking.status_changed event. *)
Definition status_change_fields : list string :=
  ["booking_id"; "old_status"; "new_status"; "timestamp"].

(* ===================================================================== *)
(* Events on the bus                                                     *)
(* ===================================================================== *)

(* The detail-types of the five workflow rules. *)
Definition trigger_types : list string :=
  ["flight.delay.minor"; "flight.delay.major"; "flight.delay.severe";
   "flight.cancelled"; "flight.gate_change"].

(* The targets an event is delivered to: those of every rule it matches. *)
Definition delivered (e : Rules.Event) : list Rules.Target :=
  flat_map Rules.targets (filter (λ r, Rules.matches r e = true) Rules.rules).

(* The event an entry of PutEvents puts on the bus. *)
Definition event_of_entry (e : StreamHandler.PutEventsRequestEntry) : Rules.Event :=
  Rules.mkEvent (StreamHandler.Source e) (StreamHandler.DetailType e)
    (StreamHandler.Detail e).

(* What a notification published by a workflow does on the bus: it starts
   no state machine and reaches the log group of its kind. *)
Definition only_logged (eff : Engine.Effect) : Prop :=
  match eff with
  | Engine.Published source detailType detail =>
      source = "flightpulse.workflow"
      ∧ Rules.started (Rules.mkEvent source detailType detail) = []
      ∧ (detailType = "notification.email"
         ∧ delivered (Rules.mkEvent source detailType detail)
           = [Rules.CloudWatchLogGroup "/flightpulse/notifications/email"]
         ∨ detailType = "notification.sms"
           ∧ delivered (Rules.mkEvent source detailType detail)
             = [Rules.CloudWatchLogGroup "/flightpulse/notifications/sms"])
  | _ => True
  end.

(* What a service integration issues, with the fields the definition
   fixes: the source and detail-type of a published event, the attribute
   names of an update. *)
Definition issued_by (a : Action) (eff : Engine.Effect) : Prop :=
  match a, eff with
  | DynamoUpdateItem _ _ upd, Engine.Updated _ sets => sets.*1 = upd.*1
  | LambdaInvoke _, Engine.Generated _ => True
  | EventBridgePutEvents _ detailType source, Engine.Published source' detailType' _ =>
      source' = source ∧ detailType' = detailType
  | SnsPublish _, Engine.Reported _ => True
  | _, _ => False
  end.

(* ===================================================================== *)
(* What the workflows write                                              *)
(* ===================================================================== *)

(* The items that are neither a Flight nor a Booking are the same. *)
Definition same_elsewhere (σ σ' : Table) : Prop :=
  ∀ k, ¬ is_flight k → ¬ is_booking k → σ' !! k = σ !! k.

Definition writes_flight_or_booking (eff : Engine.Effect) : Prop :=
  match eff with
  | Engine.Updated k _ => is_flight k ∨ is_booking k
  | _ => True
  end.

(* The key of an update, whatever it is resolved against, is that of a
   Flight or of a Booking. *)
Definition keyed_by_flight_or_booking (a : Action) : Prop :=
  match a with
  | DynamoUpdateItem pk sk _ =>
      ∀ x0 ctx k, Engine.eval_key x0 ctx pk sk = Some k → is_flight k ∨ is_booking k
  | _ => True
  end.

(* The attribute names a service call assigns, and those a definition
   assigns in any of its states. *)
Definition assigned (a : Action) : list string :=
  match a with
  | DynamoUpdateItem _ _ upd => upd.*1
  | _ => []
  end.

Definition written (definition : list State) : list string :=
  flat_map assigned (flat_map actions_of definition).

(* Every item of σ is still in σ', the same outside the named attributes. *)
Definition kept_outside (names : list string) (σ σ' : Table) : Prop :=
  ∀ k item, σ !! k = Some item →
    ∃ item', σ' !! k = Some item' ∧ ∀ a, a ∉ names → item' !! a = item !! a.

(* The Flight items are the same. *)
Definition flights_unchanged (σ σ' : Table) : Prop :=
  ∀ k, is_flight k → σ' !! k = σ !! k.

(* A published notification goes to a stored passenger, over a channel the
   passenger's preferences turn on, to the address the record holds. *)
Definition follows_preferences (σ : Table) (eff : Engine.Effect) : Prop :=
  match eff with
  | Engine.Published source detailType detail =>
      ∃ pid passenger,
        σ !! ("PASSENGER#" +:+ pid, "METADATA") = Some passenger
        ∧ (detailType = "notification.email"
           ∧ get_path ["notification_preferences"; "email"] (JObj passenger)
             = Some (JBool true)
           ∧ get_path ["to"] detail = passenger !! "email"
           ∨ detailType = "notification.sms"
             ∧ get_path ["notification_preferences"; "sms"] (JObj passenger)
               = Some (JBool true)
             ∧ get_path ["to"] detail = passenger !! "phone")
  | _ => True
  end.

(* Neither a call to the message generator nor a published notification. *)
Definition quiet (e : Engine.Entry) : Prop :=
  is_notification (Engine.effect e) = false.

(* Not a Failure Report. *)
Definition unreported (e : Engine.Entry) : Prop :=
  is_report (Engine.effect e) = false.

(* A write to a Booking item marks a booking found under the flight of the
   trigger. *)
Definition rebooks_affected (σ : Table) (input : JSON) (e : Engine.Entry) : Prop :=
  ∀ k sets, Engine.effect e = Engine.Updated k sets → is_booking k →
    ∃ booking bid,
      booking ∈ affected σ input
      ∧ booking !! "booking_id" = Some (JStr bid)
      ∧ k = ("BOOKING#" +:+ bid, "METADATA")
      ∧ sets = rebooking.




(* ===================================================================== *)
(* Induction on states                                                   *)
(* ===================================================================== *)

Section StateInduction.
Variable P : State → Prop.

Definition on_catch (c : option (State * Path)) : Prop :=
  match c with Some (h, _) => P h | None => True end.

Hypothesis HTask : ∀ n a rp c, on_catch c → P (Task n a rp c).
Hypothesis HChoice : ∀ n w t e, Forall P t → Forall P e → P (Choice n w t e).
Hypothesis HParallel : ∀ n bs c, Forall (Forall P) bs → on_catch c → P (Parallel n bs c).
Hypothesis HMap : ∀ n ip mc ps iter c, Forall P iter → on_catch c → P (Map n ip mc ps iter c).
Hypothesis HPass : ∀ n, P (Pass n).
Hypothesis HSucceed : ∀ n, P (Succeed n).

Fixpoint State_nested_ind (s : State) : P s :=
  let on_list :=
    fix on_list (l : list State) : Forall P l :=
      match l with
      | [] => Forall_nil_2 P
      | x :: l' => Forall_cons_2 P x l' (State_nested_ind x) (on_list l')
      end in
  let on_lists :=
    fix on_lists (ls : list (list State)) : Forall (Forall P) ls :=
      match ls with
      | [] => Forall_nil_2 (Forall P)
      | l :: ls' => Forall_cons_2 (Forall P) l ls' (on_list l) (on_lists ls')
      end in
  let on_c (c : option (State * Path)) : on_catch c :=
    match c with
    | Some (h, _) => State_nested_ind h
    | None => I
    end in
  match s with
  | Task n a rp c => HTask n a rp c (on_c c)
  | Choice n w t e => HChoice n w t e (on_list t) (on_list e)
  | Parallel n bs c => HParallel n bs c (on_lists bs) (on_c c)
  | Map n ip mc ps iter c => HMap n ip mc ps iter c (on_list iter) (on_c c)
  | Pass n => HPass n
  | Succeed n => HSucceed n
  end.
End StateInduction.

(* ===================================================================== *)
(* Theorems                                                              *)
(* ===================================================================== *)

(* ===================================================================== *)
(* What an execution can do to the table and which calls it can issue     *)
(* ===================================================================== *)

Lemma Forall_flat_map_1 {A B} (Q : B → Prop) (f : A → list B) (l : list A) :
  Forall Q (flat_map f l) → Forall (λ x, Forall Q (f x)) l.
Proof.
  induction l as [|x l IH]; simpl; [constructor|].
  intros [H1 H2]%Forall_app. constructor; auto.
Qed.

Lemma Forall_both {A} (P Q : A → Prop) (l : list A) :
  Forall P l → Forall Q l → Forall (λ x, P x ∧ Q x) l.
Proof. intros. by apply Forall_and. Qed.

Section Respect.
Import Engine.
Variable fault : string → JSON → option Error.
Variable generate : JSON → JSON.
Variable x0 : JSON.

(* [R σ σ']: how far the table may move; [E]: the calls that may be issued;
   [A]: the service calls the states are made of. *)
Variable R : Table → Table → Prop.
Variable E : Effect → Prop.
Variable A : Action → Prop.
Hypothesis R_refl : ∀ σ, R σ σ.
Hypothesis R_trans : ∀ σ1 σ2 σ3, R σ1 σ2 → R σ2 σ3 → R σ1 σ3.

Hypothesis action_good :
  ∀ name a rp σ ctx, A a → good R E σ (exec_action generate x0 name a rp σ ctx).

Lemma good_fail e σ : good R E σ (fail e σ).
Proof. split; [apply R_refl|constructor]. Qed.

Lemma good_ok ctx σ : good R E σ (ok ctx σ []).
Proof. split; [apply R_refl|constructor]. Qed.

Lemma good_from σ0 σ r : R σ0 σ → good R E σ r → good R E σ0 r.
Proof.
  intros H0 [Ht Htr]. split; [by eapply R_trans|].
  eapply Forall_impl; [exact Htr|]. intros e [? ?]. split; [by eapply R_trans|done].
Qed.

Lemma good_seq σ r r' o :
  good R E σ r → good R E (table r) r' →
  good R E σ (mkResult o (table r') (trace r ++ trace r')).
Proof.
  intros Hr Hr'. pose proof (good_from σ (table r) r' (proj1 Hr) Hr') as [Ht Htr].
  split; [done|]. simpl. apply Forall_app. split; [apply Hr|done].
Qed.

Lemma good_task name a rp σ ctx :
  A a → good R E σ (exec_task fault generate x0 name a rp σ ctx).
Proof.
  intros Ha. unfold exec_task. destruct (fault name ctx); [apply good_fail|by apply action_good].
Qed.

Lemma good_handle c ctx σ r :
  match c with Some (h, _) => respects R E h | None => True end →
  good R E σ r → good R E σ (handle c ctx r).
Proof.
  intros Hc Hr. unfold handle.
  destruct (outcome r) as [| |e]; try done.
  destruct c as [[h p]|]; [|done].
  by apply good_seq.
Qed.

Lemma respects_chain l : Forall (respects R E) l → respects R E (run_chain l).
Proof.
  induction 1 as [|f l Hf _ IH]; intros σ ctx; simpl; [apply good_ok|].
  destruct (outcome (f σ ctx)) as [ctx'| |e] eqn:Ho; try apply Hf.
  apply good_seq; [apply Hf|apply IH].
Qed.

Lemma good_all (l : list (Table → Result)) ctx σ :
  Forall (λ f, ∀ σ', good R E σ' (f σ')) l → good R E σ (join ctx (run_all l σ)).
Proof.
  intros Hl. revert σ. induction Hl as [|f l Hf _ IH]; intros σ; simpl.
  - apply good_ok.
  - specialize (IH (table (f σ))).
    destruct (run_all l (table (f σ))) as [[o σ'] t] eqn:Hrun.
    assert (good R E σ (mkResult Finished σ' (trace (f σ) ++ t))) as [H1 H2].
    { pose proof (good_seq σ (f σ) (mkResult Finished σ' t) Finished (Hf σ)) as H.
      apply H. destruct o; apply IH. }
    destruct (first_failure (failure_of (outcome (f σ))) o); split; done.
Qed.

Lemma respects_exec s : Forall A (actions_of s) → respects R E (exec fault generate x0 s).
Proof.
  induction s as [n a rp c IHc|n w t e IHt IHe|n bs c IHbs IHc|n ip mc ps iter c IHi IHc
                  |n|n] using State_nested_ind; intros Hall σ ctx; simpl in Hall.
  - apply Forall_cons in Hall as [Ha Hc]. simpl.
    apply good_handle; [|by apply good_task].
    destruct c as [[h p]|]; [by apply IHc|done].
  - apply Forall_app in Hall as [Ht He].
    apply Forall_flat_map_1 in Ht, He. simpl.
    destruct (eval_cond ctx w); apply respects_chain, Forall_fmap.
    + eapply Forall_impl; [exact (Forall_both _ _ _ IHt Ht)|]; simpl.
      by intros s [? ?]; auto.
    + eapply Forall_impl; [exact (Forall_both _ _ _ IHe He)|]; simpl.
      by intros s [? ?]; auto.
  - apply Forall_app in Hall as [Hbs Hc]. apply Forall_flat_map_1 in Hbs. simpl.
    apply good_handle; [destruct c as [[h p]|]; [by apply IHc|done]|].
    apply good_all, Forall_fmap.
    eapply Forall_impl; [exact (Forall_both _ _ _ IHbs Hbs)|]; simpl.
    intros b [IHb Hb] σ'. apply Forall_flat_map_1 in Hb.
    apply respects_chain, Forall_fmap.
    eapply Forall_impl; [exact (Forall_both _ _ _ IHb Hb)|]; simpl.
    by intros s [? ?]; auto.
  - apply Forall_app in Hall as [Hi Hc]. apply Forall_flat_map_1 in Hi. simpl.
    apply good_handle; [destruct c as [[h p]|]; [by apply IHc|done]|].
    destruct (get_path ip ctx) as [[| | | |items|]|]; try apply good_fail.
    apply good_all, Forall_fmap, Forall_forall. intros item _ σ'. simpl.
    unfold run_item. destruct (item_input x0 ps item); [|apply good_fail].
    apply respects_chain, Forall_fmap.
    eapply Forall_impl; [exact (Forall_both _ _ _ IHi Hi)|]; simpl.
    by intros s [? ?]; auto.
  - apply good_ok.
  - split; [apply R_refl|constructor].
Qed.

Lemma respects_definition l :
  Forall A (flat_map actions_of l) → respects R E (exec_chain fault generate x0 l).
Proof.
  intros H%Forall_flat_map_1. apply respects_chain, Forall_fmap.
  eapply Forall_impl; [exact H|]. intros s Hs. by apply respects_exec.
Qed.
End Respect.

(* ===================================================================== *)
(* The status fields and their index keys                                *)
(* ===================================================================== *)

Lemma eval_sets_lookup x0 ctx upd sets (a : string) :
  Engine.eval_sets x0 ctx upd = Some sets →
  (list_to_map sets : gmap string JSON) !! a
  = (list_to_map upd : gmap string DynamoAttributeValue) !! a ≫= Engine.eval_attr x0 ctx.
Proof.
  revert sets. induction upd as [|[b v] upd IH]; intros sets; simpl.
  - by intros [= <-].
  - destruct (Engine.eval_attr x0 ctx v) as [j|] eqn:Hv; [|done].
    destruct (Engine.eval_sets x0 ctx upd) as [r|]; [|done].
    intros [= <-]. simpl.
    destruct (decide (b = a)) as [->|Hne].
    + by rewrite !lookup_insert_eq.
    + rewrite !lookup_insert_ne by done. by apply IH.
Qed.

Lemma apply_sets_together x0 ctx upd sets (a b : string) it :
  assigned_together a b upd →
  Engine.eval_sets x0 ctx upd = Some sets →
  it !! a = it !! b →
  Engine.apply_sets sets it !! a = Engine.apply_sets sets it !! b.
Proof.
  intros Hab Hsets Hit. unfold Engine.apply_sets.
  rewrite !lookup_union, Hit.
  by rewrite !(eval_sets_lookup x0 ctx upd sets) by done; rewrite Hab.
Qed.

Lemma key_item_lookup k (a : string) :
  a ≠ "PK" → a ≠ "SK" → Engine.key_item k !! a = None.
Proof. intros. unfold Engine.key_item. by rewrite !lookup_insert_ne, lookup_empty. Qed.

Lemma update_item_synced x0 ctx upd sets k σ :
  assigned_together "status" "GSI1PK" upd →
  assigned_together "booking_status" "GSI2PK" upd →
  Engine.eval_sets x0 ctx upd = Some sets →
  synced σ → synced (Engine.update_item k sets σ).
Proof.
  intros Hf Hb Hsets Hσ k' it. unfold Engine.update_item.
  destruct (decide (k = k')) as [<-|Hne].
  - rewrite lookup_insert_eq. intros [= <-].
    split; intros Hk.
    + eapply apply_sets_together; [exact Hf|exact Hsets|].
      destruct (σ !! k) as [old|] eqn:Hold; simpl.
      * by apply (Hσ k old).
      * by rewrite !key_item_lookup.
    + eapply apply_sets_together; [exact Hb|exact Hsets|].
      destruct (σ !! k) as [old|] eqn:Hold; simpl.
      * by apply (Hσ k old).
      * by rewrite !key_item_lookup.
  - rewrite lookup_insert_ne by done. apply Hσ.
Qed.

Lemma action_keeps_sync generate x0 name a rp σ ctx :
  keeps_indexes a →
  good (λ σ σ', synced σ → synced σ') writes_together σ
    (Engine.exec_action generate x0 name a rp σ ctx).
Proof.
  intros Ha. unfold good, Engine.exec_action.
  destruct a as [pk sk|pk sk|pk sk upd|payload|detail dt src|message]; simpl in Ha.
  - destruct (Engine.eval_key x0 ctx pk sk) as [[p s]|]; simpl; split; auto.
  - destruct (Engine.eval_key x0 ctx pk sk) as [k|]; simpl; [|split; auto].
    destruct (σ !! k); simpl; split; auto.
  - destruct Ha as [Hf Hb].
    destruct (Engine.eval_key x0 ctx pk sk) as [k|]; simpl; [|split; auto].
    destruct (Engine.eval_sets x0 ctx upd) as [sets|] eqn:Hsets; simpl; [|split; auto].
    split; [by eapply update_item_synced|].
    apply Forall_singleton. split; [done|]. simpl. split.
    + by rewrite !(eval_sets_lookup x0 ctx upd sets), Hf.
    + by rewrite !(eval_sets_lookup x0 ctx upd sets), Hb.
  - destruct (Engine.eval_obj x0 ctx payload); simpl; split; auto; by apply Forall_singleton.
  - destruct (Engine.eval_obj x0 ctx detail); simpl; split; auto; by apply Forall_singleton.
  - destruct (Engine.eval_obj x0 ctx message); simpl; split; auto; by apply Forall_singleton.
Qed.

Ltac list_actions :=
  match goal with
  | |- Forall _ (flat_map actions_of ?d) =>
      let l := eval vm_compute in (flat_map actions_of d) in
      change (flat_map actions_of d) with l
  end.

Lemma catalog_keeps_indexes :
  Forall (λ definition, Forall keeps_indexes (flat_map actions_of definition)) catalog.
Proof.
  unfold catalog.
  repeat (apply Forall_cons_2;
          [list_actions;
           repeat (apply Forall_cons_2; [first [exact I | by split; vm_compute]|]);
           apply Forall_nil_2|]).
  apply Forall_nil_2.
Qed.

(** C3: every update of the three workflows assigns a status and the key of
    its index together, to the same value, in the one UpdateItem call; a
    table in which every Flight has status = GSI1PK and every Booking has
    booking_status = GSI2PK is in that state again after any execution, and
    was in it at every call the execution issued. *)
Theorem status_and_index_key_stay_in_sync :
  Forall (λ definition, Forall keeps_indexes (flat_map actions_of definition)) catalog
  ∧ ∀ fault generate definition σ input,
      definition ∈ catalog → synced σ →
      let r := Engine.run fault generate definition σ input in
      synced (Engine.table r)
      ∧ Forall (λ e, synced (Engine.snapshot e) ∧ writes_together (Engine.effect e))
          (Engine.trace r).
Proof.
  split; [exact catalog_keeps_indexes|].
  intros fault generate definition σ input Hin Hσ r.
  pose proof catalog_keeps_indexes as Hcat.
  rewrite Forall_forall in Hcat. specialize (Hcat definition Hin).
  destruct (respects_definition fault generate input
              (λ σ σ', synced σ → synced σ') writes_together keeps_indexes
              (λ _ H, H) (λ _ _ _ H1 H2 H, H2 (H1 H))
              (action_keeps_sync generate input) definition Hcat σ input) as [Ht Htr].
  split; [by apply Ht|].
  eapply Forall_impl; [exact Htr|]. intros e [He ?]. split; [by apply He|done].
Qed.

Lemma sample_table_synced : synced Sample.full_table.
Proof.
  intros k it Hk. unfold Sample.full_table, Sample.table in Hk.
  repeat (apply lookup_insert_Some in Hk as [[<- <-]|[_ Hk]]);
    try (by rewrite lookup_empty in Hk);
    split; intros [Hp Hs]; try done; by vm_compute.
Qed.

Lemma status_and_index_key_stay_in_sync_witness :
  synced (Engine.table (Engine.run Sample.no_fault Sample.generate
            CancellationWorkflow.definition Sample.full_table Sample.cancelled)).
Proof.
  apply (proj2 status_and_index_key_stay_in_sync Sample.no_fault Sample.generate
           CancellationWorkflow.definition Sample.full_table Sample.cancelled).
  - unfold catalog. set_solver.
  - exact sample_table_synced.
Defined.

(* ===================================================================== *)
(* Which calls a state can issue                                         *)
(* ===================================================================== *)

(* A service call issues only the effects of its kind; only UpdateItem
   moves the table. *)
Lemma action_issues (E : Engine.Effect → Prop) generate x0 name a rp σ ctx :
  (∀ eff, may_issue a eff → E eff) →
  good (λ _ _, True) E σ (Engine.exec_action generate x0 name a rp σ ctx).
Proof.
  intros Ha. unfold good, Engine.exec_action.
  destruct a as [pk sk|pk sk|pk sk upd|payload|detail dt src|message].
  - destruct (Engine.eval_key x0 ctx pk sk) as [[p s]|]; simpl; split; auto.
  - destruct (Engine.eval_key x0 ctx pk sk) as [k|]; simpl; [|split; auto].
    destruct (σ !! k); simpl; split; auto.
  - destruct (Engine.eval_key x0 ctx pk sk) as [k|]; simpl; [|split; auto].
    destruct (Engine.eval_sets x0 ctx upd) as [sets|]; simpl; split; auto.
    apply Forall_singleton. split; [done|]. by apply Ha.
  - destruct (Engine.eval_obj x0 ctx payload); simpl; split; auto.
    apply Forall_singleton. split; [done|]. by apply Ha.
  - destruct (Engine.eval_obj x0 ctx detail); simpl; split; auto.
    apply Forall_singleton. split; [done|]. by apply Ha.
  - destruct (Engine.eval_obj x0 ctx message); simpl; split; auto.
    apply Forall_singleton. split; [done|]. by apply Ha.
Qed.

Lemma action_reads (E : Engine.Effect → Prop) generate x0 name a rp σ ctx :
  is_update a = false ∧ (∀ eff, may_issue a eff → E eff) →
  good eq E σ (Engine.exec_action generate x0 name a rp σ ctx).
Proof.
  intros [Hu Ha]. unfold good, Engine.exec_action.
  destruct a as [pk sk|pk sk|pk sk upd|payload|detail dt src|message]; try done.
  - destruct (Engine.eval_key x0 ctx pk sk) as [[p s]|]; simpl; split; auto.
  - destruct (Engine.eval_key x0 ctx pk sk) as [k|]; simpl; [|split; auto].
    destruct (σ !! k); simpl; split; auto.
  - destruct (Engine.eval_obj x0 ctx payload); simpl; split; auto.
    apply Forall_singleton. split; [done|]. by apply Ha.
  - destruct (Engine.eval_obj x0 ctx detail); simpl; split; auto.
    apply Forall_singleton. split; [done|]. by apply Ha.
  - destruct (Engine.eval_obj x0 ctx message); simpl; split; auto.
    apply Forall_singleton. split; [done|]. by apply Ha.
Qed.

(* States without an update leave the table as it is, and every call they
   issue sees it. *)
Lemma reads_only (E : Engine.Effect → Prop) fault generate x0 l σ ctx :
  Forall (λ a, is_update a = false ∧ ∀ eff, may_issue a eff → E eff)
    (flat_map actions_of l) →
  let r := Engine.exec_chain fault generate x0 l σ ctx in
  Engine.table r = σ
  ∧ Forall (λ e, Engine.snapshot e = σ ∧ E (Engine.effect e)) (Engine.trace r).
Proof.
  intros Hl r.
  destruct (respects_definition fault generate x0 eq E _
              (λ _, eq_refl) (λ _ _ _ H1 H2, eq_trans H1 H2)
              (action_reads E generate x0) l Hl σ ctx) as [Ht Htr].
  split; [done|]. eapply Forall_impl; [exact Htr|]. by intros e [-> ?].
Qed.

Lemma issues_only (E : Engine.Effect → Prop) fault generate x0 l σ ctx :
  Forall (λ a, ∀ eff, may_issue a eff → E eff) (flat_map actions_of l) →
  Forall (λ e, E (Engine.effect e))
    (Engine.trace (Engine.exec_chain fault generate x0 l σ ctx)).
Proof.
  intros Hl.
  destruct (respects_definition fault generate x0 (λ _ _, True) E _
              (λ _, I) (λ _ _ _ _ _, I)
              (action_issues E generate x0) l Hl σ ctx) as [_ Htr].
  eapply Forall_impl; [exact Htr|]. by intros e [_ ?].
Qed.

Ltac each_action tac :=
  list_actions;
  repeat (apply Forall_cons_2; [tac|]);
  apply Forall_nil_2.

(* ===================================================================== *)
(* Failure reports                                                       *)
(* ===================================================================== *)

Lemma no_report_state fault generate l σ input :
  Forall (λ a, ∀ eff, may_issue a eff → is_report eff = false) (flat_map actions_of l) →
  reports (Engine.run fault generate l σ input) = [].
Proof.
  intros Hl. unfold reports, Engine.run.
  pose proof (issues_only _ fault generate input l σ input Hl) as H.
  induction H as [|e t He _ IH]; [done|].
  rewrite filter_cons_False; [done|]. by rewrite He.
Qed.

(** C1 (the code at the failing input): no execution of the Cancellation or
    of the Gate-Change workflow publishes a Failure Report; when the booking
    query fails, both executions end in failure and no report exists. *)
Theorem cancellation_and_gate_change_failures_unreported :
  (∀ fault generate σ input,
     reports (Engine.run fault generate CancellationWorkflow.definition σ input) = []
     ∧ reports (Engine.run fault generate GateChangeWorkflow.definition σ input) = [])
  ∧ has_failed (Engine.run Sample.query_down Sample.generate
                  CancellationWorkflow.definition Sample.full_table Sample.cancelled) = true
  ∧ has_failed (Engine.run Sample.query_down Sample.generate
                  GateChangeWorkflow.definition Sample.full_table Sample.gate_changed) = true.
Proof.
  split; [|split; by vm_compute].
  intros fault generate σ input. split; apply no_report_state.
  - each_action ltac:(by intros []).
  - each_action ltac:(by intros []).
Qed.

(** C2 (the code at the failing input): flight F1 has two bookings, B1 and
    B2, and the passenger of B2 is missing. GetPassengerDetails raises
    RecordNotFound for B2; nothing catches it in the item, on the Map or
    above it, so the Map step and with it the execution fails, and no
    Failure Report is published. This holds in the Gate-Change and in the
    Cancellation workflow; in the latter the flight is never marked
    CANCELLED. The notifications of B1 are published. *)
Theorem missing_passenger_fails_the_map :
  let gate := Engine.run Sample.no_fault Sample.generate
                GateChangeWorkflow.definition Sample.table Sample.gate_changed in
  let cancel := Engine.run Sample.no_fault Sample.generate
                  CancellationWorkflow.definition Sample.table Sample.cancelled in
  (λ b, b !! "booking_id") <$> affected Sample.table Sample.gate_changed
  = [Some (JStr "B1"); Some (JStr "B2")]
  ∧ Engine.outcome gate
    = Engine.Failed (Engine.mkError Engine.RecordNotFound "GetPassengerDetails")
  ∧ effect_name <$> Engine.trace gate
    = ["update"; "generate"; "notification.email"; "notification.sms"]
  ∧ reports gate = []
  ∧ Engine.outcome cancel
    = Engine.Failed (Engine.mkError Engine.RecordNotFound "GetPassengerDetails")
  ∧ effect_name <$> Engine.trace cancel
    = ["update"; "update"; "generate"; "notification.email"; "notification.sms"]
  ∧ reports cancel = [].
Proof. by vm_compute. Qed.

(* ===================================================================== *)
(* Running a definition state by state                                   *)
(* ===================================================================== *)

Lemma append_empty (s : string) : s +:+ "" = s.
Proof.
  induction s as [|c s IH]; [done|].
  change (String c (s +:+ "") = String c s). by rewrite IH.
Qed.

Lemma format_flight (s : string) : replace_first "{}" s "FLIGHT#{}" = "FLIGHT#" +:+ s.
Proof. simpl. by rewrite append_empty. Qed.

Lemma format_booking (s : string) : replace_first "{}" s "BOOKING#{}" = "BOOKING#" +:+ s.
Proof. simpl. by rewrite append_empty. Qed.

Section Steps.
Import Engine.
Variable fault : string → JSON → option Error.
Variable generate : JSON → JSON.
Variable x0 : JSON.

Lemma handle_None ctx r : handle None ctx r = r.
Proof. unfold handle. by destruct (outcome r). Qed.

Lemma exec_chain_cons s l σ ctx :
  exec_chain fault generate x0 (s :: l) σ ctx
  = let r := exec fault generate x0 s σ ctx in
    match outcome r with
    | Continue ctx' =>
        let r' := exec_chain fault generate x0 l (table r) ctx' in
        mkResult (outcome r') (table r') (trace r ++ trace r')
    | _ => r
    end.
Proof. reflexivity. Qed.

Lemma exec_task_plain name a rp σ ctx :
  exec fault generate x0 (Task name a rp None) σ ctx
  = exec_task fault generate x0 name a rp σ ctx.
Proof. simpl. apply handle_None. Qed.

(* An update task without a catch: it fails and nothing happened, or its
   one write is applied. *)
Lemma exec_update_cases name pk sk upd σ ctx :
  let r := exec fault generate x0 (Task name (DynamoUpdateItem pk sk upd) None None) σ ctx in
  (has_failed r = true ∧ table r = σ ∧ trace r = [])
  ∨ (∃ k sets, eval_key x0 ctx pk sk = Some k ∧ eval_sets x0 ctx upd = Some sets
       ∧ r = ok (put_result None (JObj ∅) ctx) (update_item k sets σ)
               [mkEntry σ (Updated k sets)]).
Proof.
  intros r. subst r. rewrite exec_task_plain. unfold exec_task.
  destruct (fault name ctx); [by left|]. unfold exec_action.
  destruct (eval_key x0 ctx pk sk) as [k|]; [|by left].
  destruct (eval_sets x0 ctx upd) as [sets|]; [|by left].
  right. by exists k, sets.
Qed.

Lemma eval_flight_key ctx k :
  eval_key x0 ctx
    (fromString (format "FLIGHT#{}" (stringAt ["detail"; "flight_id"])))
    (fromString (lit (JStr "METADATA"))) = Some k →
  ∃ fid, get_path ["detail"; "flight_id"] ctx = Some (JStr fid)
         ∧ k = ("FLIGHT#" +:+ fid, "METADATA").
Proof.
  unfold eval_key, eval_attr, eval_tmpl.
  destruct (get_path ["detail"; "flight_id"] ctx) as [[| | |fid| |]|]; try done.
  rewrite format_flight. intros [= <-]. by exists fid.
Qed.
End Steps.

(* ===================================================================== *)
(* The Gate-Change workflow                                              *)
(* ===================================================================== *)

(** C8: an execution of the Gate-Change workflow starts with
    UpdateFlightGate, run on the trigger payload and the table as they
    are, whatever would happen to the states after it. If UpdateFlightGate
    fails, the execution fails with its error and nothing else happens.
    If it does not fail, the write of the flight's gate is made, also when
    GetAffectedBookings or ProcessBookings fail afterwards: it is the first
    call issued, and GetAffectedBookings and ProcessBookings run after it,
    on the table that holds the new gate, so that every call to the message
    generator and every published notification finds the new gate in the
    flight record. *)
Theorem gate_updated_before_notifications
    (fault : string → JSON → option Engine.Error) (generate : JSON → JSON)
    (σ : Table) (input : JSON) :
  let r := Engine.run fault generate GateChangeWorkflow.definition σ input in
  let first := Engine.exec fault generate input GateChangeWorkflow.updateGate σ input in
  (has_failed first = true
   ∧ Engine.outcome r = Engine.outcome first
   ∧ Engine.trace r = [] ∧ Engine.table r = σ)
  ∨ has_failed first = false
    ∧ ∃ fid gate,
      fault "UpdateFlightGate" input = None
      ∧ get_path ["detail"; "flight_id"] input = Some (JStr fid)
      ∧ get_path ["detail"; "new_gate"] input = Some (JStr gate)
      ∧ let σ' := Engine.update_item ("FLIGHT#" +:+ fid, "METADATA") [("gate", JStr gate)] σ in
        let rest :=
          Engine.exec_chain fault generate input
            [GateChangeWorkflow.getBookings;
             ProcessBookings.createProcessBookingsMap "GATE_CHANGE_NOTIFICATION";
             Succeed "WorkflowComplete"]
            σ' (put_path [] (JObj ∅) input) in
        gate_is fid gate σ'
        ∧ Engine.outcome r = Engine.outcome rest
        ∧ Engine.table r = σ'
        ∧ Engine.trace r
          = Engine.mkEntry σ (Engine.Updated ("FLIGHT#" +:+ fid, "METADATA")
                                [("gate", JStr gate)])
            :: Engine.trace rest
        ∧ Forall (λ e, is_notification (Engine.effect e) = true
                       ∧ Engine.snapshot e = σ') (Engine.trace rest).
Proof.
  intros r first. subst r first.
  unfold Engine.run, GateChangeWorkflow.definition.
  rewrite exec_chain_cons. cbv zeta.
  unfold GateChangeWorkflow.updateGate. rewrite exec_task_plain.
  unfold Engine.exec_task.
  destruct (fault "UpdateFlightGate" input) as [err|] eqn:Hfault; [by left|].
  unfold Engine.exec_action.
  destruct (Engine.eval_key input input _ _) as [k|] eqn:Hk; [|by left].
  destruct (Engine.eval_sets input input _) as [sets|] eqn:Hsets; [|by left].
  right. split; [done|].
  apply eval_flight_key in Hk as (fid & Hfid & ->).
  revert Hsets. unfold Engine.eval_sets, Engine.eval_attr, Engine.eval_tmpl.
  destruct (get_path ["detail"; "new_gate"] input) as [[| | |gate| |]|] eqn:Hgate;
    try done.
  intros [= <-]. exists fid, gate. split; [done|]. split; [done|]. split; [done|].
  cbv zeta. cbn [Engine.ok Engine.outcome Engine.table Engine.trace].
  unfold Engine.put_result. cbn [default].
  match goal with
  | |- context [Engine.exec_chain _ _ _ ?l ?σ' ?ctx] =>
      destruct (reads_only (λ eff, is_notification eff = true)
                  fault generate input l σ' ctx) as [Htable Hrest];
      [each_action ltac:(split; [done|by intros []])|];
      set (rest := Engine.exec_chain fault generate input l σ' ctx) in *
  end.
  clearbody rest. split; [|split; [done|split; [done|split; [done|]]]].
  - eexists. unfold Engine.update_item. rewrite lookup_insert_eq. split; [done|].
    unfold Engine.apply_sets. apply lookup_union_Some_l. simpl.
    by rewrite lookup_insert_eq.
  - eapply Forall_impl; [exact Hrest|]. by intros e [? ?].
Qed.

(* ===================================================================== *)
(* The Delay workflow                                                    *)
(* ===================================================================== *)

Lemma update_item_twice (k : Key) (sets : list (string * JSON)) (σ : Table) :
  Engine.update_item k sets (Engine.update_item k sets σ) = Engine.update_item k sets σ.
Proof.
  unfold Engine.update_item. rewrite lookup_insert_eq, insert_insert_eq. simpl. f_equal.
  unfold Engine.apply_sets. by rewrite (assoc_L (∪)), (idemp_L (∪)).
Qed.

(* A field the result does not have is read from the context as before. *)
Lemma get_path_put_root (k : string) p (res : gmap string JSON) ctx :
  res !! k = None →
  get_path (k :: p) (put_path [] (JObj res) ctx) = get_path (k :: p) ctx.
Proof.
  intros Hk. destruct ctx as [| | | | |c]; simpl; try by rewrite Hk.
  by rewrite lookup_union_r.
Qed.

Section Delay.
Import Engine.
Variable fault : string → JSON → option Error.
Variable generate : JSON → JSON.
Variable x0 : JSON.

Lemma reads_only_state (E : Effect → Prop) s σ ctx :
  Forall (λ a, is_update a = false ∧ ∀ eff, may_issue a eff → E eff) (actions_of s) →
  let r := exec fault generate x0 s σ ctx in
  table r = σ ∧ Forall (λ e, snapshot e = σ ∧ E (effect e)) (trace r).
Proof.
  intros Hs r.
  destruct (respects_exec fault generate x0 eq E _
              (λ _, eq_refl) (λ _ _ _ H1 H2, eq_trans H1 H2)
              (action_reads E generate x0) s Hs σ ctx) as [Ht Htr].
  split; [done|]. eapply Forall_impl; [exact Htr|]. by intros e [-> ?].
Qed.

Lemma table_chain_one s σ ctx :
  table (exec_chain fault generate x0 [s] σ ctx) = table (exec fault generate x0 s σ ctx).
Proof. rewrite exec_chain_cons. cbv zeta. by destruct (outcome _). Qed.

Lemma table_handle h p ctx r :
  (∀ σ ctx', table (h σ ctx') = σ) → table (handle (Some (h, p)) ctx r) = table r.
Proof. intros Hh. unfold handle. destruct (outcome r); simpl; auto. Qed.

(* Two branches: the second runs on the table the first one left. *)
Lemma table_join_two (ctx : JSON) (fA fB : Table → Result) (σ : Table) :
  table (join ctx (run_all [fA; fB] σ)) = table (fB (table (fA σ))).
Proof. simpl. by destruct (first_failure _ _). Qed.

Lemma handle_continue c ctx r ctx' :
  outcome (handle c ctx r) = Continue ctx' → handle c ctx r = r.
Proof.
  unfold handle. destruct (outcome r) eqn:Hr; try done.
  destruct c as [[h p]|]; [|done]. simpl. by destruct (outcome (h _ _)).
Qed.

(* GetAffectedBookings: when the chain goes on, the context has gained
   Items and Count and nothing else has changed. *)
Lemma get_bookings_continue name pk sk c σ ctx ctx' :
  let r := exec fault generate x0 (Task name (DynamoQuery pk sk) None c) σ ctx in
  outcome r = Continue ctx' →
  ∃ p s,
    eval_key x0 ctx pk sk = Some (p, s)
    ∧ ctx' = put_path []
               (JObj (<["Items" := JArr (JObj <$> query p s σ)]>
                      (<["Count" := JNum (Z.of_nat (length (query p s σ)))]> ∅))) ctx
    ∧ table r = σ ∧ trace r = [].
Proof.
  intros r Hr. subst r. cbn [exec] in Hr |- *.
  pose proof (handle_continue _ _ _ _ Hr) as Heq. rewrite Heq in Hr |- *. clear Heq.
  revert Hr. unfold exec_task. destruct (fault name ctx); [done|]. unfold exec_action.
  destruct (eval_key x0 ctx pk sk) as [[p s]|]; [|done].
  simpl. intros [= <-]. by exists p, s.
Qed.

Lemma bookings_keep_detail (p s : string) (σ : Table) (ctx : JSON) (path : Path) :
  get_path ("detail" :: path)
    (put_path []
       (JObj (<["Items" := JArr (JObj <$> query p s σ)]>
              (<["Count" := JNum (Z.of_nat (length (query p s σ)))]> ∅))) ctx)
  = get_path ("detail" :: path) ctx.
Proof. apply get_path_put_root. by rewrite !lookup_insert_ne, lookup_empty. Qed.
End Delay.

Lemma delay_table_cases fault generate σ input :
  let r := Engine.run fault generate DelayWorkflow.definition σ input in
  Engine.table r = σ
  ∨ ∃ k sets, delay_write input = Some (k, sets)
              ∧ Engine.table r = Engine.update_item k sets σ.
Proof.
  intros r. subst r. unfold Engine.run, DelayWorkflow.definition.
  assert (Hquiet : ∀ σ' ctx',
    Engine.table (Engine.exec fault generate input DelayWorkflow.notifyFailure σ' ctx') = σ').
  { intros σ' ctx'.
    apply (reads_only_state fault generate input (λ _, True)).
    simpl. repeat constructor. }
  rewrite exec_chain_cons. cbv zeta. unfold DelayWorkflow.getBookings.
  match goal with
  | |- context [Engine.outcome ?r] => destruct (Engine.outcome r) as [ctx1| |e] eqn:Hfirst
  end.
  2,3: left; apply (reads_only_state fault generate input (λ _, True));
       simpl; repeat constructor.
  apply get_bookings_continue in Hfirst as (p & s & _ & Hctx & Htable & Htrace).
  rewrite Htable. clear Htable Htrace.
  rewrite exec_chain_cons. cbv zeta.
  set (r2 := Engine.exec fault generate input DelayWorkflow.parallelExecution σ ctx1).
  assert (Hr2 : Engine.table r2 = σ
                ∨ ∃ k sets, delay_write input = Some (k, sets)
                            ∧ Engine.table r2 = Engine.update_item k sets σ).
  { subst r2. unfold DelayWorkflow.parallelExecution. cbn [Engine.exec map].
    rewrite table_handle by exact Hquiet.
    rewrite table_join_two.
    change (Engine.run_chain [Engine.exec fault generate input DelayWorkflow.checkBookings])
      with (Engine.exec_chain fault generate input [DelayWorkflow.checkBookings]).
    change (Engine.run_chain [Engine.exec fault generate input DelayWorkflow.updateFlight])
      with (Engine.exec_chain fault generate input [DelayWorkflow.updateFlight]).
    assert (HA : Engine.table
                   (Engine.exec_chain fault generate input [DelayWorkflow.checkBookings] σ ctx1)
                 = σ).
    { apply (reads_only (λ _, True) fault generate input [DelayWorkflow.checkBookings]).
      each_action ltac:(split; [done|by intros []]). }
    rewrite HA, table_chain_one.
    unfold DelayWorkflow.updateFlight. cbn [Engine.exec].
    rewrite table_handle by exact Hquiet.
    unfold Engine.exec_task. destruct (fault "UpdateFlightStatus" ctx1) as [e|]; [left; reflexivity|].
    unfold delay_write, Engine.exec_action, Engine.eval_key, Engine.eval_sets,
      Engine.eval_attr, Engine.eval_tmpl.
    rewrite Hctx, !bookings_keep_detail.
    destruct (get_path ["detail"; "flight_id"] input) as [[| | |fid| |]|]; try by left.
    rewrite format_flight.
    destruct (get_path ["detail"; "delay_minutes"] input) as [[| |m|m| |]|];
      try (by left);
      (destruct (get_path ["detail"; "reason"] input) as [[| | |reason| |]|];
       try (by left); right; eexists _, _; split; reflexivity). }
  destruct (Engine.outcome r2) as [ctx2| |e]; simpl; try done.
Qed.

(** C6: running the Delay workflow a second time on the same trigger
    payload, on the table the first run left, changes nothing: the Flight
    record (status, delay_minutes, delay_reason, GSI1PK) and every other
    item are as after the first run. UpdateFlightStatus writes values that
    depend on the payload only, so once a run has applied it, a re-run
    leaves the table as it is whatever fails or succeeds in it. *)
Theorem delay_workflow_idempotent
    (fault : string → JSON → option Engine.Error) (generate : JSON → JSON)
    (σ : Table) (input : JSON) :
  let once := Engine.table (Engine.run fault generate DelayWorkflow.definition σ input) in
  let twice := Engine.table (Engine.run fault generate DelayWorkflow.definition once input) in
  twice = once
  ∧ ∀ fault' generate' k sets,
      delay_write input = Some (k, sets) →
      once = Engine.update_item k sets σ →
      Engine.table (Engine.run fault' generate' DelayWorkflow.definition once input) = once.
Proof.
  intros once twice. subst twice. split.
  - destruct (delay_table_cases fault generate σ input) as [H1|(k & sets & Hw & H1)];
      fold once in H1.
    + rewrite H1. exact H1.
    + destruct (delay_table_cases fault generate once input)
        as [H2|(k' & sets' & Hw' & H2)].
      * exact H2.
      * rewrite H2. rewrite Hw in Hw'. injection Hw' as <- <-.
        rewrite H1. apply update_item_twice.
  - intros fault' generate' k sets Hw H1.
    destruct (delay_table_cases fault' generate' once input)
      as [H2|(k' & sets' & Hw' & H2)].
    + exact H2.
    + rewrite H2. rewrite Hw in Hw'. injection Hw' as <- <-.
      rewrite H1. apply update_item_twice.
Qed.

(* ===================================================================== *)
(* The Cancellation workflow                                             *)
(* ===================================================================== *)

Lemma rebooked_update (bid : string) (k : Key) (σ : Table) :
  rebooked bid σ → rebooked bid (Engine.update_item k rebooking σ).
Proof.
  intros (b & Hb & Hs & Hg). unfold rebooked, Engine.update_item.
  destruct (decide (k = ("BOOKING#" +:+ bid, "METADATA"))) as [->|Hne].
  - rewrite lookup_insert_eq. rewrite Hb. eexists. split; [done|].
    unfold Engine.apply_sets. split; by apply lookup_union_Some_l.
  - rewrite lookup_insert_ne by done. by exists b.
Qed.

Lemma rebooked_now (bid : string) (σ : Table) :
  rebooked bid (Engine.update_item ("BOOKING#" +:+ bid, "METADATA") rebooking σ).
Proof.
  unfold rebooked, Engine.update_item. rewrite lookup_insert_eq. eexists. split; [done|].
  unfold Engine.apply_sets. split; by apply lookup_union_Some_l.
Qed.

Lemma rebooked_other (bid fid : string) (sets : list (string * JSON)) (σ : Table) :
  rebooked bid σ → rebooked bid (Engine.update_item ("FLIGHT#" +:+ fid, "METADATA") sets σ).
Proof.
  intros (b & Hb & Hs & Hg). exists b. split; [|done].
  unfold Engine.update_item. by rewrite lookup_insert_ne.
Qed.

Lemma get_path_put_root_new (k : string) (v : JSON) (res : gmap string JSON) (ctx : JSON) :
  res !! k = Some v → get_path [k] (put_path [] (JObj res) ctx) = Some v.
Proof.
  intros Hk. destruct ctx as [| | | | |c]; simpl; try by rewrite Hk.
  by rewrite (lookup_union_Some_l _ _ _ _ Hk).
Qed.

Section Cancellation.
Import Engine.
Variable fault : string → JSON → option Error.
Variable generate : JSON → JSON.
Variable x0 : JSON.

Lemma run_all_cons (f : Table → Result) (l : list (Table → Result)) (σ : Table) :
  run_all (f :: l) σ
  = (first_failure (failure_of (outcome (f σ))) (run_all l (table (f σ))).1.1,
     (run_all l (table (f σ))).1.2,
     trace (f σ) ++ (run_all l (table (f σ))).2).
Proof. simpl. by destruct (run_all l (table (f σ))) as [[? ?] ?]. Qed.

Lemma exec_map_plain (name : string) (ip : Path) (mc : option nat)
    (ps : option (list (string * Tmpl))) (iter : list State) (σ : Table) (ctx : JSON) :
  exec fault generate x0 (Map name ip mc ps iter None) σ ctx
  = match get_path ip ctx with
    | Some (JArr items) =>
        join ctx (run_all (map (run_item x0 name ps
                                  (exec_chain fault generate x0 iter)) items) σ)
    | _ => fail (unresolved name) σ
    end.
Proof. cbn [exec]. apply handle_None. Qed.

(* A chain of one update without a catch. *)
Lemma update_chain_cases (name : string) (pk sk : DynamoAttributeValue)
    (upd : list (string * DynamoAttributeValue)) (σ : Table) (ctx : JSON) :
  let r := exec_chain fault generate x0
             [Task name (DynamoUpdateItem pk sk upd) None None] σ ctx in
  (has_failed r = true ∧ table r = σ ∧ trace r = [])
  ∨ (∃ k sets, eval_key x0 ctx pk sk = Some k ∧ eval_sets x0 ctx upd = Some sets
       ∧ has_failed r = false
       ∧ table r = update_item k sets σ
       ∧ trace r = [mkEntry σ (Updated k sets)]).
Proof.
  intros r. subst r. rewrite exec_chain_cons. cbv zeta.
  destruct (exec_update_cases fault generate x0 name pk sk upd σ ctx)
    as [(Hfail & Ht & Htr)|(k & sets & Hk & Hsets & Hr)].
  - left. unfold has_failed in *.
    destruct (outcome (exec fault generate x0 _ σ ctx)) eqn:Ho; try done.
    by rewrite Ho.
  - right. exists k, sets. rewrite Hr. by repeat split.
Qed.

Lemma eval_booking_key (it : gmap string JSON) (k : Key) :
  eval_key x0 (JObj it)
    (fromString (format "BOOKING#{}" (stringAt ["booking_id"])))
    (fromString (lit (JStr "METADATA"))) = Some k →
  ∃ bid, it !! "booking_id" = Some (JStr bid) ∧ k = ("BOOKING#" +:+ bid, "METADATA").
Proof.
  unfold eval_key, eval_attr, eval_tmpl, get_path.
  destruct (it !! "booking_id") as [[| | |bid| |]|]; try done.
  rewrite format_booking. intros [= <-]. by exists bid.
Qed.

Lemma mark_item_cases (it : gmap string JSON) (σ : Table) :
  let r := mark_item fault generate x0 (JObj it) σ in
  (has_failed r = true ∧ table r = σ ∧ trace r = [])
  ∨ (∃ bid, it !! "booking_id" = Some (JStr bid)
       ∧ has_failed r = false
       ∧ table r = update_item ("BOOKING#" +:+ bid, "METADATA") rebooking σ
       ∧ trace r = [mkEntry σ (Updated ("BOOKING#" +:+ bid, "METADATA") rebooking)]).
Proof.
  intros r. subst r. unfold mark_item, run_item. cbn [item_input].
  unfold CancellationWorkflow.updateBookingStatus.
  match goal with
  | |- context [exec_chain _ _ _ [Task ?n (DynamoUpdateItem ?pk ?sk ?upd) None None] σ ?c] =>
      destruct (update_chain_cases n pk sk upd σ c)
        as [H|(k & sets & Hk & Hsets & Hfail & Ht & Htr)]
  end; [by left|right].
  apply eval_booking_key in Hk as (bid & Hbid & ->).
  injection Hsets as <-. by exists bid.
Qed.

(* MarkBookingsForRebooking, item by item. *)
Lemma mark_items (items : list (gmap string JSON)) (σ : Table) :
  let res := run_all (map (mark_item fault generate x0) (JObj <$> items)) σ in
  Forall (λ e, rebooking_write (effect e)) res.2
  ∧ (∀ bid, rebooked bid σ → rebooked bid res.1.2)
  ∧ (res.1.1 = None → all_rebooked items res.1.2).
Proof.
  revert σ. induction items as [|it items IH]; intros σ.
  - simpl. repeat split; [constructor|done|constructor].
  - rewrite fmap_cons. cbn [map]. cbv zeta. rewrite run_all_cons.
    destruct (mark_item_cases it σ)
      as [(Hfail & Ht & Htr)|(bid & Hbid & Hfail & Ht & Htr)];
      rewrite Ht, Htr; cbn [fst snd];
      unfold has_failed in Hfail.
    + destruct (IH σ) as (IH1 & IH2 & IH3).
      split; [done|]. split; [done|].
      by destruct (outcome (mark_item fault generate x0 (JObj it) σ)).
    + destruct (IH (update_item ("BOOKING#" +:+ bid, "METADATA") rebooking σ))
        as (IH1 & IH2 & IH3).
      split; [|split].
      * apply Forall_cons_2; [by exists bid|done].
      * intros bid' H. by apply IH2, rebooked_update.
      * destruct (outcome (mark_item fault generate x0 (JObj it) σ)); try done;
          cbn [failure_of first_failure];
          (intros Ho; apply Forall_cons_2; [|by apply IH3];
           intros bid' Hbid'; rewrite Hbid in Hbid'; injection Hbid' as <-;
           apply IH2, rebooked_now).
Qed.
End Cancellation.

Section CancellationRun.
Import Engine.
Variable fault : string → JSON → option Error.
Variable generate : JSON → JSON.
Variable x0 : JSON.

(* A query without a catch: it fails, or the context gains Items and
   Count. *)
Lemma exec_query_cases (name : string) (pk sk : DynamoAttributeValue)
    (σ : Table) (ctx : JSON) :
  let r := exec fault generate x0 (Task name (DynamoQuery pk sk) None None) σ ctx in
  (has_failed r = true ∧ table r = σ ∧ trace r = [])
  ∨ (∃ p s, eval_key x0 ctx pk sk = Some (p, s)
       ∧ r = ok (put_path []
                   (JObj (<["Items" := JArr (JObj <$> query p s σ)]>
                          (<["Count" := JNum (Z.of_nat (length (query p s σ)))]> ∅)))
                   ctx) σ []).
Proof.
  intros r. subst r. rewrite exec_task_plain. unfold exec_task.
  destruct (fault name ctx); [by left|]. unfold exec_action.
  destruct (eval_key x0 ctx pk sk) as [[p s]|]; [|by left].
  right. by exists p, s.
Qed.

Lemma eval_bookings_key (ctx : JSON) (p s : string) :
  eval_key x0 ctx
    (fromString (format "FLIGHT#{}" (stringAt ["detail"; "flight_id"])))
    (fromString (lit (JStr "BOOKING#"))) = Some (p, s) →
  ∃ fid, get_path ["detail"; "flight_id"] ctx = Some (JStr fid)
         ∧ p = "FLIGHT#" +:+ fid ∧ s = "BOOKING#".
Proof.
  unfold eval_key, eval_attr, eval_tmpl.
  destruct (get_path ["detail"; "flight_id"] ctx) as [[| | |fid| |]|]; try done.
  rewrite format_flight. intros [= <- <-]. by exists fid.
Qed.

Lemma all_rebooked_other (bookings : list (gmap string JSON)) (fid : string)
    (sets : list (string * JSON)) (σ : Table) :
  all_rebooked bookings σ →
  all_rebooked bookings (update_item ("FLIGHT#" +:+ fid, "METADATA") sets σ).
Proof.
  intros H. eapply Forall_impl; [exact H|]. intros b Hb bid Hbid.
  by apply rebooked_other, Hb.
Qed.
End CancellationRun.

(** C4: the effects of an execution of the Cancellation workflow come in
    three consecutive runs: first the writes that mark bookings
    NEEDS_REBOOKING, then the calls that generate and publish the
    cancellation notifications, then the write of the flight status. Every
    notification call, and the flight update, finds every affected Booking
    stored with status NEEDS_REBOOKING; so does the end of an execution
    that has not failed. *)
Theorem cancellation_marks_before_notifying
    (fault : string → JSON → option Engine.Error) (generate : JSON → JSON)
    (σ : Table) (input : JSON) :
  let r := Engine.run fault generate CancellationWorkflow.definition σ input in
  ∃ marked notified cancelled,
    Engine.trace r = marked ++ notified ++ cancelled
    ∧ Forall (λ e, rebooking_write (Engine.effect e)) marked
    ∧ Forall (λ e, is_notification (Engine.effect e) = true
                   ∧ all_rebooked (affected σ input) (Engine.snapshot e)) notified
    ∧ Forall (λ e, cancel_write (Engine.effect e)
                   ∧ all_rebooked (affected σ input) (Engine.snapshot e)) cancelled
    ∧ (has_failed r = false → all_rebooked (affected σ input) (Engine.table r)).
Proof.
  intros r. subst r. unfold Engine.run, CancellationWorkflow.definition.
  (* step 1: GetAffectedBookings *)
  rewrite exec_chain_cons. cbv zeta. unfold CancellationWorkflow.getBookings.
  match goal with
  | |- context [Engine.exec _ _ _ (Task ?n (DynamoQuery ?pk ?sk) None None) ?s ?c] =>
      destruct (exec_query_cases fault generate input n pk sk s c)
        as [(Hfail & Ht & Htr)|(p & s' & Hk & ->)]
  end.
  { exists [], [], []. unfold has_failed in Hfail.
    destruct (Engine.outcome _) eqn:Ho; try done.
    rewrite Htr. unfold has_failed. rewrite Ho. by repeat split. }
  apply eval_bookings_key in Hk as (fid & Hfid & -> & ->).
  assert (Haff : affected σ input = Engine.query ("FLIGHT#" +:+ fid) "BOOKING#" σ).
  { unfold affected. by rewrite Hfid. }
  rewrite Haff. set (bookings := Engine.query ("FLIGHT#" +:+ fid) "BOOKING#" σ).
  set (ctx1 := put_path [] _ input).
  assert (Hitems : get_path ["Items"] ctx1 = Some (JArr (JObj <$> bookings))).
  { apply get_path_put_root_new. by rewrite lookup_insert_eq. }
  cbn [Engine.outcome Engine.table Engine.trace Engine.ok app].
  (* step 2: MarkBookingsForRebooking *)
  rewrite exec_chain_cons. cbv zeta. unfold CancellationWorkflow.markForRebooking.
  rewrite exec_map_plain, Hitems.
  change (Engine.run_item input "MarkBookingsForRebooking" None
            (Engine.exec_chain fault generate input
               [CancellationWorkflow.updateBookingStatus]))
    with (mark_item fault generate input).
  destruct (mark_items fault generate input bookings σ) as (Hmarked & _ & Hdone).
  destruct (Engine.run_all (map (mark_item fault generate input) (JObj <$> bookings)) σ)
    as [[[e|] σ2] marked]; cbn [fst snd] in *;
    cbn [Engine.join Engine.outcome Engine.table Engine.trace].
  { exists marked, [], []. rewrite !app_nil_r. by repeat split. }
  specialize (Hdone eq_refl).
  (* step 3: ProcessBookings *)
  rewrite exec_chain_cons. cbv zeta.
  set (notify := Engine.exec fault generate input
                   (ProcessBookings.createProcessBookingsMap "CANCELLATION_NOTIFICATION")
                   σ2 ctx1).
  destruct (reads_only_state fault generate input (λ eff, is_notification eff = true)
              (ProcessBookings.createProcessBookingsMap "CANCELLATION_NOTIFICATION")
              σ2 ctx1) as [Htable Hnotified].
  { simpl. repeat (apply Forall_cons_2; [split; [done|by intros []]|]). apply Forall_nil_2. }
  fold notify in Htable, Hnotified.
  assert (Hsees : Forall (λ e, is_notification (Engine.effect e) = true
                               ∧ all_rebooked bookings (Engine.snapshot e))
                    (Engine.trace notify)).
  { eapply Forall_impl; [exact Hnotified|]. by intros e [-> ?]. }
  destruct (Engine.outcome notify) as [ctx3| |e] eqn:Hnotify.
  2,3: exists marked, (Engine.trace notify), []; rewrite app_nil_r;
       unfold has_failed; rewrite Hnotify; simpl; rewrite Htable; by repeat split.
  (* step 4: UpdateFlightStatus *)
  rewrite exec_chain_cons. cbv zeta. rewrite Htable.
  unfold CancellationWorkflow.updateFlight.
  match goal with
  | |- context [Engine.exec _ _ _ (Task ?n (DynamoUpdateItem ?pk ?sk ?upd) None None) ?s ?c] =>
      pose proof (exec_update_cases fault generate input n pk sk upd s c) as Hcases;
      cbv zeta in Hcases;
      set (cancel := Engine.exec fault generate input
                       (Task n (DynamoUpdateItem pk sk upd) None None) s c) in *
  end.
  clearbody cancel.
  destruct Hcases as [(Hfail & Ht & Htr)|(k & sets & Hk & Hsets & ->)].
  { exists marked, (Engine.trace notify), []. unfold has_failed in Hfail.
    destruct (Engine.outcome cancel) eqn:Ho; try done.
    cbn [Engine.trace Engine.outcome Engine.table]. rewrite Htr.
    unfold has_failed. rewrite Ho. by repeat split. }
  apply eval_flight_key in Hk as (fid' & _ & ->). injection Hsets as <-.
  (* step 5: WorkflowComplete *)
  exists marked, (Engine.trace notify),
    [Engine.mkEntry σ2 (Engine.Updated ("FLIGHT#" +:+ fid', "METADATA")
                          [("status", JStr "CANCELLED"); ("GSI1PK", JStr "CANCELLED")])].
  cbn [Engine.ok Engine.trace Engine.outcome Engine.table].
  rewrite exec_chain_cons. cbv zeta. cbn [Engine.exec Engine.trace Engine.outcome Engine.table].
  rewrite app_nil_r.
  split; [done|]. split; [done|]. split; [done|]. split.
  - apply Forall_singleton. split; [by exists fid'|done].
  - intros _. by apply all_rebooked_other.
Qed.

(* ===================================================================== *)
(* Routing of triggers                                                   *)
(* ===================================================================== *)

(** C5: every valid trigger detail-type starts exactly one state machine:
    the three delay classifications start the Delay workflow only,
    flight.cancelled the Cancellation workflow only, flight.gate_change the
    Gate-Change workflow only. *)
Theorem trigger_starts_one_workflow (detail : JSON) :
  Rules.started (Rules.trigger "flight.delay.minor" detail) = [Rules.delayWorkflow]
  ∧ Rules.started (Rules.trigger "flight.delay.major" detail) = [Rules.delayWorkflow]
  ∧ Rules.started (Rules.trigger "flight.delay.severe" detail) = [Rules.delayWorkflow]
  ∧ Rules.started (Rules.trigger "flight.cancelled" detail) = [Rules.cancellationWorkflow]
  ∧ Rules.started (Rules.trigger "flight.gate_change" detail) = [Rules.gateChangeWorkflow].
Proof. repeat split; vm_compute; reflexivity. Qed.

(* ===================================================================== *)
(* Map concurrency                                                       *)
(* ===================================================================== *)

Lemma running_bounded n items p :
  Scheduler.reachable (Some (S n)) items p → (length (Scheduler.running p) ≤ S n)%nat.
Proof.
  induction 1 as [|p p' _ IH Hstep]; [simpl; lia|].
  destruct Hstep as [item q r d Hslot | item q r1 r2 d]; simpl in *.
  - rewrite length_app. simpl. lia.
  - rewrite length_app in *. simpl in IH. lia.
Qed.

Lemma full_pool_waits n p p' :
  length (Scheduler.running p) = S n →
  Scheduler.step (Some (S n)) p p' → Scheduler.queued p' = Scheduler.queued p.
Proof.
  intros Hfull Hstep.
  destruct Hstep as [item q r d Hslot | item q r1 r2 d]; simpl in *; [lia | done].
Qed.

Lemma free_slot_starts n item q r d :
  (length r < S n)%nat →
  Scheduler.step (Some (S n)) (Scheduler.mkPool (item :: q) r d)
    (Scheduler.mkPool q (r ++ [item]) d).
Proof. intros. by constructor. Qed.

(** C7: the Map states of the three workflows are ProcessBookings (in each
    of them) and MarkBookingsForRebooking (in Cancellation); each has
    maxConcurrency 10, so that in every state its pool of items can reach
    at most 10 items are mid-flight, no queued item starts while 10 are
    running, and the next queued item can start as soon as fewer are. *)
Theorem map_concurrency_at_most_ten :
  Scheduler.name_of <$> catalog_maps
  = ["ProcessBookingsInParallel"; "MarkBookingsForRebooking";
     "ProcessBookingsInParallel"; "ProcessBookingsInParallel"]
  ∧ Forall (λ m,
      Scheduler.limit_of m = Some 10%nat
      ∧ ∀ items p, Scheduler.reachable (Scheduler.limit_of m) items p →
          (length (Scheduler.running p) ≤ 10)%nat
          ∧ (length (Scheduler.running p) = 10%nat →
             ∀ p', Scheduler.step (Scheduler.limit_of m) p p' →
                   Scheduler.queued p' = Scheduler.queued p)
          ∧ (∀ item q, (length (Scheduler.running p) < 10)%nat →
               Scheduler.queued p = item :: q →
               ∃ p', Scheduler.step (Scheduler.limit_of m) p p'
                     ∧ Scheduler.queued p' = q
                     ∧ Scheduler.running p' = Scheduler.running p ++ [item]))
      catalog_maps.
Proof.
  split; [reflexivity|].
  assert (Hten : ∀ m, Scheduler.limit_of m = Some 10%nat →
    Scheduler.limit_of m = Some 10%nat
    ∧ ∀ items p, Scheduler.reachable (Scheduler.limit_of m) items p →
        (length (Scheduler.running p) ≤ 10)%nat
        ∧ (length (Scheduler.running p) = 10%nat →
           ∀ p', Scheduler.step (Scheduler.limit_of m) p p' →
                 Scheduler.queued p' = Scheduler.queued p)
        ∧ (∀ item q, (length (Scheduler.running p) < 10)%nat →
             Scheduler.queued p = item :: q →
             ∃ p', Scheduler.step (Scheduler.limit_of m) p p'
                   ∧ Scheduler.queued p' = q
                   ∧ Scheduler.running p' = Scheduler.running p ++ [item])).
  { intros m ->. split; [done|]. intros items p Hreach. split; [|split].
    - by apply running_bounded in Hreach.
    - intros Hfull p' Hstep. by eapply full_pool_waits.
    - intros item q Hlt Hq. destruct p as [qs r d]. simpl in *. subst qs.
      eexists. split; [by apply free_slot_starts|done]. }
  let l := eval vm_compute in catalog_maps in change catalog_maps with l.
  repeat (apply Forall_cons_2; [apply Hten; reflexivity|]). apply Forall_nil_2.
Qed.

(* ===================================================================== *)
(* The stream handler                                                    *)
(* ===================================================================== *)

Section Stream.
Import StreamHandler.
Variables (bus : string) (now : nat → string).

Lemma entry_for_sent n record :
  is_Some (entry_for bus now n record) ↔ status_change_nonempty record.
Proof.
  unfold entry_for, status_change_nonempty, startsWith. split.
  - intros [e He]. case_bool_decide as Hname; [|done].
    split; [tauto|].
    destruct (dynamodb record ≫= NewImage) as [image|] eqn:Himage; [|done].
    destruct (attr image "PK") as [pk|] eqn:Hpk; simpl in He; [|done].
    destruct (String.prefix "BOOKING#" pk) eqn:Hpre; simpl in He; [|done].
    destruct (attr image "SK") as [sk|] eqn:Hsk; simpl in He; [|done].
    destruct (String.eqb sk "METADATA") eqn:Hmeta; [|done].
    apply String.eqb_eq in Hmeta as ->.
    destruct (attr image "booking_status") as [s|] eqn:Hs; [|done].
    destruct (String.eqb s "") eqn:Hempty; simpl in He; [done|].
    case_bool_decide as Hold; simpl in He; [done|].
    exists image, pk, s. repeat split; try done.
    by apply String.eqb_neq.
  - intros [Hname (image & pk & s & Himage & Hpk & Hpre & Hsk & Hs & Hne & Hold)].
    rewrite bool_decide_eq_true_2 by tauto.
    rewrite Himage, Hpk, Hsk, Hs. simpl. rewrite Hpre. simpl.
    apply String.eqb_neq in Hne. rewrite Hne. simpl.
    rewrite bool_decide_eq_false_2 by done. simpl. eauto.
Qed.

Lemma entry_for_type n record e :
  entry_for bus now n record = Some e →
  DetailType e = "booking.status_changed" ∧ Source e = "flightpulse.stream-handler"
  ∧ EventBusName e = bus.
Proof.
  unfold entry_for. intros He.
  repeat (case_match; try done). by injection He as <-.
Qed.

Variable send : PutEventsRequestEntry → option Thrown.

Lemma handle_from_cons n record rest :
  handle_from bus now send n (record :: rest)
  = logged bus now send n record ++ handle_from bus now send (Datatypes.S n) rest.
Proof.
  unfold logged. simpl. unfold process.
  destruct (entry_for bus now n record) as [e|]; [|done].
  by destruct (send e).
Qed.

Lemma handle_from_app n before after :
  handle_from bus now send n (before ++ after)
  = handle_from bus now send n before
    ++ handle_from bus now send (n + length before) after.
Proof.
  revert n. induction before as [|r before IH]; intros n.
  - simpl. by rewrite Nat.add_0_r.
  - rewrite <- app_comm_cons, !handle_from_cons, IH, <- app_assoc.
    simpl. by rewrite Nat.add_succ_r.
Qed.
End Stream.

(** C10 (as the specification states it, refuted): a MODIFY of a booking
    item whose new booking_status is present, is the empty string and
    differs from the old one publishes nothing. *)
Lemma stream_handler_skips_empty_status :
  status_change_as_specified Sample.emptied
  ∧ StreamHandler.handler "flightpulse-bus" (λ _, "2025-01-15T00:00:00.000Z") (λ _, None)
      [Sample.emptied] = [].
Proof.
  split; [|by vm_compute].
  split; [by right|].
  eexists _, "BOOKING#B1", "". repeat split; try reflexivity.
  vm_compute. by intros [=].
Qed.

(** C10 (amended): for a stream record the handler sends a
    booking.status_changed event if and only if the record is an INSERT or
    MODIFY of an item whose PK begins with BOOKING# and whose SK is METADATA
    and whose new booking_status is a non-empty string that differs from the
    old image's booking_status; whatever happens to one record, a send that
    throws included, the records after it are processed as if they came
    first. *)
Theorem stream_handler_publishes_status_changes
    (bus : string) (now : nat → string)
    (send : StreamHandler.PutEventsRequestEntry → option Thrown) :
  (∀ n record,
     is_Some (StreamHandler.entry_for bus now n record) ↔ status_change_nonempty record)
  ∧ (∀ n record e,
       StreamHandler.entry_for bus now n record = Some e →
       StreamHandler.DetailType e = "booking.status_changed"
       ∧ (send e = None → logged bus now send n record = [StreamHandler.put e])
       ∧ (∀ thrown, send e = Some thrown →
            logged bus now send n record = [StreamHandler.error record thrown]))
  ∧ (∀ n record, StreamHandler.entry_for bus now n record = None →
       logged bus now send n record = [])
  ∧ (∀ before record after,
       StreamHandler.handler bus now send (before ++ record :: after)
       = StreamHandler.handler bus now send before
         ++ logged bus now send (length before) record
         ++ StreamHandler.handle_from bus now send (S (length before)) after).
Proof.
  split; [|split; [|split]].
  - exact (entry_for_sent bus now).
  - intros n record e He. split; [by destruct (entry_for_type _ _ _ _ _ He) as [? _]|].
    unfold logged. rewrite He. split; [intros Hs; by rewrite Hs|intros m Hs; by rewrite Hs].
  - intros n record He. unfold logged. by rewrite He.
  - intros before record after. unfold StreamHandler.handler.
    by rewrite handle_from_app, handle_from_cons.
Qed.

(* ===================================================================== *)
(* The read API                                                          *)
(* ===================================================================== *)

Lemma prefix_drop (p s : string) :
  String.prefix p s = true → s = p +:+ string_drop (String.length p) s.
Proof.
  revert s. induction p as [|c p IH]; intros s; [done|].
  destruct s as [|c' s]; simpl; [done|].
  destruct (Ascii.ascii_dec c c') as [->|]; [|done].
  intros H. change (String c' s = String c' (p +:+ string_drop (String.length p) s)).
  f_equal. by apply IH.
Qed.

Lemma match_segment_prefix pre suf path :
  match_segment pre suf path = true → ∃ rest, path = pre +:+ rest.
Proof.
  unfold match_segment. intros [H _]%andb_true_iff. apply prefix_drop in H. eauto.
Qed.

Section Api.
Import ApiHandlers.
Variables (now : string) (docClient : DocumentClient).

(* The route of GET /passengers/{passengerId}. *)
Lemma route_passenger event :
  httpMethod event = "GET" →
  match_segment "/passengers/" "" (path event) = true →
  route now docClient event
  = bind (GetCommand docClient ("PASSENGER#" +:+ param event "passengerId", "METADATA"))
      (λ Item,
         match Item with
         | None => resolved (respond 404 (obj [("error", Some (JStr "Passenger not found"))]))
         | Some item => resolved (respond 200 (JObj (delete "email" (delete "phone" item))))
         end).
Proof.
  intros Hget Hpath. unfold route. rewrite Hget, Hpath.
  destruct (match_segment_prefix _ _ _ Hpath) as [rest Hrest].
  rewrite Hrest in *. reflexivity.
Qed.
End Api.

(** C9: the response to GET /passengers/{passengerId} never has an email or
    a phone field; for a stored passenger record it is the record without
    these two fields, so that two records that differ only in email and
    phone get the same response. *)
Theorem passenger_response_omits_contact
    (now : string) (docClient : ApiHandlers.DocumentClient)
    (event : ApiHandlers.APIGatewayProxyEvent) :
  ApiHandlers.httpMethod event = "GET" →
  match_segment "/passengers/" "" (ApiHandlers.path event) = true →
  let key := ("PASSENGER#" +:+ ApiHandlers.param event "passengerId", "METADATA") in
  let response := ApiHandlers.handler now docClient event in
  get_path ["email"] (ApiHandlers.body response) = None
  ∧ get_path ["phone"] (ApiHandlers.body response) = None
  ∧ (∀ item, ApiHandlers.GetCommand docClient key = resolved (Some item) →
       ApiHandlers.statusCode response = 200
       ∧ ApiHandlers.body response = JObj (delete "email" (delete "phone" item)))
  ∧ (∀ docClient' item item',
       ApiHandlers.GetCommand docClient key = resolved (Some item) →
       ApiHandlers.GetCommand docClient' key = resolved (Some item') →
       (∀ field, field ≠ "email" → field ≠ "phone" → item !! field = item' !! field) →
       ApiHandlers.handler now docClient' event = response).
Proof.
  intros Hget Hpath key response. subst response. unfold ApiHandlers.handler.
  rewrite !route_passenger by done. fold key.
  split; [|split; [|split]].
  - destruct (ApiHandlers.GetCommand docClient key) as [[item|]|[[m|]]]; simpl.
    + by rewrite lookup_delete_eq.
    + by vm_compute.
    + by vm_compute.
    + by vm_compute.
  - destruct (ApiHandlers.GetCommand docClient key) as [[item|]|[[m|]]]; simpl.
    + by rewrite lookup_delete_ne, lookup_delete_eq.
    + by vm_compute.
    + by vm_compute.
    + by vm_compute.
  - by intros item ->.
  - intros docClient' item item' -> Hitem' Hsame.
    rewrite route_passenger by done. fold key. rewrite Hitem'. simpl.
    do 2 f_equal. apply map_eq. intros field.
    destruct (decide (field = "email")) as [->|Hemail]; [by rewrite !lookup_delete_eq|].
    rewrite !(lookup_delete_ne _ "email") by done.
    destruct (decide (field = "phone")) as [->|Hphone]; [by rewrite !lookup_delete_eq|].
    rewrite !(lookup_delete_ne _ "phone") by done. symmetry. by apply Hsame.
Qed.

Lemma passenger_response_omits_contact_witness :
  get_path ["email"]
    (ApiHandlers.body
       (ApiHandlers.handler "2025-01-15T00:00:00.000Z"
          (ApiHandlers.client_of Sample.full_table)
          (Sample.request "/passengers/P1" (<["passengerId" := "P1"]> ∅)))) = None
  ∧ get_path ["phone"]
      (ApiHandlers.body
         (ApiHandlers.handler "2025-01-15T00:00:00.000Z"
            (ApiHandlers.client_of Sample.full_table)
            (Sample.request "/passengers/P1" (<["passengerId" := "P1"]> ∅)))) = None.
Proof.
  pose proof (passenger_response_omits_contact "2025-01-15T00:00:00.000Z"
                (ApiHandlers.client_of Sample.full_table)
                (Sample.request "/passengers/P1" (<["passengerId" := "P1"]> ∅))
                eq_refl eq_refl) as H.
  cbv zeta in H. exact (conj (proj1 H) (proj1 (proj2 H))).
Defined.

(* The sample passenger is served without its contact fields. *)
Example passenger_P1_served :
  let response :=
    ApiHandlers.handler "2025-01-15T00:00:00.000Z"
      (ApiHandlers.client_of Sample.full_table)
      (Sample.request "/passengers/P1" (<["passengerId" := "P1"]> ∅)) in
  ApiHandlers.statusCode response = 200
  ∧ get_path ["first_name"] (ApiHandlers.body response) = Some (JStr "Ada")
  ∧ get_path ["email"] (ApiHandlers.body response) = None.
Proof. by vm_compute. Qed.

(* ===================================================================== *)
(* The scenarios of the specification on the sample data                 *)
(* ===================================================================== *)

(* Delay: the flight is DELAYED by 25 minutes, a message is generated for
   each booking and published by preference; a second run changes nothing. *)
Example delay_scenario :
  let r := Engine.run Sample.no_fault Sample.generate
             DelayWorkflow.definition Sample.full_table Sample.delayed in
  Engine.outcome r = Engine.Finished
  ∧ effect_name <$> Engine.trace r
    = ["generate"; "notification.email"; "notification.sms";
       "generate"; "notification.email"; "update"]
  ∧ stored (Engine.table r) ("FLIGHT#F1", "METADATA") "status" = Some (JStr "DELAYED")
  ∧ stored (Engine.table r) ("FLIGHT#F1", "METADATA") "delay_minutes" = Some (JNum 25)
  ∧ stored (Engine.table r) ("FLIGHT#F1", "METADATA") "delay_reason" = Some (JStr "WEATHER")
  ∧ stored (Engine.table r) ("FLIGHT#F1", "METADATA") "GSI1PK" = Some (JStr "DELAYED").
Proof. by vm_compute. Qed.

(* Cancellation: both bookings are marked, then notified, then the flight is
   CANCELLED. *)
Example cancellation_scenario :
  let r := Engine.run Sample.no_fault Sample.generate
             CancellationWorkflow.definition Sample.full_table Sample.cancelled in
  Engine.outcome r = Engine.Finished
  ∧ effect_name <$> Engine.trace r
    = ["update"; "update"; "generate"; "notification.email"; "notification.sms";
       "generate"; "notification.email"; "update"]
  ∧ stored (Engine.table r) ("BOOKING#B1", "METADATA") "booking_status"
    = Some (JStr "NEEDS_REBOOKING")
  ∧ stored (Engine.table r) ("BOOKING#B2", "METADATA") "GSI2PK"
    = Some (JStr "NEEDS_REBOOKING")
  ∧ stored (Engine.table r) ("FLIGHT#F1", "METADATA") "status" = Some (JStr "CANCELLED").
Proof. by vm_compute. Qed.

(* Gate change: the gate is written first. *)
Example gate_change_scenario :
  let r := Engine.run Sample.no_fault Sample.generate
             GateChangeWorkflow.definition Sample.full_table Sample.gate_changed in
  Engine.outcome r = Engine.Finished
  ∧ effect_name <$> Engine.trace r
    = ["update"; "generate"; "notification.email"; "notification.sms";
       "generate"; "notification.email"]
  ∧ stored (Engine.table r) ("FLIGHT#F1", "METADATA") "gate" = Some (JStr "B7").
Proof. by vm_compute. Qed.

(* Gate change with the booking query down: the execution fails at
   GetAffectedBookings, after the gate was written. *)
Example gate_change_query_down :
  let r := Engine.run Sample.query_down Sample.generate
             GateChangeWorkflow.definition Sample.full_table Sample.gate_changed in
  has_failed r = true
  ∧ effect_name <$> Engine.trace r = ["update"]
  ∧ stored (Engine.table r) ("FLIGHT#F1", "METADATA") "gate" = Some (JStr "B7").
Proof. by vm_compute. Qed.

(* The Delay workflow catches a failed booking query, but its handler reads
   $.Error and $.Cause while the catch stores the error under $.error: the
   message of NotifyDelayFailure does not resolve and nothing is
   published. *)
Example delay_failure_handler_unresolved :
  let r := Engine.run Sample.query_down Sample.generate
             DelayWorkflow.definition Sample.full_table Sample.delayed in
  Engine.outcome r
  = Engine.Failed (Engine.mkError Engine.ValidationFailed "NotifyDelayFailure")
  ∧ Engine.trace r = [].
Proof. by vm_compute. Qed.

(* The stream handler on a booking that moved to NEEDS_REBOOKING. *)
Example stream_handler_sample :
  StreamHandler.handler "flightpulse-bus" (λ _, "2025-01-15T00:00:00.000Z") (λ _, None)
    [Sample.emptied; Sample.rebooked]
  = [StreamHandler.put
       (StreamHandler.mkEntry "flightpulse-bus" "flightpulse.stream-handler"
          "booking.status_changed"
          (obj [("booking_id", Some (JStr "B1"));
                ("old_status", Some (JStr "CONFIRMED"));
                ("new_status", Some (JStr "NEEDS_REBOOKING"));
                ("timestamp", Some (JStr "2025-01-15T00:00:00.000Z"))]))].
Proof. reflexivity. Qed.

(* The two path patterns and the string replacement on sample inputs. *)
Example match_segment_samples :
  match_segment "/passengers/" "" "/passengers/P1" = true
  ∧ match_segment "/passengers/" "" "/passengers/P1/bookings" = false
  ∧ match_segment "/passengers/" "" "/passengers/" = false
  ∧ match_segment "/passengers/" "/bookings" "/passengers/P1/bookings" = true
  ∧ match_segment "/flights/" "" "/passengers/P1" = false.
Proof. by vm_compute. Qed.

Example replace_first_samples :
  replace_first "BOOKING#" "" "BOOKING#B1" = "B1"
  ∧ replace_first "{}" "F1" "FLIGHT#{}" = "FLIGHT#F1"
  ∧ replace_first "a" "b" "banana" = "bbnana".
Proof. by vm_compute. Qed.

(* An event that is not a trigger starts no workflow: a notification the
   workflows publish, or a trigger detail-type from another source. *)
Example other_events_start_nothing :
  Rules.started (Rules.mkEvent "flightpulse.workflow" "notification.email" JNull) = []
  ∧ Rules.started (Rules.mkEvent "flightpulse.simulator" "flight.cancelled" JNull) = [].
Proof. by vm_compute. Qed.

(* ===================================================================== *)
(* The read API: the other routes                                        *)
(* ===================================================================== *)

(* One pattern with two different endings cannot match the same path. *)
Lemma match_segment_suffix (pre suf suf' path : string) :
  match_segment pre suf path = true → suf ≠ suf' → match_segment pre suf' path = false.
Proof.
  unfold match_segment. intros H Hne.
  destruct (String.prefix pre path); [|done]. simpl in *.
  destruct (take_segment (string_drop (String.length pre) path)) as [seg rest].
  apply andb_true_iff in H as [_ H]. apply String.eqb_eq in H as ->.
  apply andb_false_iff. right. by apply String.eqb_neq.
Qed.

(* Reading one field of an object literal. *)
Lemma get_obj_cons (f k : string) (v : option JSON) (l : list (string * option JSON)) :
  get_path [f] (obj ((k, v) :: l))
  = match v with
    | Some j => if decide (f = k) then Some j else get_path [f] (obj l)
    | None => get_path [f] (obj l)
    end.
Proof.
  unfold obj. simpl. destruct v as [j|]; simpl; [|done].
  case_decide as Hf.
  - subst. by rewrite lookup_insert_eq.
  - by rewrite lookup_insert_ne.
Qed.

Lemma get_obj_nil (f : string) : get_path [f] (obj []) = None.
Proof. done. Qed.

Section ApiRoutes.
Import ApiHandlers.
Variables (now : string) (docClient : DocumentClient).

Lemma route_health event :
  httpMethod event = "GET" → path event = "/health" →
  route now docClient event
  = resolved (respond 200
      (obj [("status", Some (JStr "healthy"));
            ("timestamp", Some (JStr now));
            ("service", Some (JStr "flightpulse-api"))])).
Proof. intros Hget Hpath. unfold route. by rewrite Hget, Hpath. Qed.

Lemma route_flight event :
  httpMethod event = "GET" →
  match_segment "/flights/" "" (path event) = true →
  route now docClient event
  = bind (GetCommand docClient ("FLIGHT#" +:+ param event "flightId", "METADATA"))
      (λ Item,
         match Item with
         | None => resolved (respond 404 (obj [("error", Some (JStr "Flight not found"))]))
         | Some item =>
             resolved (respond 200
               (obj [("flight_id", item !! "flight_id");
                     ("origin", item !! "origin");
                     ("destination", item !! "destination");
                     ("scheduled_departure", item !! "scheduled_departure");
                     ("scheduled_arrival", item !! "scheduled_arrival");
                     ("status", item !! "status");
                     ("gate", item !! "gate");
                     ("delay_minutes", Some (or_else (item !! "delay_minutes") (JNum 0)));
                     ("delay_reason", item !! "delay_reason")]))
         end).
Proof.
  intros Hget Hpath. unfold route. rewrite Hget, Hpath.
  destruct (match_segment_prefix _ _ _ Hpath) as [rest Hrest].
  rewrite Hrest in *. reflexivity.
Qed.

Lemma route_flights event :
  httpMethod event = "GET" → path event = "/flights" →
  route now docClient event
  = match queryStringParameters event ≫= (λ q, q !! "status") with
    | Some status =>
        if negb (String.eqb status "") then
          bind (QueryIndexCommand docClient status)
            (λ result,
               resolved (respond 200
                 (obj [("flights", Some (JArr (JObj <$> default [] (Items result))));
                       ("count", Some (count_or_zero (Count result)))])))
        else resolved (respond 400 (obj [("error", Some (JStr "status query parameter required"))]))
    | None => resolved (respond 400 (obj [("error", Some (JStr "status query parameter required"))]))
    end.
Proof. intros Hget Hpath. unfold route. by rewrite Hget, Hpath. Qed.

Lemma route_flight_bookings event :
  httpMethod event = "GET" →
  match_segment "/flights/" "/bookings" (path event) = true →
  route now docClient event
  = bind (QueryCommand docClient ("FLIGHT#" +:+ param event "flightId") "BOOKING#")
      (λ result,
         resolved (respond 200
           (obj [("bookings",
                  Some (JArr ((λ item, obj [("booking_id", item !! "booking_id");
                                            ("passenger_id", item !! "passenger_id")])
                              <$> default [] (Items result))));
                 ("count", Some (count_or_zero (Count result)))]))).
Proof.
  intros Hget Hpath. unfold route.
  rewrite Hget, Hpath, (match_segment_suffix _ _ "" _ Hpath) by done.
  destruct (match_segment_prefix _ _ _ Hpath) as [rest Hrest].
  rewrite Hrest in *. reflexivity.
Qed.

Lemma route_passenger_bookings event :
  httpMethod event = "GET" →
  match_segment "/passengers/" "/bookings" (path event) = true →
  route now docClient event
  = bind (QueryCommand docClient ("PASSENGER#" +:+ param event "passengerId") "BOOKING#")
      (λ result,
         resolved (respond 200
           (obj [("bookings",
                  Some (JArr ((λ item, obj [("booking_id", item !! "booking_id");
                                            ("flight_id", item !! "flight_id")])
                              <$> default [] (Items result))));
                 ("count", Some (count_or_zero (Count result)))]))).
Proof.
  intros Hget Hpath. unfold route.
  rewrite Hget, Hpath, (match_segment_suffix _ _ "" _ Hpath) by done.
  destruct (match_segment_prefix _ _ _ Hpath) as [rest Hrest].
  rewrite Hrest in *. reflexivity.
Qed.

Lemma route_booking event :
  httpMethod event = "GET" →
  match_segment "/bookings/" "" (path event) = true →
  route now docClient event
  = bind (GetCommand docClient ("BOOKING#" +:+ param event "bookingId", "METADATA"))
      (λ Item,
         match Item with
         | None => resolved (respond 404 (obj [("error", Some (JStr "Booking not found"))]))
         | Some item => resolved (respond 200 (JObj item))
         end).
Proof.
  intros Hget Hpath. unfold route. rewrite Hget, Hpath.
  destruct (match_segment_prefix _ _ _ Hpath) as [rest Hrest].
  rewrite Hrest in *. reflexivity.
Qed.

Lemma route_other_method event :
  httpMethod event ≠ "GET" → route now docClient event = resolved not_found.
Proof.
  intros Hm. unfold route. apply String.eqb_neq in Hm. rewrite Hm.
  by rewrite !andb_false_r.
Qed.
End ApiRoutes.



(* A store call that throws a value without a message is answered 500 with
   the empty object. *)
Example throw_without_message :
  let docClient :=
    ApiHandlers.mkClient (λ _, rejected (mkThrown None)) (λ _ _, rejected (mkThrown None))
      (λ _, rejected (mkThrown None)) in
  let response :=
    ApiHandlers.handler "2025-01-15T00:00:00.000Z" docClient
      (Sample.request "/flights/F1" (<["flightId" := "F1"]> ∅)) in
  ApiHandlers.statusCode response = 500 ∧ ApiHandlers.body response = JObj ∅.
Proof. by vm_compute. Qed.

Lemma get_obj_ne (f k : string) (v : option JSON) (l : list (string * option JSON)) :
  f ≠ k → get_path [f] (obj ((k, v) :: l)) = get_path [f] (obj l).
Proof. intros Hne. rewrite get_obj_cons. destruct v; [|done]. by rewrite decide_False. Qed.

Lemma get_obj_absent (f : string) (l : list (string * option JSON)) :
  f ∉ l.*1 → get_path [f] (obj l) = None.
Proof.
  induction l as [|[k v] l IH]; [done|]. rewrite fmap_cons, not_elem_of_cons.
  intros [Hne Hl]. rewrite get_obj_ne by done. by apply IH.
Qed.

Lemma get_obj_here (f : string) (v : option JSON) (l : list (string * option JSON)) :
  f ∉ l.*1 → get_path [f] (obj ((f, v) :: l)) = v.
Proof.
  intros Hl. rewrite get_obj_cons. destruct v as [j|].
  - by rewrite decide_True.
  - by apply get_obj_absent.
Qed.

Ltac no_such_field :=
  cbn [fmap list_fmap fst];
  repeat (apply not_elem_of_cons; split; [discriminate|]); apply not_elem_of_nil.

(** X2: a request whose method is not GET, and a GET whose path is neither
    /health nor /flights and does not begin with /flights/, /passengers/ or
    /bookings/, is answered 404 with error 'Not found', whatever the store
    would answer. *)
Theorem unrouted_request_not_found
    (now : string) (docClient : ApiHandlers.DocumentClient)
    (event : ApiHandlers.APIGatewayProxyEvent) :
  ApiHandlers.httpMethod event ≠ "GET"
  ∨ (ApiHandlers.path event ≠ "/health" ∧ ApiHandlers.path event ≠ "/flights"
     ∧ String.prefix "/flights/" (ApiHandlers.path event) = false
     ∧ String.prefix "/passengers/" (ApiHandlers.path event) = false
     ∧ String.prefix "/bookings/" (ApiHandlers.path event) = false) →
  ApiHandlers.handler now docClient event = not_found.
Proof.
  intros [Hm|(Hh & Hf & Hfs & Hps & Hbs)]; unfold ApiHandlers.handler.
  - by rewrite route_other_method.
  - unfold ApiHandlers.route, match_segment. cbv zeta.
    apply String.eqb_neq in Hh, Hf. by rewrite Hh, Hf, Hfs, Hps, Hbs.
Qed.

Lemma unrouted_request_not_found_witness :
  ApiHandlers.handler "2025-01-15T00:00:00.000Z" (ApiHandlers.client_of Sample.full_table)
    (ApiHandlers.mkEvent "/flights/F1" "DELETE" (Some (<["flightId" := "F1"]> ∅)) None)
  = not_found
  ∧ ApiHandlers.handler "2025-01-15T00:00:00.000Z" (ApiHandlers.client_of Sample.full_table)
      (Sample.request "/passengers" ∅)
    = not_found.
Proof.
  split; apply unrouted_request_not_found.
  - left. by vm_compute.
  - right. by vm_compute.
Defined.

(** X3: GET /flights without a status query parameter, or with an empty
    one, is answered 400 'status query parameter required' and the store is
    not asked: the answer is the same for every document client. *)
Theorem flights_without_status_rejected
    (now : string) (docClient : ApiHandlers.DocumentClient)
    (event : ApiHandlers.APIGatewayProxyEvent) :
  ApiHandlers.httpMethod event = "GET" →
  ApiHandlers.path event = "/flights" →
  ApiHandlers.queryStringParameters event ≫= (λ q, q !! "status") = None
  ∨ ApiHandlers.queryStringParameters event ≫= (λ q, q !! "status") = Some "" →
  ApiHandlers.handler now docClient event
  = ApiHandlers.respond 400 (obj [("error", Some (JStr "status query parameter required"))]).
Proof.
  intros Hget Hpath Hstatus. unfold ApiHandlers.handler.
  rewrite route_flights by done. by destruct Hstatus as [-> | ->].
Qed.

Lemma flights_without_status_rejected_witness :
  ApiHandlers.handler "2025-01-15T00:00:00.000Z" (client_down "timeout")
    (ApiHandlers.mkEvent "/flights" "GET" None (Some (<["limit" := "10"]> ∅)))
  = ApiHandlers.respond 400 (obj [("error", Some (JStr "status query parameter required"))]).
Proof.
  apply flights_without_status_rejected; [reflexivity|reflexivity|left; reflexivity].
Defined.

(** X4: for a stored flight, GET /flights/{flightId} answers 200 with the
    item's flight_id, origin, destination, scheduled_departure,
    scheduled_arrival, status, gate and delay_reason as stored (absent when
    the item lacks them), with delay_minutes always present (the stored
    value, or 0 when it is absent or falsy), and with no other field: keys
    and index attributes of the item are not exposed. *)
Theorem flight_response_projection
    (now : string) (docClient : ApiHandlers.DocumentClient)
    (event : ApiHandlers.APIGatewayProxyEvent) (item : gmap string JSON) :
  ApiHandlers.httpMethod event = "GET" →
  match_segment "/flights/" "" (ApiHandlers.path event) = true →
  ApiHandlers.GetCommand docClient
    ("FLIGHT#" +:+ ApiHandlers.param event "flightId", "METADATA") = resolved (Some item) →
  let response := ApiHandlers.handler now docClient event in
  ApiHandlers.statusCode response = 200
  ∧ (∀ field, field ∈ flight_fields →
       get_path [field] (ApiHandlers.body response) = item !! field)
  ∧ get_path ["delay_minutes"] (ApiHandlers.body response)
    = Some match item !! "delay_minutes" with
           | Some minutes => if truthy minutes then minutes else JNum 0
           | None => JNum 0
           end
  ∧ (∀ field, field ∉ "delay_minutes" :: flight_fields →
       get_path [field] (ApiHandlers.body response) = None).
Proof.
  intros Hget Hpath Hitem response. subst response. unfold ApiHandlers.handler.
  rewrite route_flight, Hitem by done.
  cbn [ApiHandlers.bind ApiHandlers.statusCode ApiHandlers.body ApiHandlers.respond].
  split; [done|]. split; [|split].
  - intros field Hfield. unfold flight_fields in Hfield.
    repeat (apply elem_of_cons in Hfield as [->|Hfield]);
      [..|by apply elem_of_nil in Hfield];
      repeat (rewrite get_obj_ne by discriminate); apply get_obj_here; no_such_field.
  - repeat (rewrite get_obj_ne by discriminate). by rewrite get_obj_here by no_such_field.
  - intros field Hfield. apply get_obj_absent.
    cbn [fmap list_fmap fst]. unfold flight_fields in Hfield.
    rewrite !not_elem_of_cons in *. tauto.
Qed.

Lemma flight_response_projection_witness :
  get_path ["gate"]
    (ApiHandlers.body
       (ApiHandlers.handler "2025-01-15T00:00:00.000Z"
          (ApiHandlers.client_of Sample.full_table)
          (Sample.request "/flights/F1" (<["flightId" := "F1"]> ∅))))
  = Some (JStr "A1")
  ∧ get_path ["delay_minutes"]
      (ApiHandlers.body
         (ApiHandlers.handler "2025-01-15T00:00:00.000Z"
            (ApiHandlers.client_of Sample.full_table)
            (Sample.request "/flights/F1" (<["flightId" := "F1"]> ∅))))
    = Some (JNum 0)
  ∧ get_path ["GSI1PK"]
      (ApiHandlers.body
         (ApiHandlers.handler "2025-01-15T00:00:00.000Z"
            (ApiHandlers.client_of Sample.full_table)
            (Sample.request "/flights/F1" (<["flightId" := "F1"]> ∅))))
    = None.
Proof.
  pose proof (flight_response_projection "2025-01-15T00:00:00.000Z"
                (ApiHandlers.client_of Sample.full_table)
                (Sample.request "/flights/F1" (<["flightId" := "F1"]> ∅))
                (Sample.flight "SCHEDULED") eq_refl eq_refl eq_refl) as H.
  cbv zeta in H. destruct H as (_ & Hcopied & Hminutes & Hnone). split; [|split].
  - rewrite (Hcopied "gate"); [reflexivity|]. apply (bool_decide_unpack _). by vm_compute.
  - rewrite Hminutes. reflexivity.
  - apply Hnone. apply (bool_decide_unpack _). by vm_compute.
Defined.

(** X5: on the three by-id routes a key the store has no item for is
    answered 404 with the error of the route: 'Flight not found',
    'Passenger not found', 'Booking not found'. The key is the path
    parameter behind the prefix FLIGHT#, PASSENGER# or BOOKING#, with sort
    key METADATA. *)
Theorem missing_record_answers_404
    (now : string) (docClient : ApiHandlers.DocumentClient)
    (event : ApiHandlers.APIGatewayProxyEvent) :
  ApiHandlers.httpMethod event = "GET" →
  (match_segment "/flights/" "" (ApiHandlers.path event) = true →
   ApiHandlers.GetCommand docClient
     ("FLIGHT#" +:+ ApiHandlers.param event "flightId", "METADATA") = resolved None →
   ApiHandlers.handler now docClient event
   = ApiHandlers.respond 404 (obj [("error", Some (JStr "Flight not found"))]))
  ∧ (match_segment "/passengers/" "" (ApiHandlers.path event) = true →
     ApiHandlers.GetCommand docClient
       ("PASSENGER#" +:+ ApiHandlers.param event "passengerId", "METADATA") = resolved None →
     ApiHandlers.handler now docClient event
     = ApiHandlers.respond 404 (obj [("error", Some (JStr "Passenger not found"))]))
  ∧ (match_segment "/bookings/" "" (ApiHandlers.path event) = true →
     ApiHandlers.GetCommand docClient
       ("BOOKING#" +:+ ApiHandlers.param event "bookingId", "METADATA") = resolved None →
     ApiHandlers.handler now docClient event
     = ApiHandlers.respond 404 (obj [("error", Some (JStr "Booking not found"))])).
Proof.
  intros Hget. unfold ApiHandlers.handler. repeat split; intros Hpath Hnone.
  - by rewrite route_flight, Hnone.
  - by rewrite route_passenger, Hnone.
  - by rewrite route_booking, Hnone.
Qed.

Lemma missing_record_answers_404_witness :
  ApiHandlers.handler "2025-01-15T00:00:00.000Z" (ApiHandlers.client_of Sample.table)
    (Sample.request "/passengers/P2" (<["passengerId" := "P2"]> ∅))
  = ApiHandlers.respond 404 (obj [("error", Some (JStr "Passenger not found"))]).
Proof.
  apply (missing_record_answers_404 "2025-01-15T00:00:00.000Z"
           (ApiHandlers.client_of Sample.table)
           (Sample.request "/passengers/P2" (<["passengerId" := "P2"]> ∅)) eq_refl);
    reflexivity.
Defined.

(** X6: GET /bookings/{bookingId} answers a stored booking with status 200
    and the item as it is stored, every attribute included; unlike the
    passenger route it removes nothing. *)
Theorem booking_response_is_stored_item
    (now : string) (docClient : ApiHandlers.DocumentClient)
    (event : ApiHandlers.APIGatewayProxyEvent) (item : gmap string JSON) :
  ApiHandlers.httpMethod event = "GET" →
  match_segment "/bookings/" "" (ApiHandlers.path event) = true →
  ApiHandlers.GetCommand docClient
    ("BOOKING#" +:+ ApiHandlers.param event "bookingId", "METADATA") = resolved (Some item) →
  let response := ApiHandlers.handler now docClient event in
  ApiHandlers.statusCode response = 200
  ∧ ApiHandlers.body response = JObj item
  ∧ ∀ field, get_path [field] (ApiHandlers.body response) = item !! field.
Proof.
  intros Hget Hpath Hitem response. subst response. unfold ApiHandlers.handler.
  rewrite route_booking, Hitem by done. simpl. repeat split.
  intros field. by destruct (item !! field).
Qed.

Lemma booking_response_is_stored_item_witness :
  get_path ["GSI2PK"]
    (ApiHandlers.body
       (ApiHandlers.handler "2025-01-15T00:00:00.000Z"
          (ApiHandlers.client_of
             (<[("BOOKING#B1", "METADATA") :=
                  <["booking_status" := JStr "CONFIRMED"]>
                    (<["GSI2PK" := JStr "CONFIRMED"]> ∅)]> Sample.full_table))
          (Sample.request "/bookings/B1" (<["bookingId" := "B1"]> ∅))))
  = Some (JStr "CONFIRMED").
Proof.
  pose proof (booking_response_is_stored_item "2025-01-15T00:00:00.000Z"
                (ApiHandlers.client_of
                   (<[("BOOKING#B1", "METADATA") :=
                        <["booking_status" := JStr "CONFIRMED"]>
                          (<["GSI2PK" := JStr "CONFIRMED"]> ∅)]> Sample.full_table))
                (Sample.request "/bookings/B1" (<["bookingId" := "B1"]> ∅))
                (<["booking_status" := JStr "CONFIRMED"]> (<["GSI2PK" := JStr "CONFIRMED"]> ∅))
                eq_refl eq_refl eq_refl) as H.
  cbv zeta in H. destruct H as (_ & _ & H). rewrite H. reflexivity.
Defined.

Lemma count_or_zero_default (c : option Z) :
  ApiHandlers.count_or_zero c = JNum (default 0 c).
Proof.
  destruct c as [n|]; [|done]. unfold ApiHandlers.count_or_zero. simpl.
  by destruct (Z.eqb_spec n 0) as [->|].
Qed.

Section ApiLists.
Import ApiHandlers.
Variables (now : string) (docClient : DocumentClient).

(* The body of the two list routes. *)
Lemma list_body (other : string) (result : QueryOutput) :
  other ≠ "booking_id" →
  let body := obj [("bookings",
                    Some (JArr ((λ item, obj [("booking_id", item !! "booking_id");
                                              (other, item !! other)])
                                <$> default [] (Items result))));
                   ("count", Some (count_or_zero (Count result)))] in
  ∃ bookings,
    get_path ["bookings"] body = Some (JArr bookings)
    ∧ length bookings = length (default [] (Items result))
    ∧ Forall (λ b, ∀ field, field ≠ "booking_id" → field ≠ other →
                get_path [field] b = None) bookings
    ∧ get_path ["count"] body = Some (JNum (default 0 (Count result))).
Proof.
  intros Hother body. subst body. eexists. split; [reflexivity|]. split; [|split].
  - by rewrite length_fmap.
  - apply Forall_fmap, Forall_forall. intros item _ field Hb Ho. cbv beta.
    apply get_obj_absent. cbn [fmap list_fmap fst].
    rewrite !not_elem_of_cons. by repeat split; try apply not_elem_of_nil.
  - rewrite get_obj_ne by discriminate. rewrite get_obj_here by no_such_field.
    by rewrite count_or_zero_default.
Qed.
End ApiLists.

(** X7: GET /flights/{flightId}/bookings asks for the items of partition
    FLIGHT#<flightId> whose sort key begins with BOOKING# and answers 200
    with one entry per item returned, each entry holding at most booking_id
    and passenger_id, and with count the Count of the query result (0 when
    it has none); GET /passengers/{passengerId}/bookings does the same over
    partition PASSENGER#<passengerId>, with booking_id and flight_id. *)
Theorem booking_lists_project_ids
    (now : string) (docClient : ApiHandlers.DocumentClient)
    (event : ApiHandlers.APIGatewayProxyEvent) (result : ApiHandlers.QueryOutput) :
  ApiHandlers.httpMethod event = "GET" →
  let response := ApiHandlers.handler now docClient event in
  let listed (other : string) :=
    ApiHandlers.statusCode response = 200
    ∧ ∃ bookings,
        get_path ["bookings"] (ApiHandlers.body response) = Some (JArr bookings)
        ∧ length bookings = length (default [] (ApiHandlers.Items result))
        ∧ Forall (λ b, ∀ field, field ≠ "booking_id" → field ≠ other →
                    get_path [field] b = None) bookings
        ∧ get_path ["count"] (ApiHandlers.body response)
          = Some (JNum (default 0 (ApiHandlers.Count result))) in
  (match_segment "/flights/" "/bookings" (ApiHandlers.path event) = true →
   ApiHandlers.QueryCommand docClient
     ("FLIGHT#" +:+ ApiHandlers.param event "flightId") "BOOKING#" = resolved result →
   listed "passenger_id")
  ∧ (match_segment "/passengers/" "/bookings" (ApiHandlers.path event) = true →
     ApiHandlers.QueryCommand docClient
       ("PASSENGER#" +:+ ApiHandlers.param event "passengerId") "BOOKING#" = resolved result →
     listed "flight_id").
Proof.
  intros Hget response listed. subst response listed. unfold ApiHandlers.handler.
  split; intros Hpath Hresult.
  - rewrite route_flight_bookings, Hresult by done.
    cbn [ApiHandlers.bind ApiHandlers.statusCode ApiHandlers.body ApiHandlers.respond].
    split; [done|]. by apply (list_body "passenger_id").
  - rewrite route_passenger_bookings, Hresult by done.
    cbn [ApiHandlers.bind ApiHandlers.statusCode ApiHandlers.body ApiHandlers.respond].
    split; [done|]. by apply (list_body "flight_id").
Qed.

Lemma booking_lists_project_ids_witness :
  ApiHandlers.statusCode
    (ApiHandlers.handler "2025-01-15T00:00:00.000Z" (ApiHandlers.client_of Sample.full_table)
       (Sample.request "/flights/F1/bookings" (<["flightId" := "F1"]> ∅))) = 200.
Proof.
  pose proof (booking_lists_project_ids "2025-01-15T00:00:00.000Z"
                (ApiHandlers.client_of Sample.full_table)
                (Sample.request "/flights/F1/bookings" (<["flightId" := "F1"]> ∅))
                (ApiHandlers.mkQueryOutput
                   (Some (Engine.query "FLIGHT#F1" "BOOKING#" Sample.full_table))
                   (Some (Z.of_nat (length (Engine.query "FLIGHT#F1" "BOOKING#"
                                              Sample.full_table)))))
                eq_refl) as H.
  cbv zeta in H. destruct H as [H _]. by destruct (H eq_refl eq_refl) as [H200 _].
Defined.

(* ===================================================================== *)
(* The resources of the REST API and the routes of the handler           *)
(* ===================================================================== *)

Lemma prefix_append (p s : string) : String.prefix p (p +:+ s) = true.
Proof.
  induction p as [|c p IH]; [by destruct s|].
  change (String.prefix (String c p) (String c (p +:+ s)) = true). simpl.
  by destruct (Ascii.ascii_dec c c).
Qed.

Lemma drop_append (p s : string) : string_drop (String.length p) (p +:+ s) = s.
Proof. induction p as [|c p IH]; [done|]. exact IH. Qed.

(* What follows a segment is empty or begins with a slash. *)
Lemma take_segment_append (v rest : string) :
  take_segment v = (v, "") →
  rest = "" ∨ (∃ rest', rest = String "/" rest') →
  take_segment (v +:+ rest) = (v, rest).
Proof.
  intros Hv Hrest. induction v as [|c v IH].
  - destruct Hrest as [->|[rest' ->]]; done.
  - change (take_segment (String c (v +:+ rest)) = (String c v, rest)).
    simpl in Hv |- *. destruct (Ascii.eqb c "/"); [done|].
    destruct (take_segment v) as [a b]. injection Hv as -> ->.
    by rewrite IH.
Qed.

Lemma match_segment_append (pre suf v : string) :
  is_segment v →
  suf = "" ∨ (∃ suf', suf = String "/" suf') →
  match_segment pre suf (pre +:+ v +:+ suf) = true.
Proof.
  intros [Hne Hv] Hsuf. unfold match_segment.
  rewrite prefix_append, drop_append, take_segment_append by done. simpl.
  rewrite String.eqb_refl, andb_true_r. apply negb_true_iff, String.eqb_neq. done.
Qed.

Lemma differs_by_status (code : Z) (b : JSON) :
  code ≠ 404 → ApiHandlers.respond code b ≠ not_found.
Proof. intros Hcode [= H _]. done. Qed.

Lemma differs_by_error (code : Z) (message : string) :
  message ≠ "Not found" →
  ApiHandlers.respond code (obj [("error", Some (JStr message))]) ≠ not_found.
Proof.
  intros Hm H. apply (f_equal (λ r, get_path ["error"] (ApiHandlers.body r))) in H.
  vm_compute in H. congruence.
Qed.

(** X8: each of the seven methods the stack adds to the REST API reaches a
    route of the handler: a request with the method and the path of the
    resource, its path parameter being any segment, is never answered with
    the fall-through 404 'Not found', whatever the store does. *)
Theorem api_methods_are_routed (v : string) :
  is_segment v →
  Forall (λ m,
    ∀ now docClient event,
      ApiHandlers.path event = RestApi.path_of (RestApi.resource m) v →
      ApiHandlers.httpMethod event = RestApi.httpMethod m →
      ApiHandlers.handler now docClient event ≠ not_found)
    RestApi.methods.
Proof.
  intros Hv. unfold RestApi.methods.
  repeat apply Forall_cons_2; try apply Forall_nil_2;
    intros now docClient event Hpath Hget;
    cbn [RestApi.resource RestApi.httpMethod RestApi.path_of] in Hpath, Hget;
    unfold ApiHandlers.handler.
  - rewrite route_health by done. by apply differs_by_status.
  - rewrite route_flights by done.
    destruct (_ ≫= _) as [status|]; [|by apply differs_by_status].
    destruct (negb _); [|by apply differs_by_status].
    destruct (ApiHandlers.QueryIndexCommand _ _); by apply differs_by_status.
  - rewrite route_flight; [|done|rewrite Hpath; change (match_segment "/flights/" "" ("/flights/" +:+ v +:+ "") = true);
       apply match_segment_append; [done|by left]].
    destruct (ApiHandlers.GetCommand _ _) as [[item|]|message]; simpl;
      [by apply differs_by_status|by apply differs_by_error|by apply differs_by_status].
  - rewrite route_flight_bookings;
      [|done|rewrite Hpath;
       change (match_segment "/flights/" "/bookings" ("/flights/" +:+ v +:+ "/bookings") = true);
       apply match_segment_append; [done|right; by eexists]].
    destruct (ApiHandlers.QueryCommand _ _ _); by apply differs_by_status.
  - rewrite route_passenger;
      [|done|rewrite Hpath; change (match_segment "/passengers/" "" ("/passengers/" +:+ v +:+ "") = true);
       apply match_segment_append; [done|by left]].
    destruct (ApiHandlers.GetCommand _ _) as [[item|]|message]; simpl;
      [by apply differs_by_status|by apply differs_by_error|by apply differs_by_status].
  - rewrite route_passenger_bookings;
      [|done|rewrite Hpath;
       change (match_segment "/passengers/" "/bookings" ("/passengers/" +:+ v +:+ "/bookings") = true);
       apply match_segment_append; [done|right; by eexists]].
    destruct (ApiHandlers.QueryCommand _ _ _); by apply differs_by_status.
  - rewrite route_booking;
      [|done|rewrite Hpath; change (match_segment "/bookings/" "" ("/bookings/" +:+ v +:+ "") = true);
       apply match_segment_append; [done|by left]].
    destruct (ApiHandlers.GetCommand _ _) as [[item|]|message]; simpl;
      [by apply differs_by_status|by apply differs_by_error|by apply differs_by_status].
Qed.

Lemma api_methods_are_routed_witness :
  Forall (λ m,
    ∀ now docClient event,
      ApiHandlers.path event = RestApi.path_of (RestApi.resource m) "F1" →
      ApiHandlers.httpMethod event = RestApi.httpMethod m →
      ApiHandlers.handler now docClient event ≠ not_found)
    RestApi.methods.
Proof. apply api_methods_are_routed. by split. Defined.

(* ===================================================================== *)
(* The status index as the API shows it                                  *)
(* ===================================================================== *)

Lemma indexed_under_iff (status : string) (kv : Key * gmap string JSON) :
  ApiHandlers.indexed_under status kv ↔ kv.2 !! "GSI1PK" = Some (JStr status).
Proof.
  unfold ApiHandlers.indexed_under.
  destruct (kv.2 !! "GSI1PK") as [[| | |s| |]|]; try (split; [done|by intros [=]]).
  split; [by intros ->|by intros [= ->]].
Qed.

Lemma index_items (status : string) (σ : Table) (item : gmap string JSON) :
  item ∈ (filter (ApiHandlers.indexed_under status) (map_to_list σ)).*2
  ↔ ∃ k, σ !! k = Some item ∧ item !! "GSI1PK" = Some (JStr status).
Proof.
  rewrite list_elem_of_fmap. split.
  - intros ([k it] & -> & [Hidx Hin]%list_elem_of_filter).
    apply elem_of_map_to_list in Hin. apply indexed_under_iff in Hidx. by exists k.
  - intros (k & Hk & Hidx). exists (k, item). split; [done|].
    apply list_elem_of_filter. split; [by apply indexed_under_iff|].
    by apply elem_of_map_to_list.
Qed.

(** X9: over a table, GET /flights?status=s answers 200 with exactly the
    stored items whose GSI1PK is s, and with their number as count; when
    every Flight of the table has status = GSI1PK, a Flight is listed if and
    only if its status is s. *)
Theorem flights_by_status_lists_index
    (now : string) (σ : Table) (event : ApiHandlers.APIGatewayProxyEvent) (status : string) :
  ApiHandlers.httpMethod event = "GET" →
  ApiHandlers.path event = "/flights" →
  ApiHandlers.queryStringParameters event ≫= (λ q, q !! "status") = Some status →
  status ≠ "" →
  let response := ApiHandlers.handler now (ApiHandlers.client_of σ) event in
  ApiHandlers.statusCode response = 200
  ∧ ∃ flights,
      get_path ["flights"] (ApiHandlers.body response) = Some (JArr flights)
      ∧ get_path ["count"] (ApiHandlers.body response)
        = Some (JNum (Z.of_nat (length flights)))
      ∧ (∀ item, JObj item ∈ flights
                 ↔ ∃ k, σ !! k = Some item ∧ item !! "GSI1PK" = Some (JStr status))
      ∧ (synced σ → ∀ k item, is_flight k → σ !! k = Some item →
           (JObj item ∈ flights ↔ item !! "status" = Some (JStr status))).
Proof.
  intros Hget Hpath Hstatus Hne response. subst response. unfold ApiHandlers.handler.
  rewrite route_flights, Hstatus by done.
  apply String.eqb_neq in Hne. rewrite Hne.
  cbn [negb ApiHandlers.client_of ApiHandlers.QueryIndexCommand ApiHandlers.bind
       ApiHandlers.statusCode ApiHandlers.body ApiHandlers.respond
       ApiHandlers.Items ApiHandlers.Count default].
  split; [done|].
  set (items := (filter (ApiHandlers.indexed_under status) (map_to_list σ)).*2).
  exists (JObj <$> items).
  assert (Hin : ∀ item, JObj item ∈ JObj <$> items
                        ↔ ∃ k, σ !! k = Some item ∧ item !! "GSI1PK" = Some (JStr status)).
  { intros item. rewrite <- index_items. fold items. rewrite list_elem_of_fmap. split.
    - by intros (it & [= ->] & Hit).
    - intros Hit. by exists item. }
  split; [by rewrite get_obj_here by no_such_field|]. split; [|split; [exact Hin|]].
  - rewrite get_obj_ne by discriminate. rewrite get_obj_here by no_such_field.
    by rewrite count_or_zero_default, length_fmap.
  - intros Hσ k item Hk Hitem. rewrite Hin.
    destruct (Hσ k item Hitem) as [Hsync _]. specialize (Hsync Hk).
    unfold flight_synced in Hsync. rewrite Hsync. split; [by intros (_ & _ & ?)|].
    intros Hidx. by exists k.
Qed.

Lemma flights_by_status_lists_index_witness :
  ApiHandlers.statusCode
    (ApiHandlers.handler "2025-01-15T00:00:00.000Z" (ApiHandlers.client_of Sample.full_table)
       (ApiHandlers.mkEvent "/flights" "GET" None (Some (<["status" := "SCHEDULED"]> ∅))))
  = 200.
Proof.
  exact (proj1 (flights_by_status_lists_index "2025-01-15T00:00:00.000Z" Sample.full_table
                  (ApiHandlers.mkEvent "/flights" "GET" None
                     (Some (<["status" := "SCHEDULED"]> ∅)))
                  "SCHEDULED" eq_refl eq_refl eq_refl ltac:(discriminate))).
Defined.

(* ===================================================================== *)
(* The stream handler: the event it sends, the log of a batch            *)
(* ===================================================================== *)

Lemma replace_first_unfold (pat rep s : string) :
  replace_first pat rep s
  = if String.prefix pat s then rep +:+ string_drop (String.length pat) s
    else match s with
         | EmptyString => EmptyString
         | String c s' => String c (replace_first pat rep s')
         end.
Proof. by destruct s. Qed.

(* Replacing a prefix. *)
Lemma replace_first_prefix (pat rep s : string) :
  replace_first pat rep (pat +:+ s) = rep +:+ s.
Proof. by rewrite replace_first_unfold, prefix_append, drop_append. Qed.

(** X10: for an INSERT or MODIFY of the booking item BOOKING#<id> / METADATA
    whose new booking_status s is not empty and differs from the old one,
    the handler sends to the configured bus an event whose detail has
    booking_id <id> (the key without its prefix), new_status s, the
    timestamp of the moment, old_status the old image's status, left out
    when there is no old image or no old status (an INSERT), and no other
    field. *)
Theorem stream_event_detail
    (bus : string) (now : nat → string) (n : nat)
    (record : StreamHandler.DynamoDBRecord)
    (image : gmap string StreamHandler.AttributeValue) (id s : string) :
  StreamHandler.eventName record = Some "INSERT"
  ∨ StreamHandler.eventName record = Some "MODIFY" →
  StreamHandler.dynamodb record ≫= StreamHandler.NewImage = Some image →
  StreamHandler.attr image "PK" = Some ("BOOKING#" +:+ id) →
  StreamHandler.attr image "SK" = Some "METADATA" →
  StreamHandler.attr image "booking_status" = Some s →
  s ≠ "" →
  let old := (StreamHandler.dynamodb record ≫= StreamHandler.OldImage)
               ≫= (λ i, StreamHandler.attr i "booking_status") in
  Some s ≠ old →
  ∃ e, StreamHandler.entry_for bus now n record = Some e
       ∧ StreamHandler.EventBusName e = bus
       ∧ get_path ["booking_id"] (StreamHandler.Detail e) = Some (JStr id)
       ∧ get_path ["old_status"] (StreamHandler.Detail e) = JStr <$> old
       ∧ get_path ["new_status"] (StreamHandler.Detail e) = Some (JStr s)
       ∧ get_path ["timestamp"] (StreamHandler.Detail e) = Some (JStr (now n))
       ∧ ∀ field, field ∉ status_change_fields →
           get_path [field] (StreamHandler.Detail e) = None.
Proof.
  intros Hname Himage Hpk Hsk Hs Hne old Hold. subst old.
  unfold StreamHandler.entry_for, startsWith.
  rewrite bool_decide_eq_true_2 by tauto.
  rewrite Himage, Hpk, Hsk, Hs. cbn [default from_option Datatypes.id]. rewrite prefix_append.
  apply String.eqb_neq in Hne. rewrite Hne.
  rewrite bool_decide_eq_false_2 by done.
  cbn [String.eqb Ascii.eqb Bool.eqb andb negb].
  rewrite replace_first_prefix.
  eexists. split; [reflexivity|]. cbn [StreamHandler.EventBusName StreamHandler.Detail].
  split; [done|]. split; [|split; [|split; [|split]]].
  - by rewrite get_obj_here by no_such_field.
  - rewrite get_obj_ne by discriminate. by rewrite get_obj_here by no_such_field.
  - do 2 rewrite get_obj_ne by discriminate. by rewrite get_obj_here by no_such_field.
  - do 3 rewrite get_obj_ne by discriminate. by rewrite get_obj_here by no_such_field.
  - intros field Hfield. apply get_obj_absent. exact Hfield.
Qed.

Lemma stream_event_detail_witness :
  ∃ e, StreamHandler.entry_for "flightpulse-bus" (λ _, "2025-01-15T00:00:00.000Z") 0
         Sample.rebooked = Some e
       ∧ get_path ["booking_id"] (StreamHandler.Detail e) = Some (JStr "B1")
       ∧ get_path ["old_status"] (StreamHandler.Detail e) = Some (JStr "CONFIRMED").
Proof.
  destruct (stream_event_detail "flightpulse-bus" (λ _, "2025-01-15T00:00:00.000Z") 0
              Sample.rebooked
              (<["PK" := StreamHandler.AttrS "BOOKING#B1"]>
                 (<["SK" := StreamHandler.AttrS "METADATA"]>
                    (<["booking_status" := StreamHandler.AttrS "NEEDS_REBOOKING"]> ∅)))
              "B1" "NEEDS_REBOOKING"
              (or_intror eq_refl) eq_refl eq_refl eq_refl eq_refl
              ltac:(discriminate) ltac:(discriminate))
    as (e & He & _ & Hid & Hold & _).
  exists e. by repeat split.
Defined.

Section StreamLog.
Import StreamHandler.
Variables (bus : string) (now : nat → string).
Variable send : PutEventsRequestEntry → option Thrown.

Lemma logged_at_most_one n record : (length (logged bus now send n record) ≤ 1)%nat.
Proof.
  unfold logged. destruct (entry_for bus now n record) as [e|]; [|simpl; lia].
  destruct (send e); simpl; lia.
Qed.

Lemma handle_from_length n records :
  (length (handle_from bus now send n records) ≤ length records)%nat.
Proof.
  revert n. induction records as [|record rest IH]; intros n; [done|].
  rewrite handle_from_cons, length_app. cbn [length].
  pose proof (logged_at_most_one n record). specialize (IH (Datatypes.S n)). lia.
Qed.

Lemma handle_from_all_sent n records :
  (∀ e, send e = None) →
  handle_from bus now send n records
  = put <$> omap id (imap (λ i, entry_for bus now (n + i)) records).
Proof.
  intros Hsend. revert n. induction records as [|record rest IH]; intros n; [done|].
  rewrite handle_from_cons, IH, imap_cons. cbn [omap list_omap]. rewrite Nat.add_0_r.
  unfold logged. replace (imap ((λ i, entry_for bus now (n + i)) ∘ Datatypes.S) rest)
    with (imap (λ i, entry_for bus now (Datatypes.S n + i)) rest).
  2: { apply imap_ext. intros i x _. simpl. f_equal. lia. }
  destruct (entry_for bus now n record) as [e|]; [|done].
  by rewrite Hsend.
Qed.
End StreamLog.

(** X11: a batch leaves at most one log entry per record, and when every
    send resolves the log is the list of the events of the records that
    changed a booking status, in the order of the records, each sent once;
    an empty batch, and a batch of records that are no status changes
    (removals, other items, unchanged status), sends nothing. *)
Theorem stream_batch_log
    (bus : string) (now : nat → string)
    (send : StreamHandler.PutEventsRequestEntry → option Thrown)
    (records : list StreamHandler.DynamoDBRecord) :
  (length (StreamHandler.handler bus now send records) ≤ length records)%nat
  ∧ ((∀ e, send e = None) →
     StreamHandler.handler bus now send records
     = StreamHandler.put <$> omap id (imap (StreamHandler.entry_for bus now) records))
  ∧ (Forall (λ record, ¬ status_change_nonempty record) records →
     StreamHandler.handler bus now send records = []).
Proof.
  unfold StreamHandler.handler. split; [apply handle_from_length|]. split.
  - intros Hsend. by rewrite handle_from_all_sent.
  - generalize 0%nat. induction records as [|record rest IH]; intros n Hnone; [done|].
    apply Forall_cons in Hnone as [Hrecord Hrest].
    rewrite handle_from_cons, IH by done. rewrite app_nil_r. unfold logged.
    destruct (StreamHandler.entry_for bus now n record) as [e|] eqn:He; [|done].
    destruct Hrecord. apply (entry_for_sent bus now n). by rewrite He.
Qed.

Section StreamBefore.
Variables (bus : string) (now : nat → string).
Variable send : StreamHandler.PutEventsRequestEntry → option Thrown.

Lemma before_and_after n records :
  let old := StreamHandlerBefore.handle_from bus now send n records in
  match StreamHandlerBefore.thrown old with
  | None =>
      StreamHandler.handle_from bus now send n records
      = StreamHandler.put <$> StreamHandlerBefore.sent old
  | Some thrown =>
      ∃ before record after,
        records = before ++ record :: after
        ∧ StreamHandler.handle_from bus now send n records
          = (StreamHandler.put <$> StreamHandlerBefore.sent old)
            ++ StreamHandler.error record thrown
               :: StreamHandler.handle_from bus now send (S (n + length before)) after
  end.
Proof.
  revert n. induction records as [|record rest IH]; intros n; [done|].
  cbv zeta. rewrite handle_from_cons. unfold logged. cbn [StreamHandlerBefore.handle_from].
  specialize (IH (S n)). cbv zeta in IH.
  destruct (StreamHandler.entry_for bus now n record) as [e|].
  - destruct (send e) as [thrown|].
    + exists [], record, rest. simpl. by rewrite Nat.add_0_r.
    + cbn [StreamHandlerBefore.thrown StreamHandlerBefore.sent].
      destruct (StreamHandlerBefore.thrown _) as [thrown|].
      * destruct IH as (before & r & after & -> & IH). exists (record :: before), r, after.
        split; [done|]. rewrite IH. simpl. by rewrite Nat.add_succ_r.
      * by rewrite IH.
  - destruct (StreamHandlerBefore.thrown _) as [thrown|].
    + destruct IH as (before & r & after & -> & IH). exists (record :: before), r, after.
      split; [done|]. rewrite IH. simpl. by rewrite Nat.add_succ_r.
    + by rewrite IH.
Qed.
End StreamBefore.

(** X12: the handler and its earlier version without the per-record
    try/catch send the same events as long as no send throws. When a send
    throws, the earlier version ends there, with the records after it
    unprocessed; the handler has sent the same events up to that record,
    logs the error for it and goes on with the records after it. *)
Theorem stream_handler_versions
    (bus : string) (now : nat → string)
    (send : StreamHandler.PutEventsRequestEntry → option Thrown)
    (records : list StreamHandler.DynamoDBRecord) :
  let old := StreamHandlerBefore.handler bus now send records in
  match StreamHandlerBefore.thrown old with
  | None =>
      StreamHandler.handler bus now send records
      = StreamHandler.put <$> StreamHandlerBefore.sent old
  | Some thrown =>
      ∃ before record after,
        records = before ++ record :: after
        ∧ StreamHandler.handler bus now send records
          = (StreamHandler.put <$> StreamHandlerBefore.sent old)
            ++ StreamHandler.error record thrown
               :: StreamHandler.handle_from bus now send (S (length before)) after
  end.
Proof. exact (before_and_after bus now send 0 records). Qed.

(* ===================================================================== *)
(* Routing of any event                                                  *)
(* ===================================================================== *)

Lemma flat_map_filter_bool {A B} (p : A → bool) (f : A → list B) (l : list A) :
  flat_map f (filter (λ x, p x = true) l) = flat_map (λ x, if p x then f x else []) l.
Proof.
  induction l as [|x l IH]; [done|]. rewrite filter_cons. simpl.
  destruct (p x) eqn:Hp.
  - rewrite decide_True by done. simpl. by rewrite IH.
  - rewrite decide_False by done. by rewrite IH.
Qed.

(* Decide each membership test of the patterns, given what is known of the
   source and the detail-type. *)
Ltac settle_patterns :=
  repeat match goal with
  | |- context [bool_decide (?x ∈ [?y])] =>
      first
        [ rewrite (bool_decide_eq_true_2 (x ∈ [y])) by (apply list_elem_of_singleton; congruence)
        | rewrite (bool_decide_eq_false_2 (x ∈ [y]))
            by (rewrite list_elem_of_singleton; congruence) ]
  end.

Ltac open_rules :=
  unfold Rules.started, delivered;
  rewrite flat_map_filter_bool;
  unfold Rules.rules, Rules.matches, Rules.field_matches, Rules.workflowPattern;
  cbn [flat_map Rules.eventPattern Rules.source Rules.detailType Rules.ev_source
       Rules.ev_detailType Rules.targets Rules.machine_of app];
  settle_patterns.

Lemma other_source_starts_nothing (s dt : string) (d : JSON) :
  s ≠ "flightpulse.kafka-consumer" → Rules.started (Rules.mkEvent s dt d) = [].
Proof. intros Hs. open_rules. by repeat case_bool_decide. Qed.

Lemma other_type_starts_nothing (s dt : string) (d : JSON) :
  dt ∉ trigger_types → Rules.started (Rules.mkEvent s dt d) = [].
Proof.
  unfold trigger_types. rewrite !not_elem_of_cons. intros (? & ? & ? & ? & ? & _).
  open_rules. rewrite !andb_false_r. by repeat case_bool_decide.
Qed.

(** X13: no event starts more than one state machine, and an event that
    starts one comes from source flightpulse.kafka-consumer and has one of
    the five trigger detail-types; every other event on the bus starts
    nothing. *)
Theorem event_starts_at_most_one_workflow (e : Rules.Event) :
  (length (Rules.started e) ≤ 1)%nat
  ∧ (Rules.started e ≠ [] →
     Rules.ev_source e = "flightpulse.kafka-consumer"
     ∧ Rules.ev_detailType e ∈ trigger_types).
Proof.
  destruct e as [s dt d]. cbn [Rules.ev_source Rules.ev_detailType].
  destruct (decide (s = "flightpulse.kafka-consumer")) as [->|Hs].
  2: { rewrite other_source_starts_nothing by done. split; [simpl; lia|done]. }
  destruct (decide (dt ∈ trigger_types)) as [Hdt|Hdt].
  2: { rewrite other_type_starts_nothing by done. split; [simpl; lia|done]. }
  split; [|done]. unfold trigger_types in Hdt.
  repeat (apply elem_of_cons in Hdt as [->|Hdt]); [..|by apply elem_of_nil in Hdt];
    vm_compute; lia.
Qed.

(* ===================================================================== *)
(* What the published events do on the bus                                *)
(* ===================================================================== *)

Lemma action_issued (E : Engine.Effect → Prop) (generate : JSON → JSON) (x0 : JSON)
    (name : string) (a : Action) (rp : option Path) (σ : Table) (ctx : JSON) :
  (∀ eff, issued_by a eff → E eff) →
  good (λ _ _, True) E σ (Engine.exec_action generate x0 name a rp σ ctx).
Proof.
  intros Ha. unfold good, Engine.exec_action.
  destruct a as [pk sk|pk sk|pk sk upd|payload|detail dt src|message].
  - destruct (Engine.eval_key x0 ctx pk sk) as [[p s]|]; simpl; split; auto.
  - destruct (Engine.eval_key x0 ctx pk sk) as [k|]; simpl; [|split; auto].
    destruct (σ !! k); simpl; split; auto.
  - destruct (Engine.eval_key x0 ctx pk sk) as [k|]; simpl; [|split; auto].
    destruct (Engine.eval_sets x0 ctx upd) as [sets|] eqn:Hsets; simpl; split; auto.
    apply Forall_singleton. split; [done|]. apply Ha. simpl.
    clear -Hsets. revert sets Hsets. induction upd as [|[b v] upd IH]; intros sets; simpl.
    + by intros [= <-].
    + destruct (Engine.eval_attr x0 ctx v); [|done].
      destruct (Engine.eval_sets x0 ctx upd) as [r|]; [|done].
      intros [= <-]. simpl. f_equal. by apply IH.
  - destruct (Engine.eval_obj x0 ctx payload); simpl; split; auto.
    apply Forall_singleton. split; [done|]. by apply Ha.
  - destruct (Engine.eval_obj x0 ctx detail); simpl; split; auto.
    apply Forall_singleton. split; [done|]. by apply Ha.
  - destruct (Engine.eval_obj x0 ctx message); simpl; split; auto.
    apply Forall_singleton. split; [done|]. by apply Ha.
Qed.

(* Every call of an execution is issued by a service integration of the
   definition. *)
Lemma issued_only (E : Engine.Effect → Prop) (fault : string → JSON → option Engine.Error)
    (generate : JSON → JSON) (x0 : JSON) (l : list State) (σ : Table) (ctx : JSON) :
  Forall (λ a, ∀ eff, issued_by a eff → E eff) (flat_map actions_of l) →
  Forall (λ e, E (Engine.effect e))
    (Engine.trace (Engine.exec_chain fault generate x0 l σ ctx)).
Proof.
  intros Hl.
  destruct (respects_definition fault generate x0 (λ _ _, True) E _
              (λ _, I) (λ _ _ _ _ _, I)
              (action_issued E generate x0) l Hl σ ctx) as [_ Htr].
  eapply Forall_impl; [exact Htr|]. by intros e [_ ?].
Qed.

Lemma notification_only_logged (eff : Engine.Effect) :
  issued_by (EventBridgePutEvents [] "notification.email" "flightpulse.workflow") eff
  ∨ issued_by (EventBridgePutEvents [] "notification.sms" "flightpulse.workflow") eff →
  only_logged eff.
Proof.
  destruct eff as [k sets|payload|source detailType detail|message]; try (by intros [[]|[]]).
  intros [[-> ->]|[-> ->]]; (split; [done|]); (split; [by vm_compute|]).
  - left. split; [done|]. by vm_compute.
  - right. split; [done|]. by vm_compute.
Qed.

(** X14: every event an execution of one of the three workflows publishes
    has source flightpulse.workflow and detail-type notification.email or
    notification.sms; on the bus it starts no state machine (a workflow
    cannot trigger a workflow) and is delivered to exactly one target, the
    log group of its kind. *)
Theorem published_notifications_only_logged :
  Forall (λ definition,
    ∀ fault generate σ input,
      Forall (λ e, only_logged (Engine.effect e))
        (Engine.trace (Engine.run fault generate definition σ input)))
    catalog.
Proof.
  unfold catalog.
  repeat apply Forall_cons_2; try apply Forall_nil_2;
    intros fault generate σ input; apply issued_only;
    each_action ltac:(intros eff Heff;
                      first [ by destruct eff
                            | apply notification_only_logged; by left
                            | apply notification_only_logged; by right ]).
Qed.

(** X15: the event the stream handler sends for a booking status change
    matches no rule of the stack: it is delivered to no target and starts no
    state machine. *)
Theorem status_change_event_has_no_target
    (bus : string) (now : nat → string) (n : nat)
    (record : StreamHandler.DynamoDBRecord) (e : StreamHandler.PutEventsRequestEntry) :
  StreamHandler.entry_for bus now n record = Some e →
  delivered (event_of_entry e) = [] ∧ Rules.started (event_of_entry e) = [].
Proof.
  intros He. destruct (entry_for_type bus now n record e He) as (Hdt & Hsrc & _).
  unfold event_of_entry. rewrite Hdt, Hsrc. split; by vm_compute.
Qed.

Lemma status_change_event_has_no_target_witness :
  ∃ e, StreamHandler.entry_for "flightpulse-bus" (λ _, "2025-01-15T00:00:00.000Z") 0
         Sample.rebooked = Some e
       ∧ delivered (event_of_entry e) = [].
Proof.
  eexists. split; [reflexivity|].
  exact (proj1 (status_change_event_has_no_target "flightpulse-bus"
                  (λ _, "2025-01-15T00:00:00.000Z") 0 Sample.rebooked _ eq_refl)).
Defined.

(* ===================================================================== *)
(* The items and the attributes the workflows write                      *)
(* ===================================================================== *)

Lemma action_keys (generate : JSON → JSON) (x0 : JSON) (name : string) (a : Action)
    (rp : option Path) (σ : Table) (ctx : JSON) :
  keyed_by_flight_or_booking a →
  good same_elsewhere writes_flight_or_booking σ
    (Engine.exec_action generate x0 name a rp σ ctx).
Proof.
  intros Ha. unfold good, Engine.exec_action.
  assert (Hrefl : same_elsewhere σ σ) by (by intros k).
  destruct a as [pk sk|pk sk|pk sk upd|payload|detail dt src|message]; simpl in Ha.
  - destruct (Engine.eval_key x0 ctx pk sk) as [[p s]|]; simpl; split; by auto.
  - destruct (Engine.eval_key x0 ctx pk sk) as [k|]; simpl; [|split; by auto].
    destruct (σ !! k); simpl; split; by auto.
  - destruct (Engine.eval_key x0 ctx pk sk) as [k|] eqn:Hk; simpl; [|split; by auto].
    destruct (Engine.eval_sets x0 ctx upd) as [sets|]; simpl; [|split; by auto].
    specialize (Ha x0 ctx k Hk). split.
    + intros k' Hf Hb. unfold Engine.update_item. rewrite lookup_insert_ne; [done|].
      intros <-. tauto.
    + apply Forall_singleton. by split.
  - destruct (Engine.eval_obj x0 ctx payload); simpl; split; auto; by apply Forall_singleton.
  - destruct (Engine.eval_obj x0 ctx detail); simpl; split; auto; by apply Forall_singleton.
  - destruct (Engine.eval_obj x0 ctx message); simpl; split; auto; by apply Forall_singleton.
Qed.

Lemma flight_key_is_flight (x0 ctx : JSON) (k : Key) :
  Engine.eval_key x0 ctx
    (fromString (format "FLIGHT#{}" (stringAt ["detail"; "flight_id"])))
    (fromString (lit (JStr "METADATA"))) = Some k →
  is_flight k.
Proof.
  intros (fid & _ & ->)%eval_flight_key. split; [apply prefix_append|done].
Qed.

Lemma booking_key_is_booking (x0 ctx : JSON) (k : Key) :
  Engine.eval_key x0 ctx
    (fromString (format "BOOKING#{}" (stringAt ["booking_id"])))
    (fromString (lit (JStr "METADATA"))) = Some k →
  is_booking k.
Proof.
  unfold Engine.eval_key, Engine.eval_attr, Engine.eval_tmpl.
  destruct (get_path ["booking_id"] ctx) as [[| | |bid| |]|]; try done.
  rewrite format_booking. intros [= <-]. split; [apply prefix_append|done].
Qed.

Lemma catalog_keys :
  Forall (λ definition, Forall keyed_by_flight_or_booking (flat_map actions_of definition))
    catalog.
Proof.
  unfold catalog.
  repeat (apply Forall_cons_2;
          [each_action ltac:(first [ exact I
                                   | intros x0 ctx k Hk; left; by eapply flight_key_is_flight
                                   | intros x0 ctx k Hk; right;
                                     by eapply booking_key_is_booking ])|]).
  apply Forall_nil_2.
Qed.

(** X16: an execution of one of the three workflows writes only items
    FLIGHT#.../METADATA and BOOKING#.../METADATA. Every other item is, at
    every call and at the end, as it was at the start: no passenger record
    and no booking record kept under a flight (FLIGHT#f / BOOKING#b) is
    ever written. *)
Theorem workflows_write_flights_and_bookings_only :
  Forall (λ definition,
    ∀ fault generate σ input,
      let r := Engine.run fault generate definition σ input in
      same_elsewhere σ (Engine.table r)
      ∧ Forall (λ e, same_elsewhere σ (Engine.snapshot e)
                     ∧ writes_flight_or_booking (Engine.effect e)) (Engine.trace r)
      ∧ (∀ pid, Engine.table r !! ("PASSENGER#" +:+ pid, "METADATA")
                = σ !! ("PASSENGER#" +:+ pid, "METADATA"))
      ∧ (∀ fid bid, Engine.table r !! ("FLIGHT#" +:+ fid, "BOOKING#" +:+ bid)
                    = σ !! ("FLIGHT#" +:+ fid, "BOOKING#" +:+ bid)))
    catalog.
Proof.
  pose proof catalog_keys as Hcat. eapply Forall_impl; [exact Hcat|].
  intros definition Hkeys fault generate σ input r.
  assert (Hr : good same_elsewhere writes_flight_or_booking σ r).
  { apply (respects_definition fault generate input same_elsewhere
             writes_flight_or_booking keyed_by_flight_or_booking).
    - by intros σ' k.
    - intros σ1 σ2 σ3 H12 H23 k Hf Hb. by rewrite H23, H12.
    - apply action_keys.
    - exact Hkeys. }
  destruct Hr as [Ht Htr]. split; [done|]. split; [done|]. split.
  - intros pid. apply Ht; by intros [? ?].
  - intros fid bid. apply Ht; by intros [? ?].
Qed.

Lemma eval_sets_names (x0 ctx : JSON) (upd : list (string * DynamoAttributeValue))
    (sets : list (string * JSON)) :
  Engine.eval_sets x0 ctx upd = Some sets → sets.*1 = upd.*1.
Proof.
  revert sets. induction upd as [|[b v] upd IH]; intros sets; simpl.
  - by intros [= <-].
  - destruct (Engine.eval_attr x0 ctx v); [|done].
    destruct (Engine.eval_sets x0 ctx upd) as [r|]; [|done].
    intros [= <-]. simpl. f_equal. by apply IH.
Qed.

Lemma kept_outside_refl (names : list string) (σ : Table) : kept_outside names σ σ.
Proof. intros k item Hk. by exists item. Qed.

Lemma kept_outside_trans (names : list string) (σ1 σ2 σ3 : Table) :
  kept_outside names σ1 σ2 → kept_outside names σ2 σ3 → kept_outside names σ1 σ3.
Proof.
  intros H12 H23 k item Hk.
  destruct (H12 k item Hk) as (item2 & Hk2 & Hsame2).
  destruct (H23 k item2 Hk2) as (item3 & Hk3 & Hsame3).
  exists item3. split; [done|]. intros a Ha. by rewrite Hsame3, Hsame2.
Qed.

Lemma action_attributes (names : list string) (generate : JSON → JSON) (x0 : JSON)
    (name : string) (a : Action) (rp : option Path) (σ : Table) (ctx : JSON) :
  (∀ x, x ∈ assigned a → x ∈ names) →
  good (kept_outside names) (λ _, True) σ (Engine.exec_action generate x0 name a rp σ ctx).
Proof.
  intros Ha. unfold good, Engine.exec_action.
  pose proof (kept_outside_refl names σ) as Hrefl.
  destruct a as [pk sk|pk sk|pk sk upd|payload|detail dt src|message]; simpl in Ha.
  - destruct (Engine.eval_key x0 ctx pk sk) as [[p s]|]; simpl; split; by auto.
  - destruct (Engine.eval_key x0 ctx pk sk) as [k|]; simpl; [|split; by auto].
    destruct (σ !! k); simpl; split; by auto.
  - destruct (Engine.eval_key x0 ctx pk sk) as [k|]; simpl; [|split; by auto].
    destruct (Engine.eval_sets x0 ctx upd) as [sets|] eqn:Hsets; simpl; [|split; by auto].
    split; [|by apply Forall_singleton].
    intros k' item Hk'. unfold Engine.update_item.
    destruct (decide (k = k')) as [<-|Hne].
    + rewrite lookup_insert_eq, Hk'. eexists. split; [done|].
      intros x Hx. simpl. unfold Engine.apply_sets. apply lookup_union_r.
      apply not_elem_of_list_to_map_1. rewrite (eval_sets_names _ _ _ _ Hsets).
      intros Hin. by apply Hx, Ha.
    + rewrite lookup_insert_ne by done. by exists item.
  - destruct (Engine.eval_obj x0 ctx payload); simpl; split; auto; by apply Forall_singleton.
  - destruct (Engine.eval_obj x0 ctx detail); simpl; split; auto; by apply Forall_singleton.
  - destruct (Engine.eval_obj x0 ctx message); simpl; split; auto; by apply Forall_singleton.
Qed.

(** X17: the Delay workflow assigns status, delay_minutes, delay_reason and
    GSI1PK, the Cancellation workflow booking_status, GSI2PK, status and
    GSI1PK, the Gate-Change workflow gate. An execution deletes no item and
    leaves every other attribute of every item as it was: a gate change
    never touches a status, a delay never touches a gate, and no workflow
    touches the schedule of a flight or the seat of a booking. *)
Theorem workflows_keep_other_attributes :
  written DelayWorkflow.definition = ["status"; "delay_minutes"; "delay_reason"; "GSI1PK"]
  ∧ written CancellationWorkflow.definition
    = ["booking_status"; "GSI2PK"; "status"; "GSI1PK"]
  ∧ written GateChangeWorkflow.definition = ["gate"]
  ∧ ∀ definition fault generate σ input,
      kept_outside (written definition) σ
        (Engine.table (Engine.run fault generate definition σ input)).
Proof.
  split; [reflexivity|]. split; [reflexivity|]. split; [reflexivity|].
  intros definition fault generate σ input.
  apply (respects_definition fault generate input (kept_outside (written definition))
           (λ _, True) (λ a, ∀ x, x ∈ assigned a → x ∈ written definition)).
  - apply kept_outside_refl.
  - apply kept_outside_trans.
  - apply action_attributes.
  - apply Forall_forall. intros a Ha x Hx. unfold written.
    apply list_elem_of_In, in_flat_map. exists a. by rewrite <- !list_elem_of_In.
Qed.

(* ===================================================================== *)
(* ProcessBookings: who is notified                                      *)
(* ===================================================================== *)

Lemma format_passenger (s : string) :
  replace_first "{}" s "PASSENGER#{}" = "PASSENGER#" +:+ s.
Proof. simpl. by rewrite append_empty. Qed.

Section Notify.
Import Engine.
Variable fault : string → JSON → option Error.
Variable generate : JSON → JSON.
Variable x0 : JSON.

Lemma trace_join_two (ctx : JSON) (fA fB : Table → Result) (σ : Table) :
  trace (join ctx (run_all [fA; fB] σ)) = trace (fA σ) ++ trace (fB (table (fA σ))).
Proof. simpl. rewrite app_nil_r. by destruct (first_failure _ _). Qed.

(* GetPassengerDetails: it fails, or the context gains the stored record as
   Item. *)
Lemma get_passenger_cases (σ : Table) (ctx : JSON) :
  let r := exec fault generate x0 ProcessBookings.getPassenger σ ctx in
  (has_failed r = true ∧ table r = σ ∧ trace r = [])
  ∨ (∃ pid passenger,
       get_path ["passenger_id"] ctx = Some (JStr pid)
       ∧ σ !! ("PASSENGER#" +:+ pid, "METADATA") = Some passenger
       ∧ r = ok (put_path [] (JObj (<["Item" := JObj passenger]> ∅)) ctx) σ []).
Proof.
  intros r. subst r. unfold ProcessBookings.getPassenger. rewrite exec_task_plain.
  unfold exec_task. destruct (fault _ ctx); [by left|].
  unfold exec_action, eval_key, eval_attr, eval_tmpl.
  destruct (get_path ["passenger_id"] ctx) as [[| | |pid| |]|]; try by left.
  rewrite format_passenger.
  destruct (σ !! ("PASSENGER#" +:+ pid, "METADATA")) as [passenger|] eqn:Hp; [|by left].
  right. by exists pid, passenger.
Qed.

(* GeneratePersonalizedMessage: it fails, or its result is stored under
   MessageResult. *)
Lemma generate_message_cases (messageType : string) (σ : Table) (ctx : JSON) :
  let r := exec fault generate x0 (ProcessBookings.generateMessage messageType) σ ctx in
  (has_failed r = true ∧ table r = σ ∧ trace r = [])
  ∨ (∃ result payload,
       r = ok (put_path ["MessageResult"] result ctx) σ [mkEntry σ (Generated payload)]).
Proof.
  intros r. subst r. unfold ProcessBookings.generateMessage. rewrite exec_task_plain.
  unfold exec_task. destruct (fault _ ctx); [by left|].
  unfold exec_action. destruct (eval_obj x0 ctx _) as [pl|]; [|by left].
  right. by eexists _, _.
Qed.

(* The record read by GetPassengerDetails stays under Item. *)
Lemma item_after_message (passenger : gmap string JSON) (result ctx : JSON) (p : Path) :
  get_path ("Item" :: p)
    (put_path ["MessageResult"] result
       (put_path [] (JObj (<["Item" := JObj passenger]> ∅)) ctx))
  = get_path p (JObj passenger).
Proof.
  cbn [put_path get_path]. rewrite lookup_insert_ne by discriminate.
  destruct ctx as [| | | | |c]; cbn [put_path fields_of];
    try (by rewrite lookup_insert_eq).
  by rewrite (lookup_union_Some_l _ _ _ (JObj passenger)) by apply lookup_insert_eq.
Qed.

Lemma exec_choice (name : string) (when : Condition) (t e : list State)
    (σ : Table) (ctx : JSON) :
  exec fault generate x0 (Choice name when t e) σ ctx
  = if eval_cond ctx when then exec_chain fault generate x0 t σ ctx
    else exec_chain fault generate x0 e σ ctx.
Proof. reflexivity. Qed.

Lemma trace_chain_one (s : State) (σ : Table) (ctx : JSON) :
  trace (exec_chain fault generate x0 [s] σ ctx) = trace (exec fault generate x0 s σ ctx).
Proof.
  rewrite exec_chain_cons. cbv zeta. destruct (outcome _); [|done..].
  simpl. by rewrite app_nil_r.
Qed.

(* CheckEmailPreference and CheckSmsPreference: a Choice on a flag of the
   record, with one publish behind it. *)
Lemma send_cases (name task skip flag address detailType : string)
    (rest : list (string * Tmpl)) (σ : Table) (ctx : JSON) :
  let r := exec_chain fault generate x0
             [Choice name (booleanEquals ["Item"; "notification_preferences"; flag] true)
                [Task task
                   (EventBridgePutEvents (("to", stringAt ["Item"; address]) :: rest)
                      detailType "flightpulse.workflow")
                   None None]
                [Pass skip]] σ ctx in
  table r = σ
  ∧ Forall (λ e, snapshot e = σ
                 ∧ ∃ detail,
                     effect e = Published "flightpulse.workflow" detailType detail
                     ∧ get_path ["Item"; "notification_preferences"; flag] ctx
                       = Some (JBool true)
                     ∧ get_path ["to"] detail = get_path ["Item"; address] ctx) (trace r).
Proof.
  intros r. subst r. rewrite table_chain_one, trace_chain_one, exec_choice.
  unfold eval_cond.
  destruct (get_path ["Item"; "notification_preferences"; flag] ctx)
    as [[|b| | | |]|] eqn:Hflag; try (by split; [|constructor]).
  destruct b; cbn [Bool.eqb]; [|by split; [|constructor]].
  rewrite table_chain_one, trace_chain_one, exec_task_plain.
  unfold exec_task. destruct (fault task ctx); [by split; [|constructor]|].
  unfold exec_action. cbn [eval_obj eval_tmpl].
  destruct (get_path ["Item"; address] ctx) as [to|] eqn:Hto; [|by split; [|constructor]].
  destruct (eval_obj x0 ctx rest) as [d|]; [|by split; [|constructor]].
  cbn [ok outcome table trace]. split; [done|].
  apply Forall_singleton. split; [done|]. eexists. split; [reflexivity|]. split; [done|].
  simpl. by rewrite lookup_insert_eq.
Qed.

(* SendNotifications on a context that holds the record under Item. *)
Lemma send_notifications_cases (σ : Table) (ctx : JSON) :
  let r := exec fault generate x0 ProcessBookings.sendNotifications σ ctx in
  table r = σ
  ∧ Forall (λ e, snapshot e = σ
                 ∧ ∃ detailType detail,
                     effect e = Published "flightpulse.workflow" detailType detail
                     ∧ (detailType = "notification.email"
                        ∧ get_path ["Item"; "notification_preferences"; "email"] ctx
                          = Some (JBool true)
                        ∧ get_path ["to"] detail = get_path ["Item"; "email"] ctx
                        ∨ detailType = "notification.sms"
                          ∧ get_path ["Item"; "notification_preferences"; "sms"] ctx
                            = Some (JBool true)
                          ∧ get_path ["to"] detail = get_path ["Item"; "phone"] ctx))
      (trace r).
Proof.
  intros r. subst r. unfold ProcessBookings.sendNotifications. cbn [exec map].
  rewrite handle_None, table_join_two, trace_join_two.
  change (run_chain [exec fault generate x0 ProcessBookings.sendEmail])
    with (exec_chain fault generate x0 [ProcessBookings.sendEmail]).
  change (run_chain [exec fault generate x0 ProcessBookings.sendSms])
    with (exec_chain fault generate x0 [ProcessBookings.sendSms]).
  unfold ProcessBookings.sendEmail, ProcessBookings.sendSms.
  match goal with
  | |- context [exec_chain _ _ _ [Choice ?n (booleanEquals [_; _; ?f] true)
                                    [Task ?t (EventBridgePutEvents (_ :: ?rest) ?dt _) _ _]
                                    [Pass ?s]] σ ctx] =>
      destruct (send_cases n t s f "email" dt rest σ ctx) as [HtA HA]
  end.
  cbv zeta in HtA, HA. rewrite HtA.
  match goal with
  | |- context [exec_chain _ _ _ [Choice ?n (booleanEquals [_; _; "sms"] true)
                                    [Task ?t (EventBridgePutEvents (_ :: ?rest) ?dt _) _ _]
                                    [Pass ?s]] σ ctx] =>
      destruct (send_cases n t s "sms" "phone" dt rest σ ctx) as [HtB HB]
  end.
  cbv zeta in HtB, HB. split; [done|]. apply Forall_app. split.
  - eapply Forall_impl; [exact HA|]. intros e (Hs & detail & He & Hflag & Hto).
    split; [done|]. eexists _, detail. split; [exact He|]. by left.
  - eapply Forall_impl; [exact HB|]. intros e (Hs & detail & He & Hflag & Hto).
    split; [done|]. eexists _, detail. split; [exact He|]. by right.
Qed.

(* The sub-workflow of one booking item. *)
Lemma process_booking_follows (messageType : string) (σ : Table) (ctx : JSON) :
  let r := exec_chain fault generate x0 (ProcessBookings.processBooking messageType) σ ctx in
  table r = σ
  ∧ Forall (λ e, snapshot e = σ ∧ follows_preferences σ (effect e)) (trace r).
Proof.
  intros r. subst r. unfold ProcessBookings.processBooking.
  rewrite exec_chain_cons. cbv zeta.
  destruct (get_passenger_cases σ ctx)
    as [(Hfail & Ht & Htr)|(pid & passenger & Hpid & Hp & ->)].
  { unfold has_failed in Hfail. destruct (outcome _); try done. rewrite Ht, Htr.
    by split; [|constructor]. }
  cbn [ok outcome table trace app].
  rewrite exec_chain_cons. cbv zeta.
  destruct (generate_message_cases messageType σ
              (put_path [] (JObj (<["Item" := JObj passenger]> ∅)) ctx))
    as [(Hfail & Ht & Htr)|(result & payload & ->)].
  { unfold has_failed in Hfail. destruct (outcome _); try done. rewrite Ht, Htr.
    by split; [|constructor]. }
  cbn [ok outcome table trace app].
  destruct (send_notifications_cases σ
              (put_path ["MessageResult"] result
                 (put_path [] (JObj (<["Item" := JObj passenger]> ∅)) ctx))) as [Ht Htr].
  cbv zeta in Ht, Htr. rewrite !item_after_message in Htr.
  rewrite table_chain_one, trace_chain_one, Ht. split; [done|].
  apply Forall_cons_2; [by split|].
  eapply Forall_impl; [exact Htr|].
  intros e (Hs & dt & detail & He & Hcase). split; [done|]. rewrite He.
  exists pid, passenger. split; [done|].
  destruct Hcase as [(Hdt & Hflag & Hto)|(Hdt & Hflag & Hto)]; [left|right];
    (split; [done|]); (split; [done|]); rewrite Hto; simpl;
    by destruct (passenger !! _).
Qed.
End Notify.

(* Every item of a Map whose sub-workflow only reads runs on the table the
   Map started on. *)
Lemma run_all_reads (P : Engine.Entry → Prop) (l : list (Table → Engine.Result))
    (ctx : JSON) (σ : Table) :
  Forall (λ f, Engine.table (f σ) = σ ∧ Forall P (Engine.trace (f σ))) l →
  Engine.table (Engine.join ctx (Engine.run_all l σ)) = σ
  ∧ Forall P (Engine.trace (Engine.join ctx (Engine.run_all l σ))).
Proof.
  induction 1 as [|f l [Ht Htr] _ [IHt IHtr]]; [by split; [|constructor]|].
  rewrite run_all_cons, Ht.
  destruct (Engine.run_all l σ) as [[o σ'] t]. cbn [fst snd] in *.
  assert (σ' = σ ∧ Forall P t) as [-> Hforall] by (by destruct o).
  destruct (Engine.first_failure _ o); simpl; (split; [done|]);
    apply Forall_app; by split.
Qed.

(** X18: in the ProcessBookings Map every published notification goes to a
    passenger whose record is stored under PASSENGER#<id> / METADATA: a
    notification.email only if the record's notification_preferences.email
    is true, addressed to the record's email; a notification.sms only if
    notification_preferences.sms is true, addressed to the record's phone.
    The Map writes nothing. *)
Theorem notifications_follow_preferences
    (fault : string → JSON → option Engine.Error) (generate : JSON → JSON)
    (x0 : JSON) (messageType : string) (σ : Table) (ctx : JSON) :
  let r := Engine.exec fault generate x0
             (ProcessBookings.createProcessBookingsMap messageType) σ ctx in
  Engine.table r = σ
  ∧ Forall (λ e, Engine.snapshot e = σ ∧ follows_preferences σ (Engine.effect e))
      (Engine.trace r).
Proof.
  intros r. subst r. unfold ProcessBookings.createProcessBookingsMap.
  rewrite exec_map_plain.
  destruct (get_path ["Items"] ctx) as [[| | | |items|]|]; try (by split; [|constructor]).
  apply run_all_reads, Forall_fmap, Forall_forall. intros item _.
  unfold Engine.run_item, compose. cbv beta.
  match goal with
  | |- context [Engine.item_input x0 ?ps item] =>
      destruct (Engine.item_input x0 ps item) as [input|]; [|by split; [|constructor]]
  end.
  apply process_booking_follows.
Qed.

(* ===================================================================== *)
(* The Cancellation workflow: when the flight is marked                  *)
(* ===================================================================== *)

Lemma booking_is_no_flight (k : Key) : is_booking k → ¬ is_flight k.
Proof.
  intros [Hb _] [Hf _]. apply prefix_drop in Hb. rewrite Hb in Hf. done.
Qed.

Lemma flights_unchanged_trans (σ1 σ2 σ3 : Table) :
  flights_unchanged σ1 σ2 → flights_unchanged σ2 σ3 → flights_unchanged σ1 σ3.
Proof. intros H12 H23 k Hk. by rewrite H23, H12. Qed.

Lemma action_keeps_flights (generate : JSON → JSON) (x0 : JSON) (name : string)
    (a : Action) (rp : option Path) (σ : Table) (ctx : JSON) :
  match a with
  | DynamoUpdateItem pk sk _ =>
      ∀ x0 ctx k, Engine.eval_key x0 ctx pk sk = Some k → is_booking k
  | _ => True
  end →
  good flights_unchanged (λ _, True) σ (Engine.exec_action generate x0 name a rp σ ctx).
Proof.
  intros Ha. unfold good, Engine.exec_action.
  assert (Hrefl : flights_unchanged σ σ) by (by intros k).
  destruct a as [pk sk|pk sk|pk sk upd|payload|detail dt src|message].
  - destruct (Engine.eval_key x0 ctx pk sk) as [[p s]|]; simpl; split; by auto.
  - destruct (Engine.eval_key x0 ctx pk sk) as [k|]; simpl; [|split; by auto].
    destruct (σ !! k); simpl; split; by auto.
  - destruct (Engine.eval_key x0 ctx pk sk) as [k|] eqn:Hk; simpl; [|split; by auto].
    destruct (Engine.eval_sets x0 ctx upd) as [sets|]; simpl; [|split; by auto].
    specialize (Ha x0 ctx k Hk). split; [|by apply Forall_singleton].
    intros k' Hf. unfold Engine.update_item. rewrite lookup_insert_ne; [done|].
    intros <-. by apply (booking_is_no_flight k).
  - destruct (Engine.eval_obj x0 ctx payload); simpl; split; auto; by apply Forall_singleton.
  - destruct (Engine.eval_obj x0 ctx detail); simpl; split; auto; by apply Forall_singleton.
  - destruct (Engine.eval_obj x0 ctx message); simpl; split; auto; by apply Forall_singleton.
Qed.

Section CancellationCases.
Import Engine.
Variable fault : string → JSON → option Error.
Variable generate : JSON → JSON.
Variable x0 : JSON.

(* A Map without a catch hands its context on, or fails. *)
Lemma exec_map_outcome (name : string) (ip : Path) (mc : option nat)
    (ps : option (list (string * Tmpl))) (iter : list State) (σ : Table) (ctx : JSON) :
  let r := exec fault generate x0 (Map name ip mc ps iter None) σ ctx in
  outcome r = Continue ctx ∨ ∃ e, outcome r = Failed e.
Proof.
  intros r. subst r. rewrite exec_map_plain.
  destruct (get_path ip ctx) as [[| | | |items|]|]; try (right; by eexists).
  destruct (run_all _ σ) as [[[e|] σ'] t]; simpl; [right; by eexists|by left].
Qed.

Lemma mark_keeps_flights (σ : Table) (ctx : JSON) :
  flights_unchanged σ
    (table (exec fault generate x0 CancellationWorkflow.markForRebooking σ ctx)).
Proof.
  apply (respects_exec fault generate x0 flights_unchanged (λ _, True)
           (λ a, match a with
                 | DynamoUpdateItem pk sk _ =>
                     ∀ x0 ctx k, eval_key x0 ctx pk sk = Some k → is_booking k
                 | _ => True
                 end)).
  - by intros σ' k.
  - apply flights_unchanged_trans.
  - apply action_keeps_flights.
  - simpl. apply Forall_singleton. intros x ctx' k. apply booking_key_is_booking.
Qed.
(* When MarkBookingsForRebooking hands on, every booking it was given is
   marked. *)
Lemma mark_rebooks (bookings : list (gmap string JSON)) (σ : Table) (ctx ctx' : JSON) :
  get_path ["Items"] ctx = Some (JArr (JObj <$> bookings)) →
  let r := exec fault generate x0 CancellationWorkflow.markForRebooking σ ctx in
  outcome r = Continue ctx' → all_rebooked bookings (table r).
Proof.
  intros Hitems r. subst r. unfold CancellationWorkflow.markForRebooking.
  rewrite exec_map_plain, Hitems.
  change (run_item x0 "MarkBookingsForRebooking" None
            (exec_chain fault generate x0 [CancellationWorkflow.updateBookingStatus]))
    with (mark_item fault generate x0).
  destruct (mark_items fault generate x0 bookings σ) as (_ & _ & Hdone).
  destruct (run_all (map (mark_item fault generate x0) (JObj <$> bookings)) σ)
    as [[[e|] σ2] marked]; cbn [fst snd] in *; cbn [join outcome table]; [done|].
  intros _. by apply Hdone.
Qed.
End CancellationCases.

Lemma cancellation_cases (fault : string → JSON → option Engine.Error)
    (generate : JSON → JSON) (σ : Table) (input : JSON) :
  let r := Engine.run fault generate CancellationWorkflow.definition σ input in
  (has_failed r = true ∧ flights_unchanged σ (Engine.table r))
  ∨ (Engine.outcome r = Engine.Finished
     ∧ ∃ fid σ', get_path ["detail"; "flight_id"] input = Some (JStr fid)
                 ∧ flights_unchanged σ σ'
                 ∧ all_rebooked (affected σ input) σ'
                 ∧ Engine.table r
                   = Engine.update_item ("FLIGHT#" +:+ fid, "METADATA")
                       [("status", JStr "CANCELLED"); ("GSI1PK", JStr "CANCELLED")] σ').
Proof.
  intros r. subst r. unfold Engine.run, CancellationWorkflow.definition.
  assert (Hrefl : flights_unchanged σ σ) by (by intros k).
  (* GetAffectedBookings *)
  rewrite exec_chain_cons. cbv zeta. unfold CancellationWorkflow.getBookings.
  match goal with
  | |- context [Engine.exec _ _ _ (Task ?n (DynamoQuery ?pk ?sk) None None) ?s ?c] =>
      destruct (exec_query_cases fault generate input n pk sk s c)
        as [(Hfail & Ht & Htr)|(p & s' & Hk & ->)]
  end.
  { left. unfold has_failed in *. destruct (Engine.outcome _) eqn:Ho; try done.
    rewrite Ho, Ht. by split. }
  assert (Hk' := Hk). apply eval_bookings_key in Hk' as (fid0 & Hfid0 & -> & ->).
  assert (Haff : affected σ input = Engine.query ("FLIGHT#" +:+ fid0) "BOOKING#" σ).
  { unfold affected. by rewrite Hfid0. }
  rewrite Haff. set (bookings := Engine.query ("FLIGHT#" +:+ fid0) "BOOKING#" σ).
  set (ctx1 := put_path [] _ input).
  assert (Hdetail : get_path ["detail"; "flight_id"] ctx1
                    = get_path ["detail"; "flight_id"] input)
    by apply bookings_keep_detail.
  assert (Hitems : get_path ["Items"] ctx1 = Some (JArr (JObj <$> bookings))).
  { apply get_path_put_root_new. by rewrite lookup_insert_eq. }
  cbn [Engine.outcome Engine.table Engine.trace Engine.ok app]. clearbody ctx1.
  (* MarkBookingsForRebooking *)
  rewrite exec_chain_cons. cbv zeta.
  set (r2 := Engine.exec fault generate input CancellationWorkflow.markForRebooking σ ctx1).
  assert (H2 : flights_unchanged σ (Engine.table r2)) by apply mark_keeps_flights.
  assert (Ho2 : Engine.outcome r2 = Engine.Continue ctx1
                ∨ ∃ e, Engine.outcome r2 = Engine.Failed e) by apply exec_map_outcome.
  assert (Hmarked : Engine.outcome r2 = Engine.Continue ctx1 →
                    all_rebooked bookings (Engine.table r2))
    by (by apply mark_rebooks).
  clearbody r2. destruct Ho2 as [Ho2|[e Ho2]]; rewrite Ho2.
  2: { left. unfold has_failed. rewrite Ho2. by split. }
  (* ProcessBookings *)
  rewrite exec_chain_cons. cbv zeta.
  set (r3 := Engine.exec fault generate input
               (ProcessBookings.createProcessBookingsMap "CANCELLATION_NOTIFICATION")
               (Engine.table r2) ctx1).
  assert (H3 : Engine.table r3 = Engine.table r2).
  { apply (reads_only_state fault generate input (λ _, True)).
    simpl. repeat (apply Forall_cons_2; [split; [done|by intros []]|]). apply Forall_nil_2. }
  assert (Ho3 : Engine.outcome r3 = Engine.Continue ctx1
                ∨ ∃ e, Engine.outcome r3 = Engine.Failed e) by apply exec_map_outcome.
  clearbody r3. destruct Ho3 as [Ho3|[e Ho3]]; rewrite Ho3.
  2: { left. unfold has_failed. cbn [Engine.outcome Engine.table]. rewrite Ho3, H3.
       by split. }
  (* UpdateFlightStatus *)
  rewrite exec_chain_cons. cbv zeta. rewrite H3.
  unfold CancellationWorkflow.updateFlight.
  match goal with
  | |- context [Engine.exec _ _ _ (Task ?n (DynamoUpdateItem ?pk ?sk ?upd) None None) ?s ?c] =>
      pose proof (exec_update_cases fault generate input n pk sk upd s c) as Hcases;
      cbv zeta in Hcases;
      set (r4 := Engine.exec fault generate input
                   (Task n (DynamoUpdateItem pk sk upd) None None) s c) in *
  end.
  clearbody r4.
  destruct Hcases as [(Hfail & Ht & Htr)|(k & sets & Hkey & Hsets & ->)].
  { left. unfold has_failed in *.
    destruct (Engine.outcome r4) eqn:Ho4; try done.
    cbn [Engine.outcome Engine.table]. rewrite Ho4, Ht. by split. }
  apply eval_flight_key in Hkey as (fid & Hfid & ->). injection Hsets as <-.
  (* WorkflowComplete *)
  right. cbn [Engine.ok Engine.trace Engine.outcome Engine.table].
  rewrite exec_chain_cons. cbv zeta.
  cbn [Engine.exec Engine.trace Engine.outcome Engine.table].
  split; [done|]. exists fid, (Engine.table r2). rewrite <- Hdetail.
  split; [done|]. split; [done|]. split; [by apply Hmarked|done].
Qed.

(** X19: an execution of the Cancellation workflow ends Finished or Failed.
    When it fails, whatever it did to bookings, no Flight item has changed:
    the flight is not CANCELLED by a failed execution. When it finishes,
    the flight of the trigger is stored with status and GSI1PK CANCELLED and
    every other Flight item is as it was. *)
Theorem failed_cancellation_keeps_flights
    (fault : string → JSON → option Engine.Error) (generate : JSON → JSON)
    (σ : Table) (input : JSON) :
  let r := Engine.run fault generate CancellationWorkflow.definition σ input in
  (has_failed r = true ∧ flights_unchanged σ (Engine.table r))
  ∨ (Engine.outcome r = Engine.Finished
     ∧ ∃ fid, get_path ["detail"; "flight_id"] input = Some (JStr fid)
              ∧ stored (Engine.table r) ("FLIGHT#" +:+ fid, "METADATA") "status"
                = Some (JStr "CANCELLED")
              ∧ stored (Engine.table r) ("FLIGHT#" +:+ fid, "METADATA") "GSI1PK"
                = Some (JStr "CANCELLED")
              ∧ ∀ k, is_flight k → k ≠ ("FLIGHT#" +:+ fid, "METADATA") →
                     Engine.table r !! k = σ !! k).
Proof.
  intros r. destruct (cancellation_cases fault generate σ input)
    as [H|(Hout & fid & σ' & Hfid & Hσ' & _ & Ht)]; fold r in H || fold r in Hout, Ht.
  - by left.
  - right. split; [done|]. exists fid. split; [done|]. rewrite Ht.
    unfold stored, Engine.update_item. rewrite lookup_insert_eq. cbn [mbind option_bind].
    unfold Engine.apply_sets. split; [|split].
    + by apply lookup_union_Some_l.
    + by apply lookup_union_Some_l.
    + intros k Hk Hne. rewrite lookup_insert_ne by done. by apply Hσ'.
Qed.

(* ===================================================================== *)
(* A gate change as the API shows it                                     *)
(* ===================================================================== *)

(* The table after an execution of the Gate-Change workflow: nothing was
   issued, or the gate write is applied. *)
Lemma gate_change_table (fault : string → JSON → option Engine.Error)
    (generate : JSON → JSON) (σ : Table) (input : JSON) :
  let r := Engine.run fault generate GateChangeWorkflow.definition σ input in
  Engine.trace r = []
  ∨ ∃ fid gate,
      get_path ["detail"; "flight_id"] input = Some (JStr fid)
      ∧ get_path ["detail"; "new_gate"] input = Some (JStr gate)
      ∧ Engine.table r
        = Engine.update_item ("FLIGHT#" +:+ fid, "METADATA") [("gate", JStr gate)] σ.
Proof.
  intros r. subst r. unfold Engine.run, GateChangeWorkflow.definition.
  rewrite exec_chain_cons. cbv zeta. unfold GateChangeWorkflow.updateGate.
  match goal with
  | |- context [Engine.exec _ _ _ (Task ?n (DynamoUpdateItem ?pk ?sk ?upd) None None) ?s ?c] =>
      pose proof (exec_update_cases fault generate input n pk sk upd s c) as Hcases;
      cbv zeta in Hcases;
      set (update := Engine.exec fault generate input
                       (Task n (DynamoUpdateItem pk sk upd) None None) s c) in *
  end.
  clearbody update.
  destruct Hcases as [(Hfail & Htable & Htrace)|(k & sets & Hk & Hsets & ->)].
  - left. unfold has_failed in Hfail.
    destruct (Engine.outcome update) eqn:Ho; try done.
  - right. apply eval_flight_key in Hk as (fid & Hfid & ->).
    revert Hsets. unfold Engine.eval_sets, Engine.eval_attr, Engine.eval_tmpl.
    destruct (get_path ["detail"; "new_gate"] input) as [[| | |gate| |]|] eqn:Hgate;
      try done.
    intros [= <-]. exists fid, gate. split; [done|]. split; [done|].
    cbn [Engine.ok Engine.outcome Engine.table Engine.trace].
    apply (reads_only (λ _, True) fault generate input).
    each_action ltac:(split; [done|by intros []]).
Qed.

(** X20: once an execution of the Gate-Change workflow has issued a call
    (its first call is the gate write), GET /flights/{flightId} for the
    flight of the trigger, asked of the table the execution left, answers
    200 with the new gate, whether or not the notifications succeeded. *)
Theorem gate_change_served_by_api
    (fault : string → JSON → option Engine.Error) (generate : JSON → JSON)
    (σ : Table) (input : JSON) (now fid : string)
    (event : ApiHandlers.APIGatewayProxyEvent) :
  let r := Engine.run fault generate GateChangeWorkflow.definition σ input in
  Engine.trace r ≠ [] →
  get_path ["detail"; "flight_id"] input = Some (JStr fid) →
  is_segment fid →
  ApiHandlers.httpMethod event = "GET" →
  ApiHandlers.path event = "/flights/" +:+ fid →
  ApiHandlers.param event "flightId" = fid →
  let response := ApiHandlers.handler now (ApiHandlers.client_of (Engine.table r)) event in
  ApiHandlers.statusCode response = 200
  ∧ get_path ["gate"] (ApiHandlers.body response)
    = get_path ["detail"; "new_gate"] input.
Proof.
  intros r Htrace Hfid Hseg Hget Hpath Hparam response. subst response.
  destruct (gate_change_table fault generate σ input)
    as [Hnone|(fid' & gate & Hfid' & Hgate & Htable)]; fold r in Hnone || fold r in Htable;
    [done|].
  rewrite Hfid in Hfid'. injection Hfid' as <-. rewrite Htable, Hgate.
  unfold ApiHandlers.handler. rewrite route_flight; [|done|].
  2: { rewrite Hpath. change (match_segment "/flights/" "" ("/flights/" +:+ fid +:+ "") = true)
         || rewrite <- (append_empty fid) at 1.
       apply match_segment_append; [done|by left]. }
  rewrite Hparam. cbn [ApiHandlers.client_of ApiHandlers.GetCommand ApiHandlers.bind].
  unfold Engine.update_item. rewrite lookup_insert_eq.
  cbn [ApiHandlers.statusCode ApiHandlers.body ApiHandlers.respond]. split; [done|].
  do 6 rewrite get_obj_ne by discriminate. rewrite get_obj_here by no_such_field.
  unfold Engine.apply_sets. by apply lookup_union_Some_l.
Qed.

Lemma gate_change_served_by_api_witness :
  get_path ["gate"]
    (ApiHandlers.body
       (ApiHandlers.handler "2025-01-15T00:00:00.000Z"
          (ApiHandlers.client_of
             (Engine.table
                (Engine.run Sample.no_fault Sample.generate GateChangeWorkflow.definition
                   (<[("FLIGHT#F1", "METADATA") := Sample.flight "SCHEDULED"]> ∅)
                   Sample.gate_changed)))
          (Sample.request "/flights/F1" (<["flightId" := "F1"]> ∅))))
  = Some (JStr "B7").
Proof.
  refine (proj2 (gate_change_served_by_api Sample.no_fault Sample.generate
                   (<[("FLIGHT#F1", "METADATA") := Sample.flight "SCHEDULED"]> ∅)
                   Sample.gate_changed "2025-01-15T00:00:00.000Z" "F1"
                   (Sample.request "/flights/F1" (<["flightId" := "F1"]> ∅))
                   _ eq_refl _ eq_refl eq_refl eq_refl)).
  - by vm_compute.
  - by split.
Defined.

(* ===================================================================== *)
(* The bookings of the flight during an execution                        *)
(* ===================================================================== *)

(* The booking records kept under a flight are neither Flight nor Booking
   items: a query for them gives the same on tables that agree elsewhere. *)
Lemma query_same_elsewhere (σ σ' : Table) (pk : string) :
  same_elsewhere σ σ' → Engine.query pk "BOOKING#" σ' = Engine.query pk "BOOKING#" σ.
Proof.
  intros Hsame. unfold Engine.query. do 2 f_equal.
  apply map_filter_strong_ext. intros k item.
  assert (Hk : Engine.in_partition pk "BOOKING#" (k, item) → σ' !! k = σ !! k).
  { intros [_ Hsk]. simpl in Hsk. apply prefix_drop in Hsk.
    apply Hsame; intros [_ Hmeta]; rewrite Hmeta in Hsk; done. }
  split; intros [HP Hlookup]; (split; [done|]); specialize (Hk HP); congruence.
Qed.

(** X21: the booking records stored under the flight of the trigger, which
    GetAffectedBookings reads, are the same at every call of an execution
    of any of the three workflows and at its end: the writes of a workflow
    never change which bookings it, or a later execution, finds for the
    flight. *)
Theorem affected_bookings_stable :
  Forall (λ definition,
    ∀ fault generate σ input,
      let r := Engine.run fault generate definition σ input in
      affected (Engine.table r) input = affected σ input
      ∧ Forall (λ e, affected (Engine.snapshot e) input = affected σ input)
          (Engine.trace r))
    catalog.
Proof.
  pose proof catalog_keys as Hcat. eapply Forall_impl; [exact Hcat|].
  intros definition Hkeys fault generate σ input r.
  assert (Hr : good same_elsewhere writes_flight_or_booking σ r).
  { apply (respects_definition fault generate input same_elsewhere
             writes_flight_or_booking keyed_by_flight_or_booking).
    - by intros σ' k.
    - intros σ1 σ2 σ3 H12 H23 k Hf Hb. by rewrite H23, H12.
    - apply action_keys.
    - exact Hkeys. }
  assert (Hstable : ∀ σ', same_elsewhere σ σ' → affected σ' input = affected σ input).
  { intros σ' Hσ'. unfold affected.
    destruct (get_path ["detail"; "flight_id"] input) as [[| | |fid| |]|]; try done.
    by apply query_same_elsewhere. }
  destruct Hr as [Ht Htr]. split; [by apply Hstable|].
  eapply Forall_impl; [exact Htr|]. intros e [He _]. by apply Hstable.
Qed.

(* ===================================================================== *)
(* A flight without bookings                                             *)
(* ===================================================================== *)

Section NoBookings.
Import Engine.
Variable fault : string → JSON → option Error.
Variable generate : JSON → JSON.
Variable x0 : JSON.

Lemma exec_map_empty (name : string) (mc : option nat)
    (ps : option (list (string * Tmpl))) (iter : list State) (σ : Table) (ctx : JSON) :
  get_path ["Items"] ctx = Some (JArr []) →
  exec fault generate x0 (Map name ["Items"] mc ps iter None) σ ctx = ok ctx σ [].
Proof. intros H. by rewrite exec_map_plain, H. Qed.

Lemma trace_handle (P : Entry → Prop) (c : option ((Table → JSON → Result) * Path))
    (ctx : JSON) (r : Result) :
  Forall P (trace r) →
  match c with Some (h, _) => ∀ σ ctx', Forall P (trace (h σ ctx')) | None => True end →
  Forall P (trace (handle c ctx r)).
Proof.
  intros Hr Hc. unfold handle. destruct (outcome r); try done.
  destruct c as [[h p]|]; [|done]. simpl. apply Forall_app. by split.
Qed.

Lemma trace_chain_cons (P : Entry → Prop) (s : State) (l : list State)
    (σ : Table) (ctx : JSON) :
  Forall P (trace (exec fault generate x0 s σ ctx)) →
  (∀ ctx', outcome (exec fault generate x0 s σ ctx) = Continue ctx' →
           Forall P (trace (exec_chain fault generate x0 l
                              (table (exec fault generate x0 s σ ctx)) ctx'))) →
  Forall P (trace (exec_chain fault generate x0 (s :: l) σ ctx)).
Proof.
  intros Hs Hl. rewrite exec_chain_cons. cbv zeta.
  destruct (outcome (exec fault generate x0 s σ ctx)) as [ctx'| |e] eqn:Ho; try done.
  simpl. apply Forall_app. split; [done|]. by apply Hl.
Qed.

(* Calls of states that neither generate nor publish. *)
Lemma quiet_chain (l : list State) (σ : Table) (ctx : JSON) :
  Forall (λ a, ∀ eff, may_issue a eff → is_notification eff = false)
    (flat_map actions_of l) →
  Forall quiet (trace (exec_chain fault generate x0 l σ ctx)).
Proof. apply (issues_only (λ eff, is_notification eff = false)). Qed.

Lemma quiet_state (s : State) (σ : Table) (ctx : JSON) :
  Forall (λ a, ∀ eff, may_issue a eff → is_notification eff = false) (actions_of s) →
  Forall quiet (trace (exec fault generate x0 s σ ctx)).
Proof.
  intros Hs. rewrite <- trace_chain_one. apply quiet_chain. simpl. by rewrite app_nil_r.
Qed.

(* The context after a booking query that found nothing. *)
Lemma no_items (ctx : JSON) :
  let ctx1 := put_path []
                (JObj (<["Items" := JArr (JObj <$> [])]>
                       (<["Count" := JNum (Z.of_nat (@length (gmap string JSON) []))]> ∅)))
                ctx in
  get_path ["Items"] ctx1 = Some (JArr []) ∧ get_path ["Count"] ctx1 = Some (JNum 0).
Proof.
  split; apply get_path_put_root_new; [by rewrite lookup_insert_eq|].
  rewrite lookup_insert_ne by discriminate. by rewrite lookup_insert_eq.
Qed.
End NoBookings.

Ltac continued :=
  let Ho := fresh "Ho" in
  intros Ho; cbn [Engine.ok Engine.outcome] in Ho; injection Ho as <-;
  cbn [Engine.ok Engine.table].

Ltac quiet_actions :=
  first [ apply quiet_chain; each_action ltac:(by intros [])
        | apply quiet_state; simpl; repeat (apply Forall_cons_2; [by intros []|]);
          apply Forall_nil_2 ].

Lemma delay_without_bookings (fault : string → JSON → option Engine.Error)
    (generate : JSON → JSON) (σ : Table) (input : JSON) :
  affected σ input = [] →
  Forall quiet (Engine.trace (Engine.run fault generate DelayWorkflow.definition σ input)).
Proof.
  intros Hnone. unfold Engine.run, DelayWorkflow.definition.
  apply trace_chain_cons; [quiet_actions|].
  intros ctx1 Ho. unfold DelayWorkflow.getBookings in Ho |- *.
  apply get_bookings_continue in Ho as (p & s & Hk & -> & -> & _).
  apply eval_bookings_key in Hk as (fid & Hfid & -> & ->).
  unfold affected in Hnone. rewrite Hfid in Hnone. rewrite Hnone.
  destruct (no_items input) as [_ Hcount]. cbv zeta in Hcount.
  set (ctx1 := put_path [] _ input) in *. clearbody ctx1.
  apply trace_chain_cons; [|intros; quiet_actions].
  unfold DelayWorkflow.parallelExecution. cbn [Engine.exec map].
  apply trace_handle; [|intros; quiet_actions].
  rewrite trace_join_two.
  change (Engine.run_chain [Engine.exec fault generate input DelayWorkflow.checkBookings])
    with (Engine.exec_chain fault generate input [DelayWorkflow.checkBookings]).
  change (Engine.run_chain [Engine.exec fault generate input DelayWorkflow.updateFlight])
    with (Engine.exec_chain fault generate input [DelayWorkflow.updateFlight]).
  apply Forall_app. split; [|quiet_actions].
  rewrite trace_chain_one. unfold DelayWorkflow.checkBookings.
  rewrite exec_choice. unfold Engine.eval_cond. rewrite Hcount.
  rewrite bool_decide_eq_false_2 by lia. quiet_actions.
Qed.

Lemma cancellation_without_bookings (fault : string → JSON → option Engine.Error)
    (generate : JSON → JSON) (σ : Table) (input : JSON) :
  affected σ input = [] →
  Forall quiet
    (Engine.trace (Engine.run fault generate CancellationWorkflow.definition σ input)).
Proof.
  intros Hnone. unfold Engine.run, CancellationWorkflow.definition.
  apply trace_chain_cons; [quiet_actions|].
  intros ctx1. unfold CancellationWorkflow.getBookings.
  match goal with
  | |- context [Engine.exec _ _ _ (Task ?n (DynamoQuery ?pk ?sk) None None) ?s ?c] =>
      destruct (exec_query_cases fault generate input n pk sk s c)
        as [(Hfail & _)|(p & s' & Hk & ->)]
  end.
  { unfold has_failed in Hfail. intros Ho. by rewrite Ho in Hfail. }
  apply eval_bookings_key in Hk as (fid & Hfid & -> & ->).
  unfold affected in Hnone. rewrite Hfid in Hnone. rewrite Hnone.
  destruct (no_items input) as [Hitems _]. cbv zeta in Hitems.
  set (found := put_path [] _ input) in *. clearbody found. continued.
  unfold CancellationWorkflow.markForRebooking.
  apply trace_chain_cons; rewrite exec_map_empty by done; [constructor|].
  intros ctx2. continued.
  unfold ProcessBookings.createProcessBookingsMap.
  apply trace_chain_cons; rewrite exec_map_empty by done; [constructor|].
  intros ctx2. continued. quiet_actions.
Qed.

Lemma gate_change_without_bookings (fault : string → JSON → option Engine.Error)
    (generate : JSON → JSON) (σ : Table) (input : JSON) :
  affected σ input = [] →
  Forall quiet
    (Engine.trace (Engine.run fault generate GateChangeWorkflow.definition σ input)).
Proof.
  intros Hnone. unfold Engine.run, GateChangeWorkflow.definition.
  apply trace_chain_cons; [quiet_actions|].
  intros ctx1. unfold GateChangeWorkflow.updateGate.
  match goal with
  | |- context [Engine.exec _ _ _ (Task ?n (DynamoUpdateItem ?pk ?sk ?upd) None None) ?s ?c] =>
      destruct (exec_update_cases fault generate input n pk sk upd s c)
        as [(Hfail & _)|(k & sets & Hk & Hsets & ->)]
  end.
  { unfold has_failed in Hfail. intros Ho. by rewrite Ho in Hfail. }
  apply flight_key_is_flight in Hk.
  set (σ' := Engine.update_item k sets σ).
  assert (Hσ' : same_elsewhere σ σ').
  { intros k' Hf Hb. unfold σ', Engine.update_item. rewrite lookup_insert_ne; [done|].
    by intros <-. }
  assert (Hpath : get_path ["detail"; "flight_id"] (Engine.put_result None (JObj ∅) input)
                  = get_path ["detail"; "flight_id"] input)
    by (apply get_path_put_root, lookup_empty).
  set (ctx' := Engine.put_result None (JObj ∅) input) in *.
  clearbody σ' ctx'. continued.
  apply trace_chain_cons; [quiet_actions|].
  intros ctx2. unfold GateChangeWorkflow.getBookings.
  match goal with
  | |- context [Engine.exec _ _ _ (Task ?n (DynamoQuery ?pk ?sk) None None) ?s ?c] =>
      destruct (exec_query_cases fault generate input n pk sk s c)
        as [(Hfail & _)|(p & s' & Hq & ->)]
  end.
  { unfold has_failed in Hfail. intros Ho. by rewrite Ho in Hfail. }
  apply eval_bookings_key in Hq as (fid & Hfid & -> & ->).
  rewrite Hpath in Hfid.
  unfold affected in Hnone. rewrite Hfid in Hnone.
  rewrite (query_same_elsewhere σ), Hnone by done.
  destruct (no_items ctx') as [Hitems _]. cbv zeta in Hitems.
  set (found := put_path [] _ ctx') in *. clearbody found. continued.
  unfold ProcessBookings.createProcessBookingsMap.
  apply trace_chain_cons; rewrite exec_map_empty by done; [constructor|].
  intros ctx3. continued. quiet_actions.
Qed.

(** X22: when no booking record is stored under the flight of the trigger,
    an execution of any of the three workflows calls the message generator
    for nobody and publishes no notification; the only calls it can issue
    are its flight update and, in the Delay workflow, a failure report. *)
Theorem no_bookings_no_notifications
    (fault : string → JSON → option Engine.Error) (generate : JSON → JSON)
    (σ : Table) (input : JSON) :
  affected σ input = [] →
  Forall (λ definition,
    Forall quiet (Engine.trace (Engine.run fault generate definition σ input)))
    catalog.
Proof.
  intros Hnone. unfold catalog.
  apply Forall_cons_2; [by apply delay_without_bookings|].
  apply Forall_cons_2; [by apply cancellation_without_bookings|].
  apply Forall_cons_2; [by apply gate_change_without_bookings|].
  apply Forall_nil_2.
Qed.

Lemma no_bookings_no_notifications_witness :
  Forall (λ definition,
    Forall quiet
      (Engine.trace (Engine.run Sample.no_fault Sample.generate definition
                       (<[("FLIGHT#F1", "METADATA") := Sample.flight "SCHEDULED"]> ∅)
                       Sample.cancelled)))
    catalog.
Proof. apply no_bookings_no_notifications. by vm_compute. Defined.

(* ===================================================================== *)
(* The Delay workflow: its failure handler                               *)
(* ===================================================================== *)

Section DelayHandler.
Import Engine.
Variable fault : string → JSON → option Error.
Variable generate : JSON → JSON.
Variable x0 : JSON.

(* The catch stores the error under $.error; $.Error is where it was. *)
Lemma error_path_kept (e : Error) (ctx : JSON) :
  get_path ["Error"] (put_path ["error"] (error_json e) ctx) = get_path ["Error"] ctx.
Proof.
  cbn [put_path get_path]. rewrite lookup_insert_ne by discriminate.
  by destruct ctx.
Qed.

(* NotifyDelayFailure on a context without $.Error: the message does not
   resolve and nothing is published. *)
Lemma notify_unresolved (σ : Table) (ctx : JSON) :
  get_path ["Error"] ctx = None →
  trace (exec fault generate x0 DelayWorkflow.notifyFailure σ ctx) = [].
Proof.
  intros Herror. unfold DelayWorkflow.notifyFailure. rewrite exec_task_plain.
  unfold exec_task. destruct (fault _ ctx); [done|].
  unfold exec_action. cbn [eval_obj eval_tmpl]. by rewrite Herror.
Qed.

Lemma trace_handle_at (P : Entry → Prop) (h : State) (p : Path) (ctx : JSON) (r : Result) :
  Forall P (trace r) →
  (∀ e σ, Forall P (trace (exec fault generate x0 h σ (put_path p (error_json e) ctx)))) →
  Forall P (trace (handle (Some (exec fault generate x0 h, p)) ctx r)).
Proof.
  intros Hr Hh. unfold handle. destruct (outcome r); try done.
  simpl. apply Forall_app. by split.
Qed.

(* A task of the Delay workflow with its catch, on a context without
   $.Error. *)
Lemma caught_task_unreported (name : string) (a : Action) (σ : Table) (ctx : JSON) :
  (∀ eff, may_issue a eff → is_report eff = false) →
  get_path ["Error"] ctx = None →
  Forall unreported
    (trace (exec fault generate x0
              (Task name a None (Some (DelayWorkflow.notifyFailure, ["error"]))) σ ctx)).
Proof.
  intros Ha Herror. cbn [exec]. apply trace_handle_at.
  - destruct (good_task fault generate x0 (λ _ _, True) (λ eff, is_report eff = false)
                (λ a, ∀ eff, may_issue a eff → is_report eff = false)
                (λ _, I) (action_issues _ generate x0) name a None σ ctx Ha) as [_ H].
    eapply Forall_impl; [exact H|]. by intros e [_ ?].
  - intros e σ'. rewrite notify_unresolved; [constructor|].
    by rewrite error_path_kept.
Qed.
End DelayHandler.

Lemma unreported_reports (r : Engine.Result) :
  Forall unreported (Engine.trace r) → reports r = [].
Proof.
  unfold reports. induction 1 as [|e t He _ IH]; [done|].
  rewrite filter_cons_False; [done|]. unfold unreported in He. by rewrite He.
Qed.

(** X23: the Delay workflow publishes no Failure Report for a trigger
    payload without a top-level Error field: each catch stores the error
    under $.error, NotifyDelayFailure reads $.Error and $.Cause, so its
    message never resolves. Whatever fails in the execution, zero reports
    are published. *)
Theorem delay_failure_report_never_resolves
    (fault : string → JSON → option Engine.Error) (generate : JSON → JSON)
    (σ : Table) (input : JSON) :
  get_path ["Error"] input = None →
  reports (Engine.run fault generate DelayWorkflow.definition σ input) = [].
Proof.
  intros Herror. apply unreported_reports.
  unfold Engine.run, DelayWorkflow.definition.
  apply trace_chain_cons.
  { apply caught_task_unreported; [by intros []|done]. }
  intros ctx1 Ho. unfold DelayWorkflow.getBookings in Ho |- *.
  apply get_bookings_continue in Ho as (p & s & _ & -> & -> & _).
  assert (Herror1 : get_path ["Error"]
                      (put_path []
                         (JObj (<["Items" := JArr (JObj <$> Engine.query p s σ)]>
                                (<["Count" := JNum (Z.of_nat (length (Engine.query p s σ)))]>
                                   ∅))) input) = None).
  { rewrite get_path_put_root; [done|]. by rewrite !lookup_insert_ne, lookup_empty. }
  set (ctx1 := put_path [] _ input) in *. clearbody ctx1.
  apply trace_chain_cons; [|intros; apply (issues_only (λ eff, is_report eff = false));
                            each_action ltac:(by intros [])].
  unfold DelayWorkflow.parallelExecution. cbn [Engine.exec map].
  apply trace_handle_at.
  2: { intros e σ'. rewrite notify_unresolved; [constructor|]. by rewrite error_path_kept. }
  rewrite trace_join_two.
  change (Engine.run_chain [Engine.exec fault generate input DelayWorkflow.checkBookings])
    with (Engine.exec_chain fault generate input [DelayWorkflow.checkBookings]).
  change (Engine.run_chain [Engine.exec fault generate input DelayWorkflow.updateFlight])
    with (Engine.exec_chain fault generate input [DelayWorkflow.updateFlight]).
  apply Forall_app. split.
  - apply (issues_only (λ eff, is_report eff = false)). each_action ltac:(by intros []).
  - rewrite trace_chain_one. apply caught_task_unreported; [by intros []|done].
Qed.

Lemma delay_failure_report_never_resolves_witness :
  reports (Engine.run Sample.query_down Sample.generate DelayWorkflow.definition
             Sample.full_table Sample.delayed) = [].
Proof. apply delay_failure_report_never_resolves. reflexivity. Defined.

(* The table after a Delay execution whose booking query and flight update
   the environment does not fail. *)
Lemma delay_table_updated
    (fault : string → JSON → option Engine.Error) (generate : JSON → JSON)
    (σ : Table) (input : JSON) (k : Key) (sets : list (string * JSON)) :
  (∀ ctx, fault "GetAffectedBookings" ctx = None) →
  (∀ ctx, fault "UpdateFlightStatus" ctx = None) →
  delay_write input = Some (k, sets) →
  Engine.table (Engine.run fault generate DelayWorkflow.definition σ input)
  = Engine.update_item k sets σ.
Proof.
  intros Hquery Hupdate Hwrite. unfold Engine.run, DelayWorkflow.definition.
  assert (Hquiet : ∀ σ' ctx',
    Engine.table (Engine.exec fault generate input DelayWorkflow.notifyFailure σ' ctx') = σ').
  { intros σ' ctx'.
    apply (reads_only_state fault generate input (λ _, True)).
    simpl. repeat constructor. }
  assert (∃ fid minutes reason,
            get_path ["detail"; "flight_id"] input = Some (JStr fid)
            ∧ Engine.eval_attr input input
                (numberFromString (stringAt ["detail"; "delay_minutes"])) = Some minutes
            ∧ get_path ["detail"; "reason"] input = Some (JStr reason)
            ∧ k = ("FLIGHT#" +:+ fid, "METADATA")
            ∧ sets = [("status", JStr "DELAYED"); ("delay_minutes", minutes);
                      ("delay_reason", JStr reason); ("GSI1PK", JStr "DELAYED")])
    as (fid & minutes & reason & Hfid & Hminutes & Hreason & -> & ->).
  { revert Hwrite. unfold delay_write.
    destruct (get_path ["detail"; "flight_id"] input) as [[| | |fid| |]|]; try done.
    destruct (Engine.eval_attr input input _) as [minutes|]; try done.
    destruct (get_path ["detail"; "reason"] input) as [[| | |reason| |]|]; try done.
    intros [= <- <-]. by exists fid, minutes, reason. }
  rewrite exec_chain_cons. cbv zeta.
  assert (Hfirst :
    Engine.exec fault generate input DelayWorkflow.getBookings σ input
    = Engine.ok
        (put_path []
           (JObj (<["Items" := JArr (JObj <$> Engine.query ("FLIGHT#" +:+ fid) "BOOKING#" σ)]>
                  (<["Count" := JNum (Z.of_nat (length (Engine.query ("FLIGHT#" +:+ fid)
                                                          "BOOKING#" σ)))]> ∅)))
           input) σ []).
  { unfold DelayWorkflow.getBookings. cbn [Engine.exec]. unfold Engine.exec_task.
    rewrite Hquery.
    unfold Engine.exec_action, Engine.eval_key, Engine.eval_attr, Engine.eval_tmpl.
    by rewrite Hfid, format_flight. }
  rewrite Hfirst. clear Hfirst.
  cbn [Engine.ok Engine.outcome Engine.table Engine.trace].
  set (ctx1 := put_path [] _ input).
  assert (Hdetail : ∀ path, get_path ("detail" :: path) ctx1 = get_path ("detail" :: path) input)
    by (intros path; apply bookings_keep_detail).
  clearbody ctx1.
  rewrite exec_chain_cons. cbv zeta.
  set (r2 := Engine.exec fault generate input DelayWorkflow.parallelExecution σ ctx1).
  assert (Hr2 : Engine.table r2
                = Engine.update_item ("FLIGHT#" +:+ fid, "METADATA")
                    [("status", JStr "DELAYED"); ("delay_minutes", minutes);
                     ("delay_reason", JStr reason); ("GSI1PK", JStr "DELAYED")] σ).
  { subst r2. unfold DelayWorkflow.parallelExecution. cbn [Engine.exec map].
    rewrite table_handle by exact Hquiet.
    rewrite table_join_two.
    change (Engine.run_chain [Engine.exec fault generate input DelayWorkflow.checkBookings])
      with (Engine.exec_chain fault generate input [DelayWorkflow.checkBookings]).
    change (Engine.run_chain [Engine.exec fault generate input DelayWorkflow.updateFlight])
      with (Engine.exec_chain fault generate input [DelayWorkflow.updateFlight]).
    assert (HA : Engine.table
                   (Engine.exec_chain fault generate input [DelayWorkflow.checkBookings] σ ctx1)
                 = σ).
    { apply (reads_only (λ _, True) fault generate input [DelayWorkflow.checkBookings]).
      each_action ltac:(split; [done|by intros []]). }
    rewrite HA, table_chain_one.
    unfold DelayWorkflow.updateFlight. cbn [Engine.exec].
    rewrite table_handle by exact Hquiet.
    unfold Engine.exec_task. rewrite Hupdate.
    revert Hminutes.
    unfold Engine.exec_action, Engine.eval_key, Engine.eval_sets,
      Engine.eval_attr, Engine.eval_tmpl.
    rewrite !Hdetail, Hfid, Hreason, format_flight.
    destruct (get_path ["detail"; "delay_minutes"] input) as [[| |m|m| |]|];
      intros Hm; try discriminate Hm; injection Hm as <-;
      cbn [Engine.ok Engine.table]; reflexivity. }
  clearbody r2. destruct (Engine.outcome r2) as [ctx2| |e]; [|exact Hr2..].
  rewrite exec_chain_cons. cbv zeta.
  cbn [Engine.exec Engine.outcome Engine.table Engine.trace]. exact Hr2.
Qed.

(** X24: in the Delay workflow the flight update does not wait for, or
    depend on, the notifications: when the booking query and the update
    itself are not failed by the environment and the trigger payload has a
    flight_id, delay_minutes and a reason, the table after the execution is
    the initial one with status DELAYED, delay_minutes, delay_reason and
    GSI1PK DELAYED written to the flight, whatever happens to the bookings
    branch (a missing passenger, a failing generator or publish). *)
Theorem delay_updates_flight_whatever_notifications_do
    (fault : string → JSON → option Engine.Error) (generate : JSON → JSON)
    (σ : Table) (input : JSON) (k : Key) (sets : list (string * JSON)) :
  (∀ ctx, fault "GetAffectedBookings" ctx = None) →
  (∀ ctx, fault "UpdateFlightStatus" ctx = None) →
  delay_write input = Some (k, sets) →
  let r := Engine.run fault generate DelayWorkflow.definition σ input in
  Engine.table r = Engine.update_item k sets σ
  ∧ stored (Engine.table r) k "status" = Some (JStr "DELAYED")
  ∧ stored (Engine.table r) k "GSI1PK" = Some (JStr "DELAYED")
  ∧ stored (Engine.table r) k "delay_reason" = get_path ["detail"; "reason"] input.
Proof.
  intros Hquery Hupdate Hwrite r. subst r.
  rewrite (delay_table_updated fault generate σ input k sets) by done.
  split; [done|]. revert Hwrite. unfold delay_write.
  destruct (get_path ["detail"; "flight_id"] input) as [[| | |fid| |]|]; try done.
  destruct (Engine.eval_attr input input _) as [minutes|]; try done.
  destruct (get_path ["detail"; "reason"] input) as [[| | |reason| |]|]; try done.
  intros [= <- <-].
  unfold stored, Engine.update_item. rewrite lookup_insert_eq. cbn [mbind option_bind].
  unfold Engine.apply_sets. repeat split; by apply lookup_union_Some_l.
Qed.

Lemma delay_updates_flight_whatever_notifications_do_witness :
  stored (Engine.table (Engine.run Sample.no_fault Sample.generate DelayWorkflow.definition
                          Sample.table Sample.delayed))
    ("FLIGHT#F1", "METADATA") "status" = Some (JStr "DELAYED")
  ∧ has_failed (Engine.run Sample.no_fault Sample.generate DelayWorkflow.definition
                  Sample.table Sample.delayed) = true.
Proof.
  split; [|by vm_compute].
  exact (proj1 (proj2 (delay_updates_flight_whatever_notifications_do
                         Sample.no_fault Sample.generate Sample.table Sample.delayed
                         ("FLIGHT#F1", "METADATA")
                         [("status", JStr "DELAYED"); ("delay_minutes", JNum 25);
                          ("delay_reason", JStr "WEATHER"); ("GSI1PK", JStr "DELAYED")]
                         (λ _, eq_refl) (λ _, eq_refl) eq_refl))).
Defined.

(* ===================================================================== *)
(* The Cancellation workflow: which bookings it marks                    *)
(* ===================================================================== *)

Lemma not_updates_rebook (σ : Table) (input : JSON) (t : list Engine.Entry) :
  Forall (λ e, is_update_effect (Engine.effect e) = false) t →
  Forall (rebooks_affected σ input) t.
Proof.
  intros H. eapply Forall_impl; [exact H|]. intros e He k sets Heff. cbv beta in He. by rewrite Heff in He.
Qed.

Section Marked.
Import Engine.
Variable fault : string → JSON → option Error.
Variable generate : JSON → JSON.
Variable x0 : JSON.

(* MarkBookingsForRebooking writes only bookings of the items it is given. *)
Lemma mark_items_from (items : list (gmap string JSON)) (σ : Table) :
  Forall (λ e, ∃ booking bid,
            booking ∈ items
            ∧ booking !! "booking_id" = Some (JStr bid)
            ∧ effect e = Updated ("BOOKING#" +:+ bid, "METADATA") rebooking)
    (run_all (map (mark_item fault generate x0) (JObj <$> items)) σ).2.
Proof.
  revert σ. induction items as [|it items IH]; intros σ; [constructor|].
  rewrite fmap_cons. cbn [map]. rewrite run_all_cons. cbn [snd].
  apply Forall_app. split.
  - destruct (mark_item_cases fault generate x0 it σ)
      as [(_ & _ & Htr)|(bid & Hbid & _ & _ & Htr)]; rewrite Htr; [constructor|].
    apply Forall_singleton. exists it, bid. by repeat split; [left|..].
  - eapply Forall_impl; [apply IH|]. intros e (b & bid & Hin & Hbid & He).
    exists b, bid. by repeat split; [right|..].
Qed.

Lemma no_update_calls (l : list State) (σ : Table) (ctx : JSON) :
  Forall (λ a, is_update a = false) (flat_map actions_of l) →
  Forall (λ e, is_update_effect (effect e) = false)
    (trace (exec_chain fault generate x0 l σ ctx)).
Proof.
  intros Hl. apply (issues_only (λ eff, is_update_effect eff = false)).
  eapply Forall_impl; [exact Hl|]. intros a Ha eff. by destruct a, eff.
Qed.
End Marked.

(** X25: the Cancellation workflow marks no booking of another flight:
    every write of an execution to a Booking item sets booking_status and
    GSI2PK to NEEDS_REBOOKING on BOOKING#<id> / METADATA, where <id> is the
    booking_id of a booking record stored under the flight of the trigger
    when the execution started. *)
Theorem cancellation_rebooks_affected_only
    (fault : string → JSON → option Engine.Error) (generate : JSON → JSON)
    (σ : Table) (input : JSON) :
  Forall (rebooks_affected σ input)
    (Engine.trace (Engine.run fault generate CancellationWorkflow.definition σ input)).
Proof.
  unfold Engine.run, CancellationWorkflow.definition.
  (* GetAffectedBookings *)
  apply trace_chain_cons.
  { rewrite <- trace_chain_one. apply not_updates_rebook, no_update_calls.
    simpl. by repeat constructor. }
  intros ctx1. unfold CancellationWorkflow.getBookings.
  match goal with
  | |- context [Engine.exec _ _ _ (Task ?n (DynamoQuery ?pk ?sk) None None) ?s ?c] =>
      destruct (exec_query_cases fault generate input n pk sk s c)
        as [(Hfail & _)|(p & s' & Hk & ->)]
  end.
  { unfold has_failed in Hfail. intros Ho. by rewrite Ho in Hfail. }
  apply eval_bookings_key in Hk as (fid & Hfid & -> & ->).
  assert (Haff : affected σ input = Engine.query ("FLIGHT#" +:+ fid) "BOOKING#" σ).
  { unfold affected. by rewrite Hfid. }
  set (bookings := Engine.query ("FLIGHT#" +:+ fid) "BOOKING#" σ) in *.
  set (found := put_path [] _ input).
  assert (Hitems : get_path ["Items"] found = Some (JArr (JObj <$> bookings))).
  { apply get_path_put_root_new. by rewrite lookup_insert_eq. }
  clearbody found. continued.
  (* MarkBookingsForRebooking *)
  apply trace_chain_cons.
  { unfold CancellationWorkflow.markForRebooking. rewrite exec_map_plain, Hitems.
    change (Engine.run_item input "MarkBookingsForRebooking" None
              (Engine.exec_chain fault generate input
                 [CancellationWorkflow.updateBookingStatus]))
      with (mark_item fault generate input).
    pose proof (mark_items_from fault generate input bookings σ) as Hmarked.
    destruct (Engine.run_all (map (mark_item fault generate input) (JObj <$> bookings)) σ)
      as [[[e|] σ2] marked]; cbn [fst snd] in *;
      cbn [Engine.join Engine.trace];
      (eapply Forall_impl; [exact Hmarked|]);
      intros entry (b & bid & Hin & Hbid & He) k sets Hk _;
      rewrite He in Hk; injection Hk as <- <-;
      exists b, bid; by rewrite Haff. }
  intros ctx2 _.
  (* ProcessBookings *)
  apply trace_chain_cons.
  { rewrite <- trace_chain_one. apply not_updates_rebook, no_update_calls.
    each_action ltac:(done). }
  intros ctx3 _.
  (* UpdateFlightStatus *)
  apply trace_chain_cons.
  2: { intros ctx4 _. apply not_updates_rebook, no_update_calls. simpl. constructor. }
  unfold CancellationWorkflow.updateFlight.
  match goal with
  | |- context [Engine.exec _ _ _ (Task ?n (DynamoUpdateItem ?pk ?sk ?upd) None None) ?s ?c] =>
      destruct (exec_update_cases fault generate input n pk sk upd s c)
        as [(_ & _ & Htr)|(k & sets & Hk & _ & ->)]
  end.
  { rewrite Htr. constructor. }
  apply flight_key_is_flight in Hk. apply Forall_singleton.
  intros k' sets' [= <- <-] Hb. by destruct (booking_is_no_flight k).
Qed.

(* ===================================================================== *)
(* A cancellation as the API shows it                                    *)
(* ===================================================================== *)

(** X26: after an execution of the Cancellation workflow that finished, the
    API, asked of the table the execution left, answers GET
    /flights/{flightId} for the flight of the trigger with status CANCELLED,
    and GET /bookings/{bookingId} for every booking that was stored under
    the flight with booking_status NEEDS_REBOOKING. *)
Theorem finished_cancellation_served_by_api
    (fault : string → JSON → option Engine.Error) (generate : JSON → JSON)
    (σ : Table) (input : JSON) (now : string) :
  let r := Engine.run fault generate CancellationWorkflow.definition σ input in
  Engine.outcome r = Engine.Finished →
  (∀ fid event,
     get_path ["detail"; "flight_id"] input = Some (JStr fid) →
     is_segment fid →
     ApiHandlers.httpMethod event = "GET" →
     ApiHandlers.path event = "/flights/" +:+ fid →
     ApiHandlers.param event "flightId" = fid →
     let response := ApiHandlers.handler now (ApiHandlers.client_of (Engine.table r)) event in
     ApiHandlers.statusCode response = 200
     ∧ get_path ["status"] (ApiHandlers.body response) = Some (JStr "CANCELLED"))
  ∧ (∀ booking bid event,
       booking ∈ affected σ input →
       booking !! "booking_id" = Some (JStr bid) →
       is_segment bid →
       ApiHandlers.httpMethod event = "GET" →
       ApiHandlers.path event = "/bookings/" +:+ bid →
       ApiHandlers.param event "bookingId" = bid →
       let response :=
         ApiHandlers.handler now (ApiHandlers.client_of (Engine.table r)) event in
       ApiHandlers.statusCode response = 200
       ∧ get_path ["booking_status"] (ApiHandlers.body response)
         = Some (JStr "NEEDS_REBOOKING")).
Proof.
  intros r Hfinished.
  destruct (cancellation_cases fault generate σ input)
    as [[Hfailed _]|(_ & fid' & σ' & Hfid' & _ & Hmarked & Htable)];
    fold r in Hfailed || fold r in Htable.
  { unfold has_failed in Hfailed. by rewrite Hfinished in Hfailed. }
  rewrite Htable. split.
  - intros fid event Hfid Hseg Hget Hpath Hparam response. subst response.
    rewrite Hfid in Hfid'. injection Hfid' as <-.
    unfold ApiHandlers.handler. rewrite route_flight; [|done|].
    2: { rewrite Hpath. rewrite <- (append_empty fid) at 1.
         apply match_segment_append; [done|by left]. }
    rewrite Hparam. cbn [ApiHandlers.client_of ApiHandlers.GetCommand ApiHandlers.bind].
    unfold Engine.update_item. rewrite lookup_insert_eq.
    cbn [ApiHandlers.statusCode ApiHandlers.body ApiHandlers.respond]. split; [done|].
    do 5 rewrite get_obj_ne by discriminate. rewrite get_obj_here by no_such_field.
    unfold Engine.apply_sets. by apply lookup_union_Some_l.
  - intros booking bid event Hin Hbid Hseg Hget Hpath Hparam response. subst response.
    unfold all_rebooked in Hmarked. rewrite Forall_forall in Hmarked.
    pose proof (rebooked_other bid fid'
                  [("status", JStr "CANCELLED"); ("GSI1PK", JStr "CANCELLED")] σ'
                  (Hmarked booking Hin bid Hbid)) as (item & Hitem & Hstatus & _).
    unfold ApiHandlers.handler. rewrite route_booking; [|done|].
    2: { rewrite Hpath. rewrite <- (append_empty bid) at 1.
         apply match_segment_append; [done|by left]. }
    rewrite Hparam. cbn [ApiHandlers.client_of ApiHandlers.GetCommand ApiHandlers.bind].
    rewrite Hitem.
    cbn [ApiHandlers.statusCode ApiHandlers.body ApiHandlers.respond]. split; [done|].
    simpl. by rewrite Hstatus.
Qed.

Lemma finished_cancellation_served_by_api_witness :
  get_path ["status"]
    (ApiHandlers.body
       (ApiHandlers.handler "2025-01-15T00:00:00.000Z"
          (ApiHandlers.client_of
             (Engine.table
                (Engine.run Sample.no_fault Sample.generate CancellationWorkflow.definition
                   (<[("FLIGHT#F1", "METADATA") := Sample.flight "SCHEDULED"]> ∅)
                   Sample.cancelled)))
          (Sample.request "/flights/F1" (<["flightId" := "F1"]> ∅))))
  = Some (JStr "CANCELLED").
Proof.
  refine (proj2 (proj1 (finished_cancellation_served_by_api Sample.no_fault Sample.generate
                          (<[("FLIGHT#F1", "METADATA") := Sample.flight "SCHEDULED"]> ∅)
                          Sample.cancelled "2025-01-15T00:00:00.000Z" _)
                   "F1" (Sample.request "/flights/F1" (<["flightId" := "F1"]> ∅))
                   eq_refl _ eq_refl eq_refl eq_refl)).
  - by vm_compute.
  - by split.
Defined.

(* ===================================================================== *)
(* A delay as the API shows it                                           *)
(* ===================================================================== *)

(** X27: when the booking query and the flight update of a Delay execution
    are not failed by the environment and the trigger payload has a
    flight_id, delay_minutes and a reason, then, whatever happened to the
    notifications, GET /flights?status=DELAYED asked of the table the
    execution left answers 200 and lists the flight of the trigger, with
    status DELAYED and the delay reason of the payload. *)
Theorem delayed_flight_listed_by_status
    (fault : string → JSON → option Engine.Error) (generate : JSON → JSON)
    (σ : Table) (input : JSON) (k : Key) (sets : list (string * JSON))
    (now : string) (event : ApiHandlers.APIGatewayProxyEvent) :
  (∀ ctx, fault "GetAffectedBookings" ctx = None) →
  (∀ ctx, fault "UpdateFlightStatus" ctx = None) →
  delay_write input = Some (k, sets) →
  ApiHandlers.httpMethod event = "GET" →
  ApiHandlers.path event = "/flights" →
  ApiHandlers.queryStringParameters event ≫= (λ q, q !! "status") = Some "DELAYED" →
  let r := Engine.run fault generate DelayWorkflow.definition σ input in
  let response := ApiHandlers.handler now (ApiHandlers.client_of (Engine.table r)) event in
  ApiHandlers.statusCode response = 200
  ∧ ∃ flights flight,
      get_path ["flights"] (ApiHandlers.body response) = Some (JArr flights)
      ∧ JObj flight ∈ flights
      ∧ Engine.table r !! k = Some flight
      ∧ flight !! "status" = Some (JStr "DELAYED")
      ∧ flight !! "delay_reason" = get_path ["detail"; "reason"] input.
Proof.
  intros Hquery Hupdate Hwrite Hget Hpath Hstatus r response. subst response r.
  rewrite (delay_table_updated fault generate σ input k sets) by done.
  revert Hwrite. unfold delay_write.
  destruct (get_path ["detail"; "flight_id"] input) as [[| | |fid| |]|]; try done.
  destruct (Engine.eval_attr input input _) as [minutes|]; try done.
  destruct (get_path ["detail"; "reason"] input) as [[| | |reason| |]|]; try done.
  intros [= <- <-].
  set (sets := [("status", JStr "DELAYED"); ("delay_minutes", minutes);
                ("delay_reason", JStr reason); ("GSI1PK", JStr "DELAYED")]).
  set (k := ("FLIGHT#" +:+ fid, "METADATA")).
  set (flight := Engine.apply_sets sets (default (Engine.key_item k) (σ !! k))).
  assert (Hflight : Engine.update_item k sets σ !! k = Some flight)
    by (unfold Engine.update_item; by rewrite lookup_insert_eq).
  assert (Hfields : flight !! "status" = Some (JStr "DELAYED")
                    ∧ flight !! "delay_reason" = Some (JStr reason)
                    ∧ flight !! "GSI1PK" = Some (JStr "DELAYED")).
  { unfold flight, Engine.apply_sets. repeat split; by apply lookup_union_Some_l. }
  destruct Hfields as (Hs & Hr & Hg). clearbody flight.
  unfold ApiHandlers.handler. rewrite route_flights, Hstatus by done.
  cbn [negb String.eqb Ascii.eqb Bool.eqb ApiHandlers.client_of ApiHandlers.QueryIndexCommand
       ApiHandlers.bind ApiHandlers.statusCode ApiHandlers.body ApiHandlers.respond
       ApiHandlers.Items ApiHandlers.Count default].
  split; [done|]. eexists _, flight. split; [by rewrite get_obj_here by no_such_field|].
  split; [|done]. apply list_elem_of_fmap_2, index_items. by exists k.
Qed.

Lemma delayed_flight_listed_by_status_witness :
  ApiHandlers.statusCode
    (ApiHandlers.handler "2025-01-15T00:00:00.000Z"
       (ApiHandlers.client_of
          (Engine.table (Engine.run Sample.no_fault Sample.generate DelayWorkflow.definition
                           (<[("FLIGHT#F1", "METADATA") := Sample.flight "SCHEDULED"]> ∅)
                           Sample.delayed)))
       (ApiHandlers.mkEvent "/flights" "GET" None (Some (<["status" := "DELAYED"]> ∅))))
  = 200.
Proof.
  exact (proj1 (delayed_flight_listed_by_status Sample.no_fault Sample.generate
                  (<[("FLIGHT#F1", "METADATA") := Sample.flight "SCHEDULED"]> ∅)
                  Sample.delayed ("FLIGHT#F1", "METADATA")
                  [("status", JStr "DELAYED"); ("delay_minutes", JNum 25);
                   ("delay_reason", JStr "WEATHER"); ("GSI1PK", JStr "DELAYED")]
                  "2025-01-15T00:00:00.000Z"
                  (ApiHandlers.mkEvent "/flights" "GET" None
                     (Some (<["status" := "DELAYED"]> ∅)))
                  (λ _, eq_refl) (λ _, eq_refl) eq_refl eq_refl eq_refl eq_refl)).
Defined.

(* ===================================================================== *)
(* ProcessBookings: what one booking item gets                           *)
(* ===================================================================== *)


Section Notified.
Import Engine.
Variable fault : string → JSON → option Error.
Variable generate : JSON → JSON.
Variable x0 : JSON.
Hypothesis no_fault : ∀ name ctx, fault name ctx = None.

End Notified.


